(** * Ashraf Furnitures: the administrative authentication gateway

    A shallow embedding of the authentication service
    (Firebase Authentication Service: [loginWithEmail], [loginWithGoogle],
    [checkGoogleRedirectResult], [logout], [getCurrentUser], [onAuthChange],
    [createAuditLog], and the admin management [createAdmin], [updateAdmin],
    [deleteAdmin]), of the login page's client-side rate limiter
    ([checkRateLimit], [recordLoginAttempt], [clearLoginAttempts],
    [handleLogin], [handleGoogleLogin], the countdown) and of the session
    store ([setupTokenRefresh], [clearTokenRefresh], [login],
    [loginWithGoogle], [logout], [isAdmin], [initializeAuth],
    [validateToken]).

    Conventions of the embedding.
    - Time is an integer number of milliseconds ([Z]), as [Date.now()]
      returns it.  One call of an operation observes one instant [now]:
      every clock read inside the call ([Date.now()], [new Date()],
      [serverTimestamp()]) yields that instant.
    - The Firestore collections [admins] and [auditLogs] are finite maps from
      document ids to documents; [setDoc] creates or overwrites, [updateDoc]
      changes fields of an existing document and rejects on a missing one.
      Reads and writes that reach the store succeed, and so do the
      provider's [signOut] and the unforced [getIdToken].  The id of an
      audit entry is made from an email address, which may contain a [/]
      and then is no document id: [docId] says which document, if any, a
      reference made from such an id names.  (Limits of the store itself,
      such as the greatest length of an id, are not modelled.)
    - A JavaScript exception is a value [Throw e]; an [async] function is a
      state transformer returning [Ok] or [Throw].  Each operation runs to
      completion before the next one starts; the refresh callback of the
      store is given in its two steps as well, before and after its
      [await], since a logout can run between them.
    - The identity provider is external: credential verification is a
      function of the environment, the outcome of the Google popup is an
      input of the call. *)

From Stdlib Require Import ZArith String Ascii List Lia.
From stdpp Require Import base gmap strings list fin_maps pretty.

Local Open Scope Z_scope.

(** ** JavaScript values and control flow *)

(** An exception object: Firebase errors carry a [code], errors made with
    [new Error(msg)] do not. *)
Record JsError := mkError { code : option string; message : string }.

Definition Error (msg : string) : JsError := mkError None msg.

Inductive Result (A : Type) : Type :=
| Ok (a : A)
| Throw (e : JsError).
Arguments Ok {A} a.
Arguments Throw {A} e.

(** An asynchronous operation over a state [S]. *)
Definition M (S A : Type) : Type := S → Result A * S.

Definition ret {S A} (a : A) : M S A := λ s, (Ok a, s).

Definition throw {S A} (e : JsError) : M S A := λ s, (Throw e, s).

Definition bind {S A B} (m : M S A) (k : A → M S B) : M S B :=
  λ s, match m s with
       | (Ok a, s') => k a s'
       | (Throw e, s') => (Throw e, s')
       end.

(** [try { m } catch (e) { h e }] *)
Definition tryCatch {S A} (m : M S A) (h : JsError → M S A) : M S A :=
  λ s, match m s with
       | (Ok a, s') => (Ok a, s')
       | (Throw e, s') => h e s'
       end.

Definition gets {S A} (f : S → A) : M S A := λ s, (Ok (f s), s).

Definition modify {S} (f : S → S) : M S unit := λ s, (Ok tt, f s).

Notation "x <~ m ;; k" := (bind m (λ x, k))
  (at level 100, m at next level, right associativity).
Notation "m ;;; k" := (bind m (λ _, k))
  (at level 100, right associativity).

(** [s.includes(p)] *)
Fixpoint startsWith (p s : string) : bool :=
  match p, s with
  | EmptyString, _ => true
  | String a p', String b s' => if Ascii.eqb a b then startsWith p' s' else false
  | String _ _, EmptyString => false
  end.

Fixpoint includes (p s : string) : bool :=
  startsWith p s ||
  match s with
  | EmptyString => false
  | String _ s' => includes p s'
  end.

(** [x || d] on a possibly-null string: [null] and the empty string are falsy. *)
Definition orElse (x : option string) (d : string) : string :=
  match x with
  | Some s => if String.eqb s "" then d else s
  | None => d
  end.

(** [Math.ceil(x / d)] for integers [x] and [d > 0].  The source divides in
    two steps ([/ 1000 / 60]) on doubles; for millisecond differences both
    quotients are exact enough that the ceiling is the integer one. *)
Definition ceilDiv (x d : Z) : Z := - ((- x) / d).

(** Decimal digits, for the shape of a printed number. *)
Definition isDigit (c : ascii) : bool :=
  match c with
  | "0" | "1" | "2" | "3" | "4" | "5" | "6" | "7" | "8" | "9" => true
  | _ => false
  end%char.

Fixpoint allDigits (s : string) : bool :=
  match s with
  | EmptyString => true
  | String c s' => isDigit c && allDigits s'
  end.

(** ** The authentication service *)

Module Firebase.

(** The user object of the identity provider. *)
Record User := mkUser {
  uid : string;
  email : option string;
  displayName : option string
}.

End Firebase.

Module AuditLog.

Inductive Status := success | failed | blocked.

(** A document of the [auditLogs] collection. *)
Record Entry := mkEntry {
  action : string;
  email : string;
  ipAddress : string;
  userAgent : string;
  status : Status;
  reason : string;
  timestamp : Z
}.

End AuditLog.

Module AuthService.

Inductive AdminRole := admin | editor | viewer.

(** The fields of a document of the [admins] collection. *)
Record AdminData := mkAdminData {
  email : string;
  name : string;
  role : AdminRole;
  isActive : bool;
  lastLogin : option Z;
  loginAttempts : Z;
  isLocked : bool;
  lockedUntil : option Z;
  createdAt : Z;
  updatedAt : Z
}.

(** [AdminUser]: the document's fields together with the id it was read
    under. *)
Record AdminUser := mkAdminUser { uid : string; data : AdminData }.

(** The bearer token; [expiresAt] is the expiry the provider stamped on it. *)
Record Token := mkToken { subject : string; expiresAt : Z }.

Record LoginResponse := mkLoginResponse { user : AdminUser; token : Token }.

(** What the service sees of the outside world. *)
Record Env := mkEnv {
  (** the provider's verdict on an email and a password *)
  verifyCredentials : string → string → Result Firebase.User;
  (** [import.meta.env.VITE_ADMIN_EMAIL] *)
  VITE_ADMIN_EMAIL : option string;
  (** [navigator.userAgent] *)
  userAgent : string;
  (** lifetime of an id token (provider-controlled) *)
  tokenLifetime : Z;
  (** whether a forced token refresh at a given instant succeeds *)
  refreshSucceeds : Z → bool;
  (** the URI encoder of the platform *)
  encodeURIComponent : string → string
}.

(** [auth] and [db].  [auditTrail] is a history variable: the entries
    written to the [auditLogs] collection, oldest first, one per write that
    reached the collection. *)
Record Backend := mkBackend {
  currentUser : option Firebase.User;
  admins : gmap string AdminData;
  auditLogs : gmap string AuditLog.Entry;
  auditTrail : list AuditLog.Entry
}.

Definition set_currentUser (u : option Firebase.User) (b : Backend) : Backend :=
  mkBackend u (admins b) (auditLogs b) (auditTrail b).
Definition set_admins (a : gmap string AdminData) (b : Backend) : Backend :=
  mkBackend (currentUser b) a (auditLogs b) (auditTrail b).

(** Field updates of an [admins] document, as [updateDoc] applies them. *)
Definition set_isActive (v : bool) (d : AdminData) : AdminData :=
  mkAdminData (email d) (name d) (role d) v (lastLogin d) (loginAttempts d)
    (isLocked d) (lockedUntil d) (createdAt d) (updatedAt d).
Definition set_lastLogin (v : option Z) (d : AdminData) : AdminData :=
  mkAdminData (email d) (name d) (role d) (isActive d) v (loginAttempts d)
    (isLocked d) (lockedUntil d) (createdAt d) (updatedAt d).
Definition set_loginAttempts (v : Z) (d : AdminData) : AdminData :=
  mkAdminData (email d) (name d) (role d) (isActive d) (lastLogin d) v
    (isLocked d) (lockedUntil d) (createdAt d) (updatedAt d).
Definition set_isLocked (v : bool) (d : AdminData) : AdminData :=
  mkAdminData (email d) (name d) (role d) (isActive d) (lastLogin d)
    (loginAttempts d) v (lockedUntil d) (createdAt d) (updatedAt d).
Definition set_lockedUntil (v : option Z) (d : AdminData) : AdminData :=
  mkAdminData (email d) (name d) (role d) (isActive d) (lastLogin d)
    (loginAttempts d) (isLocked d) v (createdAt d) (updatedAt d).
Definition set_updatedAt (v : Z) (d : AdminData) : AdminData :=
  mkAdminData (email d) (name d) (role d) (isActive d) (lastLogin d)
    (loginAttempts d) (isLocked d) (lockedUntil d) (createdAt d) v.

(** *** Primitives of the SDK *)

Definition signInWithEmailAndPassword (env : Env) (email password : string)
  : M Backend Firebase.User :=
  λ b, match verifyCredentials env email password with
       | Ok u => (Ok u, set_currentUser (Some u) b)
       | Throw e => (Throw e, b)
       end.

(** [popup] is what the provider's popup resolved or rejected with. *)
Definition signInWithPopup (popup : Result Firebase.User) : M Backend Firebase.User :=
  λ b, match popup with
       | Ok u => (Ok u, set_currentUser (Some u) b)
       | Throw e => (Throw e, b)
       end.

Definition signOut : M Backend unit := modify (set_currentUser None).

(** [getDoc(doc(db, 'admins', id))]: [None] when [!snap.exists()]. *)
Definition getDoc (id : string) : M Backend (option AdminData) :=
  gets (λ b, admins b !! id).

Definition setDoc (id : string) (d : AdminData) : M Backend unit :=
  modify (λ b, set_admins (<[id := d]> (admins b)) b).

Definition updateDoc (id : string) (f : AdminData → AdminData) : M Backend unit :=
  λ b, match admins b !! id with
       | Some d => (Ok tt, set_admins (<[id := f d]> (admins b)) b)
       | None => (Throw (mkError (Some "not-found") "No document to update"), b)
       end.

(** [firebaseUser.getIdToken()] right after a sign-in at [now], and
    [getIdToken(true)] at [now]: a token that expires one lifetime later. *)
Definition getIdToken (env : Env) (now : Z) (u : Firebase.User) : Token :=
  mkToken (Firebase.uid u) (now + tokenLifetime env).

(** *** Helper functions *)

Definition getAdminData (uid : string) : M Backend (option AdminUser) :=
  adminSnap <~ getDoc uid ;;
  match adminSnap with
  | None => ret None
  | Some data => ret (Some (mkAdminUser uid data))
  end.

(** The id of an audit document: [`${Date.now()}-${email}`]. *)
Definition auditDocId (now : Z) (email : string) : string :=
  pretty now +:+ "-" +:+ email.

(** [doc(db, collection, id)].  The SDK reads the id as a path: it throws
    on an id that contains [//], splits the id at [/] and drops the empty
    pieces.  Exactly one piece is left: the reference is the document of
    the collection with that piece as id.  An even number of pieces would
    make a path with an odd number of segments, on which [doc] throws; three
    or more pieces in odd number name a document of a nested collection,
    not one of this collection.  [docId] is the id of the document of the
    collection the reference names, if it names one. *)
Fixpoint segmentsFrom (piece s : string) : list string :=
  match s with
  | EmptyString => if String.eqb piece "" then [] else [piece]
  | String c s' =>
      if Ascii.eqb c "/"%char then
        (if String.eqb piece "" then [] else [piece]) ++ segmentsFrom "" s'
      else segmentsFrom (piece +:+ String c "") s'
  end.

Definition segments (path : string) : list string := segmentsFrom "" path.

Definition docId (id : string) : option string :=
  if includes "//" id then None
  else match segments id with
       | [piece] => Some piece
       | _ => None
       end.

(** The [try] block is [setDoc(doc(db, 'auditLogs', id), entry)]; the
    [catch] block reports to the console and returns.  So the call always
    returns normally, and when the id names no document of the collection
    (an email with a [/] in it) the collection is left as it is. *)
Definition createAuditLog (env : Env) (now : Z) (action email : string)
    (status : AuditLog.Status) (reason : string) : M Backend unit :=
  let entry := AuditLog.mkEntry action email "unknown" (userAgent env) status reason now in
  let ref := docId (auditDocId now email) in
  modify (λ b,
    mkBackend (currentUser b) (admins b)
      (match ref with
       | Some id => <[id := entry]> (auditLogs b)
       | None => auditLogs b
       end)
      (match ref with
       | Some _ => auditTrail b ++ [entry]
       | None => auditTrail b
       end)).

(** *** Login with email and password *)

Definition allowedAdminEmail : string := "admin@ashraffurnitures.com".

(** The body of the [try] block. *)
Definition loginWithEmail_try (env : Env) (now : Z) (email password : string)
  : M Backend LoginResponse :=
  firebaseUser <~ signInWithEmailAndPassword env email password ;;
  if negb (String.eqb email allowedAdminEmail) then
    signOut ;;;
    createAuditLog env now "login_attempt" email AuditLog.blocked
      ("Access denied. Only " +:+ allowedAdminEmail +:+ " can login") ;;;
    throw (Error ("Access denied. Only " +:+ allowedAdminEmail +:+ " can login."))
  else
    adminData <~ getAdminData (Firebase.uid firebaseUser) ;;
    match adminData with
    | None =>
        signOut ;;;
        createAuditLog env now "login_attempt" email AuditLog.failed
          "User not found in admins collection" ;;;
        throw (Error "User is not an admin")
    | Some adminData =>
        if negb (isActive (data adminData)) then
          signOut ;;;
          createAuditLog env now "login_attempt" email AuditLog.blocked
            "Account inactive" ;;;
          throw (Error "Admin account is inactive")
        else
          (match isLocked (data adminData), lockedUntil (data adminData) with
           | true, Some lockedUntil =>
               if now <? lockedUntil then
                 let remainingMinutes := ceilDiv (lockedUntil - now) (1000 * 60) in
                 signOut ;;;
                 createAuditLog env now "login_attempt" email AuditLog.blocked
                   ("Account locked for " +:+ pretty remainingMinutes +:+ " minutes") ;;;
                 throw (Error ("Account is locked. Try again in "
                               +:+ pretty remainingMinutes +:+ " minutes"))
               else
                 updateDoc (Firebase.uid firebaseUser)
                   (λ d, set_isLocked false (set_lockedUntil None
                           (set_loginAttempts 0 (set_updatedAt now d))))
           | _, _ => ret tt
           end) ;;;
          updateDoc (Firebase.uid firebaseUser)
            (λ d, set_loginAttempts 0 (set_lastLogin (Some now)
                    (set_updatedAt now d))) ;;;
          createAuditLog env now "login_success" email AuditLog.success
            "Successful login" ;;;
          let token := getIdToken env now firebaseUser in
          ret (mkLoginResponse
                 (mkAdminUser (uid adminData)
                    (set_loginAttempts 0 (set_lastLogin (Some now) (data adminData))))
                 token)
    end.

Definition isCredentialError (error : JsError) : bool :=
  match code error with
  | Some c => String.eqb c "auth/wrong-password" || String.eqb c "auth/invalid-credential"
  | None => false
  end.

(** The inner [try] of the [catch] block: count the failure on the document
    [admins/<email>].  ([adminData.loginAttempts || 0] is the stored number:
    the only falsy number it replaces is 0 itself.  The directory holds its
    documents under uids; an email with a slash in it is no id of a
    document, and the lookup under it finds none.) *)
Definition recordFailedAttempt (env : Env) (now : Z) (email : string)
  : M Backend unit :=
  usersSnapshot <~ getDoc email ;;
  match usersSnapshot with
  | Some adminData =>
      let loginAttempts := loginAttempts adminData + 1 in
      if 5 <=? loginAttempts then
        let lockedUntil := now + 15 * 60 * 1000 in
        updateDoc email
          (λ d, set_isLocked true (set_lockedUntil (Some lockedUntil)
                  (set_loginAttempts loginAttempts (set_updatedAt now d)))) ;;;
        createAuditLog env now "login_attempt" email AuditLog.blocked
          "Account locked after 5 failed attempts" ;;;
        throw (Error "Too many failed login attempts. Account locked for 15 minutes")
      else
        updateDoc email
          (λ d, set_loginAttempts loginAttempts (set_updatedAt now d)) ;;;
        createAuditLog env now "login_attempt" email AuditLog.failed
          ("Invalid password (" +:+ pretty (5 - loginAttempts) +:+ " attempts left)") ;;;
        throw (Error ("Invalid email or password. "
                      +:+ pretty (5 - loginAttempts) +:+ " attempts remaining"))
  | None => ret tt
  end.

(** The [catch] block. *)
Definition loginWithEmail_catch (env : Env) (now : Z) (email : string)
    (error : JsError) : M Backend LoginResponse :=
  if isCredentialError error then
    tryCatch (recordFailedAttempt env now email)
      (λ innerError,
         if includes "attempts" (message innerError)
         then throw innerError else ret tt) ;;;
    createAuditLog env now "login_attempt" email AuditLog.failed
      "Invalid credentials" ;;;
    throw (Error "Invalid email or password")
  else
    createAuditLog env now "login_attempt" email AuditLog.failed (message error) ;;;
    throw error.

Definition loginWithEmail (env : Env) (now : Z) (email password : string)
  : M Backend LoginResponse :=
  tryCatch (loginWithEmail_try env now email password)
           (loginWithEmail_catch env now email).

(** *** Login with Google OAuth *)

(** [allowedAdminEmail && firebaseUser.email !== allowedAdminEmail]: the
    restriction applies only when the variable is set to a non-empty string. *)
Definition emailNotAllowed (env : Env) (firebaseUser : Firebase.User) : option string :=
  match VITE_ADMIN_EMAIL env with
  | Some allowed =>
      if String.eqb allowed "" then None
      else match Firebase.email firebaseUser with
           | Some e => if String.eqb e allowed then None else Some allowed
           | None => Some allowed
           end
  | None => None
  end.

(** The document written for a first-time federated login. *)
Definition newAdminData (now : Z) (firebaseUser : Firebase.User) : AdminData :=
  mkAdminData (orElse (Firebase.email firebaseUser) "")
              (orElse (Firebase.displayName firebaseUser) "Admin User")
              admin true (Some now) 0 false None now now.

Definition isPopupCancelled (error : JsError) : bool :=
  match code error with
  | Some c => String.eqb c "auth/popup-closed-by-user"
              || String.eqb c "auth/cancelled-popup-request"
  | None => false
  end.

Definition loginWithGoogle_try (env : Env) (now : Z) (popup : Result Firebase.User)
  : M Backend LoginResponse :=
  firebaseUser <~ signInWithPopup popup ;;
  let who := orElse (Firebase.email firebaseUser) "unknown" in
  (match emailNotAllowed env firebaseUser with
   | Some allowedAdminEmail =>
       signOut ;;;
       createAuditLog env now "google_oauth" who AuditLog.blocked
         ("Email not allowed. Only " +:+ allowedAdminEmail +:+ " can login") ;;;
       throw (Error ("Access denied. Only " +:+ allowedAdminEmail +:+ " can login."))
   | None => ret tt
   end) ;;;
  found <~ getAdminData (Firebase.uid firebaseUser) ;;
  adminData <~
    match found with
    | None =>
        setDoc (Firebase.uid firebaseUser) (newAdminData now firebaseUser) ;;;
        createAuditLog env now "google_oauth" who AuditLog.success
          "First-time Google OAuth login" ;;;
        ret (mkAdminUser (Firebase.uid firebaseUser) (newAdminData now firebaseUser))
    | Some adminData =>
        if negb (isActive (data adminData)) then
          signOut ;;;
          createAuditLog env now "google_oauth" who AuditLog.blocked
            "Account inactive" ;;;
          throw (Error "Admin account is inactive")
        else
          updateDoc (Firebase.uid firebaseUser)
            (λ d, set_lastLogin (Some now) (set_updatedAt now d)) ;;;
          createAuditLog env now "google_oauth" who AuditLog.success
            "Successful Google OAuth login" ;;;
          ret adminData
    end ;;
  let token := getIdToken env now firebaseUser in
  ret (mkLoginResponse
         (mkAdminUser (uid adminData) (set_lastLogin (Some now) (data adminData)))
         token).

Definition loginWithGoogle_catch (env : Env) (now : Z) (error : JsError)
  : M Backend LoginResponse :=
  if isPopupCancelled error then
    throw (Error "Sign-in cancelled. Please try again.")
  else
    createAuditLog env now "google_oauth" "unknown" AuditLog.failed (message error) ;;;
    throw error.

Definition loginWithGoogle (env : Env) (now : Z) (popup : Result Firebase.User)
  : M Backend LoginResponse :=
  tryCatch (loginWithGoogle_try env now popup) (loginWithGoogle_catch env now).

(** *** Logout *)

Definition logout (env : Env) (now : Z) : M Backend unit :=
  currentUser <~ gets currentUser ;;
  (match currentUser with
   | Some u =>
       match Firebase.email u with
       | Some e =>
           if String.eqb e "" then ret tt
           else createAuditLog env now "logout" e AuditLog.success "User logged out"
       | None => ret tt
       end
   | None => ret tt
   end) ;;;
  signOut.

(** *** Authentication state changes *)

(** The listener [onAuthChange] registers with the provider.  The value
    returned is the argument the listener hands to [callback]. *)
Definition onAuthChange (env : Env) (now : Z) (firebaseUser : option Firebase.User)
  : M Backend (option AdminUser) :=
  match firebaseUser with
  | Some firebaseUser =>
      match emailNotAllowed env firebaseUser with
      | Some _ => signOut ;;; ret None
      | None =>
          found <~ getAdminData (Firebase.uid firebaseUser) ;;
          adminData <~
            match found with
            | None =>
                setDoc (Firebase.uid firebaseUser) (newAdminData now firebaseUser) ;;;
                createAuditLog env now "auth_state_change"
                  (orElse (Firebase.email firebaseUser) "unknown") AuditLog.success
                  "First-time login - admin account created" ;;;
                ret (mkAdminUser (Firebase.uid firebaseUser)
                       (newAdminData now firebaseUser))
            | Some adminData => ret adminData
            end ;;
          if negb (isActive (data adminData)) then signOut ;;; ret None
          else ret (Some adminData)
      end
  | None => ret None
  end.

End AuthService.

(** ** The login page's client-side rate limiter *)

Module RateLimit.

Definition RATE_LIMIT_MAX_ATTEMPTS : Z := 5.
Definition RATE_LIMIT_WINDOW_MS : Z := 15 * 60 * 1000.

Record LoginAttempt := mkLoginAttempt { timestamp : Z; email : string }.

Record RateLimitResult := mkRateLimitResult {
  allowed : bool;
  remainingTime : option Z
}.

(** [attempts.filter(attempt => now - attempt.timestamp < RATE_LIMIT_WINDOW_MS)] *)
Definition recent (now : Z) (attempts : list LoginAttempt) : list LoginAttempt :=
  List.filter (λ attempt, now - timestamp attempt <? RATE_LIMIT_WINDOW_MS) attempts.

(** [attempts.filter(attempt => attempt.email === email)] *)
Definition forEmail (email0 : string) (attempts : list LoginAttempt) : list LoginAttempt :=
  List.filter (λ attempt, String.eqb (email attempt) email0) attempts.

(** [stored] is the list kept under the key [login_attempts] of the local
    storage (the empty list when the key is absent). *)
Definition checkRateLimit (stored : list LoginAttempt) (now : Z) (email0 : string)
  : RateLimitResult :=
  let recentAttempts := recent now stored in
  let emailAttempts := forEmail email0 recentAttempts in
  if RATE_LIMIT_MAX_ATTEMPTS <=? Z.of_nat (length emailAttempts) then
    let oldestAttempt := head emailAttempts in
    mkRateLimitResult false
      ((λ a, RATE_LIMIT_WINDOW_MS - (now - timestamp a)) <$> oldestAttempt)
  else mkRateLimitResult true None.

Definition recordLoginAttempt (stored : list LoginAttempt) (now : Z) (email0 : string)
  : list LoginAttempt :=
  recent now (stored ++ [mkLoginAttempt now email0]).

Definition clearLoginAttempts (stored : list LoginAttempt) (email0 : string)
  : list LoginAttempt :=
  List.filter (λ attempt, negb (String.eqb (email attempt) email0)) stored.

End RateLimit.

(** ** The session store *)

Module AuthStore.

Import AuthService.

Record User := mkUser {
  id : string;
  email : string;
  name : string;
  role : AdminRole;
  avatar : option string;
  photoURL : option string
}.

(** The state of the store. *)
Record Store := mkStore {
  user : option User;
  token : option Token;
  isAuthenticated : bool;
  loading : bool
}.

(** A timer made by [setInterval]: it fires at [due], then every [period]. *)
Record Timer := mkTimer { period : Z; due : Z }.

(** The page: the service's backend, the browser's interval timers (in the
    order they were made) and local storage, the store, and the variables
    of the store's module. *)
Record World := mkWorld {
  backend : Backend;
  timers : list (positive * Timer);
  nextTimerId : positive;
  login_attempts : list RateLimit.LoginAttempt;
  store : Store;
  isInitializing : bool;
  hasInitialized : bool;
  tokenRefreshInterval : option positive
}.

Definition set_backend (b : Backend) (w : World) : World :=
  mkWorld b (timers w) (nextTimerId w) (login_attempts w) (store w)
    (isInitializing w) (hasInitialized w) (tokenRefreshInterval w).
Definition set_timers (l : list (positive * Timer)) (w : World) : World :=
  mkWorld (backend w) l (nextTimerId w) (login_attempts w) (store w)
    (isInitializing w) (hasInitialized w) (tokenRefreshInterval w).
Definition set_nextTimerId (n : positive) (w : World) : World :=
  mkWorld (backend w) (timers w) n (login_attempts w) (store w)
    (isInitializing w) (hasInitialized w) (tokenRefreshInterval w).
Definition set_login_attempts (l : list RateLimit.LoginAttempt) (w : World) : World :=
  mkWorld (backend w) (timers w) (nextTimerId w) l (store w)
    (isInitializing w) (hasInitialized w) (tokenRefreshInterval w).
Definition set_store (s : Store) (w : World) : World :=
  mkWorld (backend w) (timers w) (nextTimerId w) (login_attempts w) s
    (isInitializing w) (hasInitialized w) (tokenRefreshInterval w).
Definition set_hasInitialized (v : bool) (w : World) : World :=
  mkWorld (backend w) (timers w) (nextTimerId w) (login_attempts w) (store w)
    (isInitializing w) v (tokenRefreshInterval w).
Definition set_tokenRefreshInterval (v : option positive) (w : World) : World :=
  mkWorld (backend w) (timers w) (nextTimerId w) (login_attempts w) (store w)
    (isInitializing w) (hasInitialized w) v.

(** Run an operation of the service on the page's backend. *)
Definition liftB {A} (m : M Backend A) : M World A :=
  λ w, let '(r, b) := m (backend w) in (r, set_backend b w).

(** [set({ ... })] *)
Definition set (f : Store → Store) : M World unit :=
  modify (λ w, set_store (f (store w)) w).

Definition adminUserToUser (env : Env) (adminUser : AdminUser) : User :=
  mkUser (uid adminUser) (AuthService.email (data adminUser))
    (AuthService.name (data adminUser)) (AuthService.role (data adminUser))
    (Some ("https://ui-avatars.com/api/?name="
           +:+ encodeURIComponent env (AuthService.name (data adminUser))
           +:+ "&background=f59e0b&color=fff"))
    None.

(** *** Interval timers of the browser *)

(** [setInterval(callback, period)] at [now]; ids are positive integers. *)
Definition setInterval (now period0 : Z) : M World positive :=
  λ w, let id := nextTimerId w in
       (Ok id, set_nextTimerId (Pos.succ id)
                 (set_timers (timers w ++ [(id, mkTimer period0 (now + period0))]) w)).

Definition clearInterval (id0 : positive) : M World unit :=
  modify (λ w, set_timers (List.filter (λ x, negb (Pos.eqb (fst x) id0)) (timers w)) w).

(** *** Token refresh *)

Definition REFRESH_INTERVAL_MS : Z := 45 * 60 * 1000.

Definition setupTokenRefresh (now : Z) : M World unit :=
  tokenRefreshInterval0 <~ gets tokenRefreshInterval ;;
  (match tokenRefreshInterval0 with
   | Some id => clearInterval id
   | None => ret tt
   end) ;;;
  id <~ setInterval now REFRESH_INTERVAL_MS ;;
  modify (set_tokenRefreshInterval (Some id)).

Definition clearTokenRefresh : M World unit :=
  tokenRefreshInterval0 <~ gets tokenRefreshInterval ;;
  match tokenRefreshInterval0 with
  | Some id => clearInterval id ;;; modify (set_tokenRefreshInterval None)
  | None => ret tt
  end.

(** The callback handed to [setInterval] has an [await] in it, so it runs
    in two steps, and other handlers may run between them.

    The first step, at the firing of the timer: the callback reads
    [auth.currentUser] and, when somebody is signed in, asks the provider
    for a forced refresh; the result is the user the request is for. *)
Definition refreshRequest : M World (option Firebase.User) :=
  gets (λ w, currentUser (backend w)).

(** What the provider answers to a forced refresh asked at [t]. *)
Definition forcedRefresh (env : Env) (t : Z) (firebaseUser : Firebase.User)
  : Result Token :=
  if refreshSucceeds env t then Ok (getIdToken env t firebaseUser)
  else Throw (mkError (Some "auth/network-request-failed") "Token refresh failed").

(** The second step, when the request settles: [set({ token: newToken })]
    on a token, and the [catch] block (a message on the console) on a
    rejection.  Nothing is checked again before the token is stored. *)
Definition refreshSettle (answer : Result Token) : M World unit :=
  tryCatch
    (match answer with
     | Ok newToken =>
         set (λ s, mkStore (user s) (Some newToken) (isAuthenticated s) (loading s))
     | Throw error => throw error
     end)
    (λ error, ret tt).

(** The callback fired at instant [t] when its request settles before any
    other handler runs. *)
Definition refreshCallback (env : Env) (t : Z) : M World unit :=
  firebaseUser <~ refreshRequest ;;
  match firebaseUser with
  | Some firebaseUser => refreshSettle (forcedRefresh env t firebaseUser)
  | None => ret tt
  end.

(** *** Actions of the store *)

Definition login (env : Env) (now : Z) (email0 password : string) : M World unit :=
  tryCatch
    (set (λ s, mkStore (user s) (token s) (isAuthenticated s) true) ;;;
     response <~ liftB (loginWithEmail env now email0 password) ;;
     let user0 := adminUserToUser env (AuthService.user response) in
     set (λ _, mkStore (Some user0) (Some (AuthService.token response)) true false) ;;;
     setupTokenRefresh now)
    (λ error,
       set (λ s, mkStore (user s) (token s) (isAuthenticated s) false) ;;;
       throw (Error (orElse (Some (message error)) "Login failed"))).

Definition loginWithGoogle (env : Env) (now : Z) (popup : Result Firebase.User)
  : M World unit :=
  tryCatch
    (set (λ s, mkStore (user s) (token s) (isAuthenticated s) true) ;;;
     response <~ liftB (AuthService.loginWithGoogle env now popup) ;;
     let user0 := adminUserToUser env (AuthService.user response) in
     set (λ _, mkStore (Some user0) (Some (AuthService.token response)) true false) ;;;
     setupTokenRefresh now)
    (λ error,
       set (λ s, mkStore (user s) (token s) (isAuthenticated s) false) ;;;
       throw (Error (orElse (Some (message error)) "Google login failed"))).

Definition logout (env : Env) (now : Z) : M World unit :=
  tryCatch
    (clearTokenRefresh ;;;
     liftB (AuthService.logout env now) ;;;
     set (λ s, mkStore None None false (loading s)))
    (λ error, ret tt).

Definition isAdmin (w : World) : bool :=
  match user (store w) with
  | Some u => match role u with admin | editor => true | viewer => false end
  | None => false
  end.

(** The callback [initializeAuth] subscribes with.  [idToken] is what the
    unforced [getIdToken()] of the signed-in user resolves to. *)
Definition authCallback (env : Env) (now : Z) (idToken : Token)
    (adminUser : option AdminUser) : M World unit :=
  match adminUser with
  | Some adminUser =>
      firebaseUser <~ gets (λ w, currentUser (backend w)) ;;
      let token0 := match firebaseUser with Some _ => Some idToken | None => None end in
      let user0 := adminUserToUser env adminUser in
      set (λ _, mkStore (Some user0) token0 true false) ;;;
      setupTokenRefresh now
  | None =>
      clearTokenRefresh ;;;
      set (λ _, mkStore None None false false)
  end.

Definition initializeAuth : M World unit :=
  λ w, if isInitializing w then (Ok tt, w)
       else if hasInitialized w then (Ok tt, w)
       else (Ok tt, set_hasInitialized true w).

(** The provider reporting its current user to the subscribed listener. *)
Definition authStateChanged (env : Env) (now : Z) (idToken : Token) : M World unit :=
  λ w, if hasInitialized w then
         (firebaseUser <~ gets (λ w, currentUser (backend w)) ;;
          adminUser <~ liftB (onAuthChange env now firebaseUser) ;;
          authCallback env now idToken adminUser) w
       else (Ok tt, w).

Definition validateToken (w : World) : bool := isAuthenticated (store w).

(** *** The passage of time *)

Definition earlier (x y : positive * Timer) : positive * Timer :=
  if due (snd y) <? due (snd x) then y else x.

(** The timer to fire next among those due by [t]: the earliest, and among
    equally early ones the first made. *)
Fixpoint nextDue (t : Z) (l : list (positive * Timer)) : option (positive * Timer) :=
  match l with
  | [] => None
  | x :: l' =>
      match nextDue t l' with
      | Some y => if due (snd x) <=? t then Some (earlier x y) else Some y
      | None => if due (snd x) <=? t then Some x else None
      end
  end.

Definition reschedule (id0 : positive) (l : list (positive * Timer))
  : list (positive * Timer) :=
  List.map (λ x, if Pos.eqb (fst x) id0
                 then (fst x, mkTimer (period (snd x)) (due (snd x) + period (snd x)))
                 else x) l.

(** One firing: the callback runs at the timer's due instant, its request
    settling at once, and the timer is due again one period later. *)
Definition fire (env : Env) (x : positive * Timer) (w : World) : World :=
  let w' := snd (refreshCallback env (due (snd x)) w) in
  set_timers (reschedule (fst x) (timers w')) w'.

Fixpoint runTimers (env : Env) (fuel : nat) (t : Z) (w : World) : World :=
  match fuel with
  | O => w
  | S fuel' =>
      match nextDue t (timers w) with
      | Some x => runTimers env fuel' t (fire env x w)
      | None => w
      end
  end.

(** How often a timer fires up to and including instant [t]. *)
Definition firingsDue (t : Z) (tm : Timer) : nat :=
  if due tm <=? t then S (Z.to_nat ((t - due tm) / period tm)) else O.

(** Let the clock reach [t], firing every timer that comes due. *)
Definition advanceTo (env : Env) (t : Z) (w : World) : World :=
  runTimers env (list_sum (List.map (λ x, firingsDue t (snd x)) (timers w))) t w.

End AuthStore.

(** ** The login page *)

Module LoginPage.

Import AuthStore.

Inductive Outcome :=
| EmailRequired
| PasswordRequired
| RateLimited (remainingTime : Z)
| LoginSuccessful
| LoginFailed (errorMessage : string).

(** The white space and line terminators that [trim] removes, the text
    being held in UTF-8.  One byte: TAB, LF, VT, FF, CR, SP.  Two bytes:
    U+00A0.  Three bytes: U+1680, U+2000 to U+200A, U+2028, U+2029, U+202F,
    U+205F, U+3000, U+FEFF. *)
Definition isWhiteSpace (c : ascii) : bool :=
  match c with
  | " " | "009" | "010" | "011" | "012" | "013" => true
  | _ => false
  end%char.

Definition isWhiteSpace2 (c1 c2 : ascii) : bool :=
  Ascii.eqb c1 "194" && Ascii.eqb c2 "160".

Definition isWhiteSpace3 (c1 c2 c3 : ascii) : bool :=
  let n1 := nat_of_ascii c1 in
  let n2 := nat_of_ascii c2 in
  let n3 := nat_of_ascii c3 in
  (Nat.eqb n1 225 && Nat.eqb n2 154 && Nat.eqb n3 128)
  || (Nat.eqb n1 226 && Nat.eqb n2 128
      && ((Nat.leb 128 n3 && Nat.leb n3 138)
          || Nat.eqb n3 168 || Nat.eqb n3 169 || Nat.eqb n3 175))
  || (Nat.eqb n1 226 && Nat.eqb n2 129 && Nat.eqb n3 159)
  || (Nat.eqb n1 227 && Nat.eqb n2 128 && Nat.eqb n3 128)
  || (Nat.eqb n1 239 && Nat.eqb n2 187 && Nat.eqb n3 191).

(** [!email.trim()]: the text consists of white space only. *)
Fixpoint isBlank (s : string) : bool :=
  match s with
  | EmptyString => true
  | String c1 s1 =>
      if isWhiteSpace c1 then isBlank s1
      else
        match s1 with
        | EmptyString => false
        | String c2 s2 =>
            if isWhiteSpace2 c1 c2 then isBlank s2
            else
              match s2 with
              | EmptyString => false
              | String c3 s3 => isWhiteSpace3 c1 c2 c3 && isBlank s3
              end
        end
  end.

Definition handleLogin (env : AuthService.Env) (now : Z) (email0 password : string)
    (w : World) : Outcome * World :=
  if isBlank email0 then (EmailRequired, w)
  else if String.eqb password "" then (PasswordRequired, w)
  else
    let rateLimitCheck := RateLimit.checkRateLimit (login_attempts w) now email0 in
    if negb (RateLimit.allowed rateLimitCheck) then
      (RateLimited (default 0 (RateLimit.remainingTime rateLimitCheck)), w)
    else
      let w1 := set_login_attempts
                  (RateLimit.recordLoginAttempt (login_attempts w) now email0) w in
      match login env now email0 password w1 with
      | (Ok _, w2) =>
          (LoginSuccessful,
           set_login_attempts (RateLimit.clearLoginAttempts (login_attempts w2) email0) w2)
      | (Throw err, w2) =>
          (LoginFailed (orElse (Some (message err))
                          "Login failed. Please check your credentials."), w2)
      end.

Definition googleIdentifier : string := "google_oauth".

Definition handleGoogleLogin (env : AuthService.Env) (now : Z)
    (popup : Result Firebase.User) (w : World) : Outcome * World :=
  let rateLimitCheck := RateLimit.checkRateLimit (login_attempts w) now googleIdentifier in
  if negb (RateLimit.allowed rateLimitCheck) then
    (RateLimited (default 0 (RateLimit.remainingTime rateLimitCheck)), w)
  else
    let w1 := set_login_attempts
                (RateLimit.recordLoginAttempt (login_attempts w) now googleIdentifier) w in
    match loginWithGoogle env now popup w1 with
    | (Ok _, w2) =>
        (LoginSuccessful,
         set_login_attempts
           (RateLimit.clearLoginAttempts (login_attempts w2) googleIdentifier) w2)
    | (Throw err, w2) =>
        (LoginFailed (orElse (Some (message err))
                        "Google login failed. Please try again."), w2)
    end.

End LoginPage.

(** ** Notions the properties are stated with *)

Module Notions.

Import AuthService.

(** The audit entry of a successful password login. *)
Definition successEntry (env : Env) (now : Z) (email : string) : AuditLog.Entry :=
  AuditLog.mkEntry "login_success" email "unknown" (userAgent env) AuditLog.success
    "Successful login" now.

(** The lock of a record is active at [now]: the flag is set and the expiry
    lies strictly in the future. *)
Definition lockActive (now : Z) (d : AdminData) : bool :=
  isLocked d && match lockedUntil d with Some lu => now <? lu | None => false end.

(** The data-model invariant on the lock fields: a set flag comes with an
    expiry. *)
Definition lockWellFormed (d : AdminData) : bool :=
  negb (isLocked d) || bool_decide (lockedUntil d ≠ None).

(** The error thrown for an account whose lock is active. *)
Definition lockedError (now lockedUntil : Z) : JsError :=
  Error ("Account is locked. Try again in "
         +:+ pretty (ceilDiv (lockedUntil - now) (1000 * 60)) +:+ " minutes").


(** The state a failed credential check leaves behind, and the error it
    throws, in closed form. *)
Definition failedAttemptEntry (env : Env) (now : Z) (email : string)
    (status : AuditLog.Status) (reason : string) : AuditLog.Entry :=
  AuditLog.mkEntry "login_attempt" email "unknown" (userAgent env) status reason now.

Definition logged (now : Z) (email : string) (entry : AuditLog.Entry) (b : Backend)
  : Backend :=
  mkBackend (currentUser b) (admins b)
    (match docId (auditDocId now email) with
     | Some id => <[id := entry]> (auditLogs b)
     | None => auditLogs b
     end)
    (match docId (auditDocId now email) with
     | Some _ => auditTrail b ++ [entry]
     | None => auditTrail b
     end).

Definition failedAttempt (env : Env) (now : Z) (email : string) (b : Backend)
  : JsError * Backend :=
  match admins b !! email with
  | None =>
      (Error "Invalid email or password",
       logged now email (failedAttemptEntry env now email AuditLog.failed
                           "Invalid credentials") b)
  | Some d =>
      let n := loginAttempts d + 1 in
      if 5 <=? n then
        (Error "Too many failed login attempts. Account locked for 15 minutes",
         logged now email
           (failedAttemptEntry env now email AuditLog.blocked
              "Account locked after 5 failed attempts")
           (set_admins
              (<[email := set_isLocked true (set_lockedUntil (Some (now + 15 * 60 * 1000))
                            (set_loginAttempts n (set_updatedAt now d)))]> (admins b)) b))
      else
        (Error ("Invalid email or password. " +:+ pretty (5 - n) +:+ " attempts remaining"),
         logged now email
           (failedAttemptEntry env now email AuditLog.failed
              ("Invalid password (" +:+ pretty (5 - n) +:+ " attempts left)"))
           (set_admins
              (<[email := set_loginAttempts n (set_updatedAt now d)]> (admins b)) b))
  end.

(** An operation of the service that removes no document from the ledger. *)
Definition keepsEntries {A} (m : M Backend A) : Prop :=
  ∀ b, dom (auditLogs b) ⊆ dom (auditLogs (snd (m b))).

(** *** The rate limiter as the specification words it *)

Import RateLimit.

(** The timestamp of the oldest entry of a list. *)
Definition oldestTimestamp (l : list LoginAttempt) : option Z :=
  match l with
  | [] => None
  | a :: l' => Some (foldl Z.min (timestamp a) (List.map timestamp l'))
  end.

(** Discard the entries that have left the window, count the remaining
    entries for the key, and from the threshold on refuse, with the window
    minus the age of the oldest matching entry as waiting time. *)
Definition checkAllowed_spec (stored : list LoginAttempt) (now : Z) (key : string)
  : RateLimitResult :=
  let remaining := List.filter (λ a, now - timestamp a <? RATE_LIMIT_WINDOW_MS) stored in
  let matching := List.filter (λ a, String.eqb (email a) key) remaining in
  if RATE_LIMIT_MAX_ATTEMPTS <=? Z.of_nat (length matching) then
    mkRateLimitResult false
      ((λ t, RATE_LIMIT_WINDOW_MS - (now - t)) <$> oldestTimestamp matching)
  else mkRateLimitResult true None.

(** A list of attempts in the order of their timestamps, as
    [recordLoginAttempt] builds it under a clock that does not run
    backwards. *)
Fixpoint chronological (l : list LoginAttempt) : bool :=
  match l with
  | [] => true
  | a :: l' => forallb (λ b, timestamp a <=? timestamp b) l' && chronological l'
  end.

(** *** The page as a transition system *)

Import AuthStore.

(** The refresh timer the store knows of is the only timer alive. *)
Definition timersTracked (w : World) : bool :=
  match tokenRefreshInterval w, timers w with
  | Some id, [(id', _)] => Pos.eqb id id'
  | None, [] => true
  | _, _ => false
  end.

(** A freshly loaded page: no timer, the module variables at their initial
    values; the backend, the stored attempts and the persisted store are
    whatever earlier visits left. *)
Definition freshPage (b : Backend) (attempts : list LoginAttempt) (s : Store) : World :=
  mkWorld b [] 1%positive attempts s false false None.

Inductive Event :=
| HandleLogin (now : Z) (email password : string)
| HandleGoogleLogin (now : Z) (popup : Result Firebase.User)
| Logout (now : Z)
| InitializeAuth
| AuthStateChanged (now : Z) (idToken : Token)
| OperatorEdit (id : string) (record : option AdminData)
| Advance (t : Z).

Definition step (env : Env) (ev : Event) (w : World) : World :=
  match ev with
  | HandleLogin now email password => snd (LoginPage.handleLogin env now email password w)
  | HandleGoogleLogin now popup => snd (LoginPage.handleGoogleLogin env now popup w)
  | Logout now => snd (logout env now w)
  | InitializeAuth => snd (initializeAuth w)
  | AuthStateChanged now idToken => snd (authStateChanged env now idToken w)
  | OperatorEdit id record =>
      set_backend (set_admins (partial_alter (λ _, record) id (admins (backend w)))
                     (backend w)) w
  | Advance t => advanceTo env t w
  end.

Definition run (env : Env) (evs : list Event) (w : World) : World :=
  foldl (λ w ev, step env ev w) w evs.

(** The stored token is still good at instant [t]. *)
Definition tokenValidAt (t : Z) (w : World) : Prop :=
  ∃ tok, token (store w) = Some tok ∧ t < expiresAt tok.

(** The session is gone from the page: no timer is left, the store holds no
    user and no token, and however far the clock runs nothing changes. *)
Definition sessionDiscarded (env : Env) (w : World) : Prop :=
  timers w = []
  ∧ tokenRefreshInterval w = None
  ∧ user (store w) = None
  ∧ token (store w) = None
  ∧ isAuthenticated (store w) = false
  ∧ ∀ t, advanceTo env t w = w.

End Notions.

(** ** Concrete accounts and states used in examples *)

Module Scenario.

Import AuthService.

Definition minutes (n : Z) : Z := n * 60 * 1000.

Definition adminUid : string := "Xq3vT8adminUid".
Definition adminAccount : Firebase.User :=
  Firebase.mkUser adminUid (Some allowedAdminEmail) (Some "Ashraf").

Definition ownerEmail : string := "hajiashraffurnitures@gmail.com".
Definition ownerAccount : Firebase.User :=
  Firebase.mkUser "gOwner42Uid" (Some ownerEmail) (Some "Haji Ashraf").

Definition strangerAccount : Firebase.User :=
  Firebase.mkUser "gStranger7Uid" (Some "someone@example.org") None.

Definition invalidCredential : JsError :=
  mkError (Some "auth/invalid-credential") "Firebase: Error (auth/invalid-credential).".

(** A provider that knows two accounts, both with the password [s3cret]. *)
Definition provider (email password : string) : Result Firebase.User :=
  if String.eqb email allowedAdminEmail && String.eqb password "s3cret"
  then Ok adminAccount
  else if String.eqb email ownerEmail && String.eqb password "s3cret"
  then Ok ownerAccount
  else Throw invalidCredential.

(** The documented deployment: [VITE_ADMIN_EMAIL] names the owner. *)
Definition env : Env :=
  mkEnv provider (Some ownerEmail) "Mozilla/5.0" (minutes 60) (λ _, true) (λ s, s).

(** A deployment that leaves [VITE_ADMIN_EMAIL] unset. *)
Definition envUnset : Env :=
  mkEnv provider None "Mozilla/5.0" (minutes 60) (λ _, true) (λ s, s).

(** A deployment whose [VITE_ADMIN_EMAIL] is the address the password path
    hard-codes. *)
Definition envSame : Env :=
  mkEnv provider (Some allowedAdminEmail) "Mozilla/5.0" (minutes 60) (λ _, true) (λ s, s).

Definition adminRecord : AdminData :=
  mkAdminData allowedAdminEmail "Ashraf" admin true None 0 false None 0 0.

(** The admin's document is stored under the provider's uid. *)
Definition backend0 : Backend :=
  mkBackend None {[ adminUid := adminRecord ]} ∅ [].

(** The same account, locked until minute 15. *)
Definition lockedRecord : AdminData :=
  mkAdminData allowedAdminEmail "Ashraf" admin true None 5 true (Some (minutes 15)) 0 0.
Definition backendLocked : Backend :=
  mkBackend None {[ adminUid := lockedRecord ]} ∅ [].

(** A record whose lock flag is set without an expiry. *)
Definition flaggedRecord : AdminData :=
  mkAdminData allowedAdminEmail "Ashraf" admin true None 3 true None 0 0.
Definition backendFlagged : Backend :=
  mkBackend None {[ adminUid := flaggedRecord ]} ∅ [].

(** A provider whose uid for the admin is the address itself, and a
    directory that keeps the record under that id. *)
Definition mailKeyedAccount : Firebase.User :=
  Firebase.mkUser allowedAdminEmail (Some allowedAdminEmail) (Some "Ashraf").
Definition mailKeyedProvider (email password : string) : Result Firebase.User :=
  if String.eqb email allowedAdminEmail && String.eqb password "s3cret"
  then Ok mailKeyedAccount
  else Throw invalidCredential.
Definition envMailKeyed : Env :=
  mkEnv mailKeyedProvider None "Mozilla/5.0" (minutes 60) (λ _, true) (λ s, s).
Definition backendMailKeyed : Backend :=
  mkBackend None {[ allowedAdminEmail := adminRecord ]} ∅ [].

(** Password attempts one after the other, at the given instants. *)
Fixpoint replay (env : Env) (email password : string) (times : list Z) (b : Backend)
  : list (Result LoginResponse) * Backend :=
  match times with
  | [] => ([], b)
  | t :: times' =>
      let '(r, b1) := loginWithEmail env t email password b in
      let '(rs, b2) := replay env email password times' b1 in
      (r :: rs, b2)
  end.

End Scenario.

Module PageScenario.

Import AuthService AuthStore Notions Scenario.

(** The store of a first visit. *)
Definition emptyStore : Store := mkStore None None false true.

(** Five attempts for the admin's address, one a minute from minute 0 on. *)
Definition fiveAttempts : list RateLimit.LoginAttempt :=
  List.map (λ t, RateLimit.mkLoginAttempt t allowedAdminEmail)
    [minutes 0; minutes 1; minutes 2; minutes 3; minutes 4].

(** Five attempts that are not stored in the order of their timestamps. *)
Definition unsortedAttempts : list RateLimit.LoginAttempt :=
  List.map (λ t, RateLimit.mkLoginAttempt t "a@x.com")
    [minutes 10; minutes 0; minutes 1; minutes 2; minutes 3].

Definition page0 : World := freshPage backend0 [] emptyStore.
Definition pageLimited : World := freshPage backend0 fiveAttempts emptyStore.

(** The admin's record after an operator has deactivated the account. *)
Definition deactivatedRecord : AdminData := set_isActive false adminRecord.

(** A visit: the listener is subscribed, the admin logs in, and an operator
    deactivates the account. *)
Definition visit : list Event :=
  [InitializeAuth;
   HandleLogin (minutes 0) allowedAdminEmail "s3cret";
   Advance (minutes 50);
   OperatorEdit adminUid (Some deactivatedRecord)].

End PageScenario.

(** ** The rest of the authentication service *)

Module AuthAdmin.

Import AuthService.

(** *** The current user *)

Definition getCurrentUser : M Backend (option AdminUser) :=
  firebaseUser <~ gets currentUser ;;
  match firebaseUser with
  | None => ret None
  | Some firebaseUser => getAdminData (Firebase.uid firebaseUser)
  end.

(** *** The result of a Google redirect *)

(** The state [checkGoogleRedirectResult] works on: the backend and the item
    [pendingGoogleSignIn] of the session storage. *)
Record RedirectState := mkRedirectState {
  backendOf : Backend;
  pendingGoogleSignIn : option string
}.

Definition onBackend {A} (m : M Backend A) : M RedirectState A :=
  λ s, let '(r, b) := m (backendOf s) in (r, mkRedirectState b (pendingGoogleSignIn s)).

(** [redirect] is what [getRedirectResult(auth)] resolved or rejected with;
    a resolved credential signs its user in. *)
Definition getRedirectResult (redirect : Result (option Firebase.User))
  : M RedirectState (option Firebase.User) :=
  λ s, match redirect with
       | Ok (Some u) =>
           (Ok (Some u),
            mkRedirectState (set_currentUser (Some u) (backendOf s))
              (pendingGoogleSignIn s))
       | Ok None => (Ok None, s)
       | Throw e => (Throw e, s)
       end.

(** [if (pendingSignIn) sessionStorage.removeItem('pendingGoogleSignIn')] *)
Definition clearPending (pendingSignIn : option string) : M RedirectState unit :=
  match pendingSignIn with
  | Some v =>
      if String.eqb v "" then ret tt
      else modify (λ s, mkRedirectState (backendOf s) None)
  | None => ret tt
  end.

Definition checkGoogleRedirectResult_try (env : Env) (now : Z)
    (redirect : Result (option Firebase.User))
  : M RedirectState (option LoginResponse) :=
  pendingSignIn <~ gets pendingGoogleSignIn ;;
  userCredential <~ getRedirectResult redirect ;;
  clearPending pendingSignIn ;;;
  match userCredential with
  | None => ret None
  | Some firebaseUser =>
      let who := orElse (Firebase.email firebaseUser) "unknown" in
      (match emailNotAllowed env firebaseUser with
       | Some allowedAdminEmail =>
           onBackend signOut ;;;
           onBackend (createAuditLog env now "google_oauth" who AuditLog.blocked
                        ("Email not allowed. Only " +:+ allowedAdminEmail
                         +:+ " can login")) ;;;
           throw (Error ("Access denied. Only " +:+ allowedAdminEmail
                         +:+ " can login."))
       | None => ret tt
       end) ;;;
      found <~ onBackend (getAdminData (Firebase.uid firebaseUser)) ;;
      adminData <~
        match found with
        | None =>
            onBackend (setDoc (Firebase.uid firebaseUser)
                         (newAdminData now firebaseUser)) ;;;
            onBackend (createAuditLog env now "google_oauth" who AuditLog.success
                         "First-time Google OAuth login - admin account created") ;;;
            ret (mkAdminUser (Firebase.uid firebaseUser)
                   (newAdminData now firebaseUser))
        | Some adminData =>
            if negb (isActive (data adminData)) then
              onBackend signOut ;;;
              onBackend (createAuditLog env now "google_oauth" who AuditLog.blocked
                           "Account inactive") ;;;
              throw (Error "Admin account is inactive")
            else
              onBackend (updateDoc (Firebase.uid firebaseUser)
                           (λ d, set_lastLogin (Some now) (set_updatedAt now d))) ;;;
              onBackend (createAuditLog env now "google_oauth" who AuditLog.success
                           "Successful Google OAuth login") ;;;
              ret adminData
        end ;;
      let token := getIdToken env now firebaseUser in
      ret (Some (mkLoginResponse
                   (mkAdminUser (uid adminData)
                      (set_lastLogin (Some now) (data adminData)))
                   token))
  end.

Definition checkGoogleRedirectResult (env : Env) (now : Z)
    (redirect : Result (option Firebase.User))
  : M RedirectState (option LoginResponse) :=
  tryCatch (checkGoogleRedirectResult_try env now redirect)
    (λ error,
       onBackend (createAuditLog env now "google_oauth" "unknown" AuditLog.failed
                    (message error)) ;;;
       throw error).

(** *** Admin management *)

(** [Partial<AdminUser>]: the fields an update names.  (A [uid] among them
    would be written as one more field of the document; the documents
    modelled here have no such field.) *)
Record AdminPatch := mkAdminPatch {
  p_email : option string;
  p_name : option string;
  p_role : option AdminRole;
  p_isActive : option bool;
  p_lastLogin : option (option Z);
  p_loginAttempts : option Z;
  p_isLocked : option bool;
  p_lockedUntil : option (option Z);
  p_createdAt : option Z;
  p_updatedAt : option Z
}.

Definition noPatch : AdminPatch :=
  mkAdminPatch None None None None None None None None None None.

(** [{ ...updates, updatedAt: serverTimestamp() }] applied to a document. *)
Definition applyPatch (updates : AdminPatch) (now : Z) (d : AdminData) : AdminData :=
  mkAdminData
    (default (email d) (p_email updates))
    (default (name d) (p_name updates))
    (default (role d) (p_role updates))
    (default (isActive d) (p_isActive updates))
    (default (lastLogin d) (p_lastLogin updates))
    (default (loginAttempts d) (p_loginAttempts updates))
    (default (isLocked d) (p_isLocked updates))
    (default (lockedUntil d) (p_lockedUntil updates))
    (default (createdAt d) (p_createdAt updates))
    now.

Definition updateAdmin (now : Z) (uid0 : string) (updates : AdminPatch)
  : M Backend unit :=
  updateDoc uid0 (applyPatch updates now).

Definition deleteAdmin (now : Z) (uid0 : string) : M Backend unit :=
  updateAdmin now uid0
    (mkAdminPatch None None None (Some false) None None None None None None).

(** [created] is what [createUserWithEmailAndPassword] resolved or rejected
    with; a created user is signed in. *)
Definition createUserWithEmailAndPassword (created : Result Firebase.User)
  : M Backend Firebase.User :=
  λ b, match created with
       | Ok u => (Ok u, set_currentUser (Some u) b)
       | Throw e => (Throw e, b)
       end.

(** [role] is [None] when the caller leaves the parameter out.
    ([firebaseUser.email!] is the address the account was created with.) *)
Definition createAdmin (now : Z) (created : Result Firebase.User)
    (name0 : string) (role0 : option AdminRole) : M Backend AdminUser :=
  let role1 := default editor role0 in
  firebaseUser <~ createUserWithEmailAndPassword created ;;
  let adminData :=
    mkAdminData (default "" (Firebase.email firebaseUser)) name0 role1 true
      None 0 false None now now in
  setDoc (Firebase.uid firebaseUser) adminData ;;;
  signOut ;;;
  ret (mkAdminUser (Firebase.uid firebaseUser) adminData).

End AuthAdmin.

(** ** The countdown of the login page *)

Module Countdown.

(** The state of the page the countdown works on. *)
Record State := mkState {
  isRateLimited : bool;
  rateLimitTime : Z;
  error : string
}.

(** The message for a number of minutes. *)
Definition tooManyAttempts (minutes : Z) : string :=
  "⚠️ Too many login attempts. Please try again in " +:+ pretty minutes
  +:+ " minute" +:+ (if 1 <? minutes then "s" else "") +:+ ".".

(** What [handleLogin] and [handleGoogleLogin] set when the check refuses
    with [remainingTime]. *)
Definition block (remainingTime : Z) : State :=
  mkState true remainingTime (tooManyAttempts (ceilDiv remainingTime 60000)).

(** One second of the countdown: the interval exists only while the page is
    blocked with time left, and its callback takes a second off. *)
Definition tick (s : State) : State :=
  if negb (isRateLimited s) || (rateLimitTime s <=? 0) then s
  else
    let newTime := rateLimitTime s - 1000 in
    if newTime <=? 0 then mkState false 0 ""
    else mkState (isRateLimited s) newTime (tooManyAttempts (ceilDiv newTime 60000)).

Fixpoint ticks (n : nat) (s : State) : State :=
  match n with
  | O => s
  | S n' => ticks n' (tick s)
  end.

End Countdown.

(** ** Further notions *)

Module MoreNotions.

Import AuthService AuthStore.

(** How many stored attempts for an email are inside the window at [now]. *)
Definition matchingCount (stored : list RateLimit.LoginAttempt) (now : Z)
    (email0 : string) : nat :=
  length (RateLimit.forEmail email0 (RateLimit.recent now stored)).

(** Password logins on the page, one after the other. *)
Fixpoint replayLogins (env : Env) (email0 password : string) (times : list Z)
    (w : World) : list LoginPage.Outcome * World :=
  match times with
  | [] => ([], w)
  | t :: times' =>
      let '(o, w1) := LoginPage.handleLogin env t email0 password w in
      let '(os, w2) := replayLogins env email0 password times' w1 in
      (o :: os, w2)
  end.

Definition isLoginFailed (o : LoginPage.Outcome) : bool :=
  match o with
  | LoginPage.LoginFailed _ => true
  | _ => false
  end.

(** The number of entries a call added to the audit history. *)
Definition appended (b b' : Backend) : Z :=
  Z.of_nat (length (auditTrail b')) - Z.of_nat (length (auditTrail b)).

(** How many documents an append for the email adds to the ledger: one, or
    none when the id names no document of the collection. *)
Definition writes (now : Z) (email : string) : Z :=
  match docId (auditDocId now email) with
  | Some _ => 1
  | None => 0
  end.

(** How many stored attempts for an email carry a timestamp from [T] on. *)
Definition attemptsSince (T : Z) (email0 : string)
    (l : list RateLimit.LoginAttempt) : nat :=
  length (List.filter (λ a, String.eqb (RateLimit.email a) email0
                            && (T <=? RateLimit.timestamp a)) l).

(** The instant [t] lies in the window that opens at [T]. *)
Definition inWindowFrom (T t : Z) : bool :=
  (T <=? t) && (t <? T + RateLimit.RATE_LIMIT_WINDOW_MS).

End MoreNotions.

(** ** Further accounts and states used in examples *)

Module MoreScenario.

Import AuthService AuthStore Notions Scenario PageScenario.

(** The admin's address with the role of a viewer. *)
Definition viewerRecord : AdminData :=
  mkAdminData allowedAdminEmail "Ashraf" viewer true None 0 false None 0 0.
Definition pageViewer : World :=
  freshPage (mkBackend None {[ adminUid := viewerRecord ]} ∅ []) [] emptyStore.

(** A deployment in which no forced refresh gets through. *)
Definition envOffline : Env :=
  mkEnv provider (Some ownerEmail) "Mozilla/5.0" (minutes 60) (λ _, false) (λ s, s).

(** A page on which somebody is logged in already. *)
Definition pageLoggedIn : World :=
  snd (login env (minutes 0) allowedAdminEmail "s3cret" page0).

(** The popup closed by the user, and a popup that failed on the network. *)
Definition popupClosed : JsError :=
  mkError (Some "auth/popup-closed-by-user") "Firebase: Error (auth/popup-closed-by-user).".
Definition popupOffline : JsError :=
  mkError (Some "auth/network-request-failed")
    "Firebase: Error (auth/network-request-failed).".

(** The patch an operator applies to lift a lock by hand. *)
Definition unlockPatch : AuthAdmin.AdminPatch :=
  AuthAdmin.mkAdminPatch None None None None None (Some 0) (Some false) (Some None)
    None None.

(** Five instants one minute apart, from minute 0 on. *)
Definition fiveInstants : list Z :=
  [minutes 0; minutes 1; minutes 2; minutes 3; minutes 4].

(** The directory after an operator has deactivated the admin. *)
Definition backendDeactivated : Backend :=
  mkBackend None {[ adminUid := deactivatedRecord ]} ∅ [].

(** An unlocked record with three failed attempts on its counter. *)
Definition strikesRecord : AdminData :=
  mkAdminData allowedAdminEmail "Ashraf" admin true None 3 false None 0 0.
Definition backendStrikes : Backend :=
  mkBackend None {[ adminUid := strikesRecord ]} ∅ [].

(** An address with a slash in its local part. *)
Definition slashEmail : string := "a/b@x.com".

(** The store as an earlier visit persisted it, logged in. *)
Definition persistedStore : Store :=
  mkStore (Some (adminUserToUser env (mkAdminUser adminUid adminRecord)))
    (Some (getIdToken env (minutes 0) adminAccount)) true false.

End MoreScenario.

(** * Properties *)

(** ** Strings *)

Lemma startsWith_app (p s : string) : startsWith p (p +:+ s) = true.
Proof.
  induction p as [|a p IH]; simpl; [done|].
  by rewrite Ascii.eqb_refl.
Qed.

Lemma includes_app (p x y : string) : includes p (x +:+ p +:+ y) = true.
Proof.
  induction x as [|a x IH]; simpl.
  - destruct (p +:+ y) eqn:E; simpl.
    + destruct p; [done|discriminate].
    + rewrite <- E, startsWith_app. done.
  - rewrite IH. apply orb_true_r.
Qed.

Section AuthServiceFacts.

Import AuthService.

Variable env : Env.

(** The [catch] block of [loginWithEmail] always throws. *)
Lemma loginWithEmail_catch_throws now email error b :
  ∃ e b', loginWithEmail_catch env now email error b = (Throw e, b').
Proof.
  unfold loginWithEmail_catch.
  destruct (isCredentialError error); [|by eexists _, _].
  unfold bind at 1, tryCatch.
  destruct (recordFailedAttempt env now email b) as [[[]|e] b1] eqn:E.
  - by eexists _, _.
  - destruct (includes "attempts" (message e)); by eexists _, _.
Qed.

End AuthServiceFacts.

Lemma includes_app_r (p x y : string) :
  includes p y = true → includes p (x +:+ y) = true.
Proof.
  intros H. induction x as [|a x IH]; simpl; [done|].
  rewrite IH. apply orb_true_r.
Qed.

Lemma append_cons (c : ascii) (a b : string) : String c a +:+ b = String c (a +:+ b).
Proof. reflexivity. Qed.

Lemma append_nil (b : string) : "" +:+ b = b.
Proof. reflexivity. Qed.

Lemma string_app_assoc (a b c : string) : (a +:+ b) +:+ c = a +:+ (b +:+ c).
Proof.
  induction a as [|x a IH]; [done|].
  by rewrite !append_cons, IH.
Qed.

Lemma pretty_N_char_digit x : isDigit (pretty_N_char x) = true.
Proof. unfold pretty_N_char. by repeat case_match. Qed.

Lemma allDigits_app a b :
  allDigits a = true → allDigits b = true → allDigits (a +:+ b) = true.
Proof.
  induction a as [|c a IH]; [done|].
  rewrite append_cons. simpl.
  intros [H1 H2]%andb_true_iff Hb. rewrite H1. simpl. by apply IH.
Qed.

(** What the digit loop of the printer puts in front of its accumulator. *)
Lemma pretty_N_go_digits x s :
  ∃ ds, allDigits ds = true ∧ pretty_N_go x s = ds +:+ s ∧ ((0 < x)%N → ds ≠ "").
Proof.
  revert s. induction (N.lt_wf_0 x) as [x _ IH]; intros s.
  assert (x = 0 ∨ 0 < x)%N as [->|Hpos] by lia.
  - exists "". rewrite pretty_N_go_0. split; [done|]. split; [done|]. lia.
  - rewrite pretty_N_go_step by done.
    destruct (IH (x `div` 10)%N (N.div_lt x 10 Hpos eq_refl)
                (String (pretty_N_char (x `mod` 10)) s)) as (ds & Hd & Heq & _).
    exists (ds +:+ String (pretty_N_char (x `mod` 10)) "").
    split; [|split].
    + apply allDigits_app; [done|]. simpl. by rewrite pretty_N_char_digit.
    + rewrite Heq, string_app_assoc. done.
    + intros _. destruct ds; discriminate.
Qed.

(** A printed integer is a non-empty run of digits, after a minus sign when
    it is negative. *)
Lemma pretty_Z_shape (z : Z) :
  ∃ ds, allDigits ds = true ∧ ds ≠ "" ∧ (pretty z = ds ∨ pretty z = "-" +:+ ds).
Proof.
  assert (∀ p : positive, ∃ ds, allDigits ds = true ∧ ds ≠ "" ∧ pretty p = ds) as Hpos.
  { intros p. unfold pretty, pretty_positive, pretty, pretty_N.
    rewrite decide_False by done.
    destruct (pretty_N_go_digits (N.pos p) "") as (ds & Hd & Heq & Hne).
    exists ds. split; [done|]. split; [apply Hne; lia|].
    rewrite Heq. clear. induction ds as [|c ds IH]; [done|].
    by rewrite append_cons, IH. }
  destruct z as [|p|p].
  - exists "0". repeat split; auto.
  - destruct (Hpos p) as (ds & ? & ? & ?). exists ds. auto.
  - destruct (Hpos p) as (ds & ? & ? & Heq). exists ds. repeat split; auto.
    right. unfold pretty, pretty_Z. by rewrite Heq.
Qed.

Lemma digits_dash_split d1 d2 r1 r2 :
  allDigits d1 = true → allDigits d2 = true →
  d1 +:+ "-" +:+ r1 = d2 +:+ "-" +:+ r2 → d1 = d2 ∧ r1 = r2.
Proof.
  revert d2. induction d1 as [|c d1 IH]; intros [|c' d2];
    rewrite ?append_cons, ?append_nil; simpl.
  - intros _ _ [= ->]. done.
  - intros _ [H _]%andb_true_iff [= <- _]. discriminate.
  - intros [H _]%andb_true_iff _ [= -> _]. discriminate.
  - intros [_ H1]%andb_true_iff [_ H2]%andb_true_iff [= -> Heq].
    destruct (IH d2 H1 H2 Heq) as [-> ->]. done.
Qed.

(** A slash in a string. *)
Lemma includes_slash_cons c s :
  includes "/" (String c s) = Ascii.eqb "/" c || includes "/" s.
Proof.
  change (includes "/" (String c s))
    with ((if Ascii.eqb "/" c then startsWith "" s else false) || includes "/" s).
  destruct (Ascii.eqb "/" c); [by destruct s|done].
Qed.

Lemma includes_slash_app a b :
  includes "/" (a +:+ b) = includes "/" a || includes "/" b.
Proof.
  induction a as [|c a IH].
  - rewrite append_nil. by destruct b.
  - rewrite append_cons, !includes_slash_cons, IH. by rewrite orb_assoc.
Qed.

Lemma includes_double_slash s :
  includes "/" s = false → includes "//" s = false.
Proof.
  induction s as [|c s IH]; [done|].
  rewrite includes_slash_cons. intros [Hc Hs]%orb_false_iff.
  change (includes "//" (String c s))
    with ((if Ascii.eqb "/" c then startsWith "/" s else false) || includes "//" s).
  rewrite Hc. by apply IH.
Qed.

Lemma allDigits_no_slash ds : allDigits ds = true → includes "/" ds = false.
Proof.
  induction ds as [|c ds IH]; [done|]. simpl allDigits.
  intros [Hc Hd]%andb_true_iff. rewrite includes_slash_cons, IH by done.
  rewrite orb_false_r. apply Ascii.eqb_neq. intros <-. by vm_compute in Hc.
Qed.

(** ** The audit ledger *)

Section AuditLedger.

Import AuthService Notions.

(** An id without a slash names the document of the collection with that
    id; the id of an audit entry has a slash only if the email has one. *)
Lemma segmentsFrom_plain piece s :
  includes "/" s = false →
  segmentsFrom piece s = if String.eqb (piece +:+ s) "" then [] else [piece +:+ s].
Proof.
  revert piece. induction s as [|c s IH]; intros piece Hs; cbn [segmentsFrom].
  - assert (piece +:+ "" = piece) as ->; [|done].
    clear. induction piece as [|x p IHp]; [done|]. by rewrite append_cons, IHp.
  - rewrite includes_slash_cons in Hs. apply orb_false_iff in Hs as [Hc Hs].
    rewrite Ascii.eqb_sym in Hc. rewrite Hc, IH by done.
    by rewrite string_app_assoc, append_cons, append_nil.
Qed.

Lemma docId_plain id :
  includes "/" id = false → id ≠ "" → docId id = Some id.
Proof.
  intros Hs Hne. unfold docId, segments.
  rewrite includes_double_slash by done.
  rewrite segmentsFrom_plain, append_nil by done.
  destruct (String.eqb id "") eqn:E; [by apply String.eqb_eq in E|done].
Qed.

Lemma auditDocId_plain now email :
  includes "/" email = false →
  docId (auditDocId now email) = Some (auditDocId now email).
Proof.
  intros He. apply docId_plain.
  - unfold auditDocId. rewrite !includes_slash_app, He.
    destruct (pretty_Z_shape now) as (ds & Hd & _ & [->| ->]).
    + by rewrite (allDigits_no_slash ds).
    + rewrite includes_slash_app, (allDigits_no_slash ds) by done. reflexivity.
  - unfold auditDocId.
    destruct (pretty_Z_shape now) as (ds & _ & Hne & [->| ->]).
    + destruct ds; [done|]. by rewrite append_cons.
    + by rewrite append_cons.
Qed.

Lemma logged_plain now email entry b :
  includes "/" email = false →
  logged now email entry b
  = mkBackend (currentUser b) (admins b)
      (<[auditDocId now email := entry]> (auditLogs b)) (auditTrail b ++ [entry]).
Proof. intros He. unfold logged. by rewrite auditDocId_plain. Qed.

(** The id of an audit document determines the millisecond and the email. *)
Lemma auditDocId_inj now1 email1 now2 email2 :
  auditDocId now1 email1 = auditDocId now2 email2 → now1 = now2 ∧ email1 = email2.
Proof.
  unfold auditDocId.
  destruct (pretty_Z_shape now1) as (d1 & Hd1 & Hn1 & Hp1).
  destruct (pretty_Z_shape now2) as (d2 & Hd2 & Hn2 & Hp2).
  intros Heq.
  assert (pretty now1 = pretty now2 ∧ email1 = email2) as [Hp ->].
  { destruct Hp1 as [Hp1|Hp1], Hp2 as [Hp2|Hp2]; rewrite Hp1, Hp2 in Heq |- *.
    - destruct (digits_dash_split d1 d2 email1 email2 Hd1 Hd2 Heq) as [-> ->]. done.
    - exfalso. destruct d1 as [|c d1]; [done|].
      rewrite !append_cons in Heq. simpl in Hd1.
      apply andb_true_iff in Hd1 as [Hc _]. injection Heq as -> _. discriminate.
    - exfalso. destruct d2 as [|c d2]; [done|].
      rewrite !append_cons in Heq. simpl in Hd2.
      apply andb_true_iff in Hd2 as [Hc _]. injection Heq as <- _. discriminate.
    - rewrite !append_cons, !append_nil in Heq. injection Heq as Heq.
      destruct (digits_dash_split d1 d2 email1 email2 Hd1 Hd2 Heq) as [-> ->]. done. }
  split; [|done]. by apply (inj pretty).
Qed.

Lemma createAuditLog_logged env now action email status reason b :
  createAuditLog env now action email status reason b
  = (Ok tt, logged now email
              (AuditLog.mkEntry action email "unknown" (userAgent env) status reason now) b).
Proof. reflexivity. Qed.

(** C5 (evaluation at the failing input).  Two appends for the same email
    within one millisecond share a document id: the second replaces the
    entry of the first, and the two entries handed to the ledger are stored
    as a single record. *)
Theorem same_millisecond_append_overwrites :
  let first := AuditLog.mkEntry "login_attempt" "a@x.com" "unknown" "Mozilla/5.0"
                 AuditLog.blocked "Account inactive" 1000 in
  let second := AuditLog.mkEntry "login_attempt" "a@x.com" "unknown" "Mozilla/5.0"
                  AuditLog.failed "Admin account is inactive" 1000 in
  let b1 := snd (createAuditLog Scenario.env 1000 "login_attempt" "a@x.com"
                   AuditLog.blocked "Account inactive" Scenario.backend0) in
  let b2 := snd (createAuditLog Scenario.env 1000 "login_attempt" "a@x.com"
                   AuditLog.failed "Admin account is inactive" b1) in
  auditLogs b1 !! auditDocId 1000 "a@x.com" = Some first
  ∧ auditLogs b2 !! auditDocId 1000 "a@x.com" = Some second
  ∧ first ≠ second
  ∧ auditTrail b2 = [first; second]
  ∧ size (auditLogs b2) = 1%nat.
Proof.
  vm_compute. repeat split; try reflexivity. discriminate.
Qed.

(** X19.  Appends under different ids do not interfere.  For email
    addresses without a slash, an append stores its entry under the id made
    of the millisecond and the email and never changes or removes an entry
    kept under another id; so for every pair of such appends that differ in
    the millisecond or in the email, both entries are stored, as two
    distinct records, and every other record is as before. *)
Lemma appends_with_distinct_keys_coexist env
    now1 action1 email1 status1 reason1 now2 action2 email2 status2 reason2 b :
  includes "/" email1 = false →
  includes "/" email2 = false →
  (now1, email1) ≠ (now2, email2) →
  let b1 := snd (createAuditLog env now1 action1 email1 status1 reason1 b) in
  let b2 := snd (createAuditLog env now2 action2 email2 status2 reason2 b1) in
  auditDocId now1 email1 ≠ auditDocId now2 email2
  ∧ auditLogs b2 !! auditDocId now1 email1
    = Some (AuditLog.mkEntry action1 email1 "unknown" (userAgent env) status1 reason1 now1)
  ∧ auditLogs b2 !! auditDocId now2 email2
    = Some (AuditLog.mkEntry action2 email2 "unknown" (userAgent env) status2 reason2 now2)
  ∧ ∀ id, id ≠ auditDocId now1 email1 → id ≠ auditDocId now2 email2 →
          auditLogs b2 !! id = auditLogs b !! id.
Proof.
  intros He1 He2 Hne b1 b2.
  assert (auditDocId now1 email1 ≠ auditDocId now2 email2) as Hid.
  { intros [-> ->]%auditDocId_inj. done. }
  subst b1 b2. rewrite !createAuditLog_logged, !logged_plain by done. simpl.
  split; [done|]. split; [|split].
  - rewrite lookup_insert_ne by done. by rewrite lookup_insert_eq.
  - by rewrite lookup_insert_eq.
  - intros id H1 H2. by rewrite !lookup_insert_ne.
Qed.

Example appends_one_millisecond_apart_coexist :
  let b1 := snd (createAuditLog Scenario.env 1000 "login_attempt" "a@x.com"
                   AuditLog.blocked "Account inactive" Scenario.backend0) in
  let b2 := snd (createAuditLog Scenario.env 1001 "login_attempt" "a@x.com"
                   AuditLog.failed "Admin account is inactive" b1) in
  size (auditLogs b2) = 2%nat ∧ length (auditTrail b2) = 2%nat.
Proof. vm_compute. done. Qed.

End AuditLedger.

(** No operation of the service removes a document from the ledger: the
    primitives do not, and sequencing and [try]/[catch] preserve it. *)

Create HintDb ledger.

Section LedgerKeys.

Import AuthService Notions.

Variable env : Env.

Lemma keeps_ret {A} (a : A) : keepsEntries (ret a).
Proof. by intros b. Qed.

Lemma keeps_throw {A} e : keepsEntries (@throw Backend A e).
Proof. by intros b. Qed.

Lemma keeps_gets {A} (f : Backend → A) : keepsEntries (gets f).
Proof. by intros b. Qed.

Lemma keeps_bind {A B} (m : M Backend A) (k : A → M Backend B) :
  keepsEntries m → (∀ a, keepsEntries (k a)) → keepsEntries (bind m k).
Proof.
  intros Hm Hk b. unfold bind. specialize (Hm b).
  destruct (m b) as [[a|e] b1]; simpl in *; [|done].
  etrans; [exact Hm|]. apply Hk.
Qed.

Lemma keeps_tryCatch {A} (m : M Backend A) (h : JsError → M Backend A) :
  keepsEntries m → (∀ e, keepsEntries (h e)) → keepsEntries (tryCatch m h).
Proof.
  intros Hm Hh b. unfold tryCatch. specialize (Hm b).
  destruct (m b) as [[a|e] b1]; simpl in *; [done|].
  etrans; [exact Hm|]. apply Hh.
Qed.

Lemma keeps_signOut : keepsEntries signOut.
Proof. by intros b. Qed.

Lemma keeps_signIn email password :
  keepsEntries (signInWithEmailAndPassword env email password).
Proof.
  intros b. unfold signInWithEmailAndPassword.
  by destruct (verifyCredentials env email password).
Qed.

Lemma keeps_signInWithPopup popup : keepsEntries (signInWithPopup popup).
Proof. intros b. unfold signInWithPopup. by destruct popup. Qed.

Lemma keeps_getDoc id : keepsEntries (getDoc id).
Proof. by intros b. Qed.

Lemma keeps_setDoc id d : keepsEntries (setDoc id d).
Proof. by intros b. Qed.

Lemma keeps_updateDoc id f : keepsEntries (updateDoc id f).
Proof. intros b. unfold updateDoc. by destruct (admins b !! id). Qed.

Lemma keeps_createAuditLog now action email status reason :
  keepsEntries (createAuditLog env now action email status reason).
Proof.
  intros b. simpl. destruct (docId (auditDocId now email)); [|done].
  rewrite dom_insert_L. set_solver.
Qed.

#[local] Hint Resolve keeps_ret keeps_throw keeps_gets keeps_signOut keeps_signIn
  keeps_signInWithPopup keeps_getDoc keeps_setDoc keeps_updateDoc
  keeps_createAuditLog : ledger.

Ltac keeps_step :=
  first
    [ progress intros
    | apply keeps_bind
    | apply keeps_tryCatch
    | match goal with
      | |- keepsEntries (match ?x with _ => _ end) => destruct x
      | |- keepsEntries (let _ := _ in _) => cbv zeta
      end
    | solve [auto with ledger] ].

Lemma loginWithEmail_keepsEntries now email password :
  keepsEntries (loginWithEmail env now email password).
Proof.
  unfold loginWithEmail, loginWithEmail_try, loginWithEmail_catch,
    recordFailedAttempt, getAdminData.
  repeat keeps_step.
Qed.

Lemma loginWithGoogle_keepsEntries now popup :
  keepsEntries (loginWithGoogle env now popup).
Proof.
  unfold loginWithGoogle, loginWithGoogle_try, loginWithGoogle_catch, getAdminData.
  repeat keeps_step.
Qed.

Lemma logout_keepsEntries now : keepsEntries (logout env now).
Proof. unfold logout. repeat keeps_step. Qed.

Lemma onAuthChange_keepsEntries now firebaseUser :
  keepsEntries (onAuthChange env now firebaseUser).
Proof. unfold onAuthChange, getAdminData. repeat keeps_step. Qed.

End LedgerKeys.

(** ** The password login *)

Section PasswordLogin.

Import AuthService Notions.

Variable env : Env.

(** A login that returns went through every check of the [try] block; the
    state it leaves is the old one with the record reset, the user signed
    in and one entry added to the audit history. *)
Lemma loginWithEmail_success_inv now email password b r b' :
  loginWithEmail env now email password b = (Ok r, b') →
  ∃ firebaseUser d,
    verifyCredentials env email password = Ok firebaseUser ∧
    email = allowedAdminEmail ∧
    admins b !! Firebase.uid firebaseUser = Some d ∧
    isActive d = true ∧
    lockActive now d = false ∧
    uid (user r) = Firebase.uid firebaseUser ∧
    token r = getIdToken env now firebaseUser ∧
    currentUser b' = Some firebaseUser ∧
    auditTrail b' = auditTrail b ++ [successEntry env now email] ∧
    auditLogs b' = <[auditDocId now email := successEntry env now email]> (auditLogs b) ∧
    ∃ d', admins b' = <[Firebase.uid firebaseUser := d']> (admins b) ∧
          loginAttempts d' = 0 ∧
          isLocked d' = (isLocked d && bool_decide (lockedUntil d = None)).
Proof.
  unfold loginWithEmail, tryCatch.
  destruct (loginWithEmail_try env now email password b) as [[r0|e] b0] eqn:Htry.
  2:{ intros H.
      destruct (loginWithEmail_catch_throws env now email e b0) as (e' & b1 & Hc).
      rewrite Hc in H. discriminate. }
  intros [= -> ->]. revert Htry.
  unfold loginWithEmail_try, bind, signInWithEmailAndPassword.
  destruct (verifyCredentials env email password) as [fu|e] eqn:Hv; [|discriminate].
  destruct (String.eqb email allowedAdminEmail) eqn:He; simpl; [|discriminate].
  apply String.eqb_eq in He.
  assert (docId (auditDocId now email) = Some (auditDocId now email)) as Href
    by (rewrite He; by apply auditDocId_plain).
  unfold getAdminData, bind, getDoc, gets; simpl.
  destruct (admins b !! Firebase.uid fu) as [d|] eqn:Hd; simpl; [|discriminate].
  destruct (isActive d) eqn:Ha; simpl; [|discriminate].
  destruct (isLocked d) eqn:Hl; simpl.
  - destruct (lockedUntil d) as [lu|] eqn:Hlu; simpl.
    + destruct (now <? lu) eqn:Hlt; simpl; [discriminate|].
      unfold updateDoc; simpl. rewrite Hd; simpl.
      rewrite lookup_insert_eq; simpl.
      intros [= <- <-]; simpl. rewrite !Href.
      eexists fu, d. unfold lockActive. rewrite Hl, Hlu, Hlt. simpl.
      repeat split; try done.
      eexists. split; [by rewrite insert_insert_eq|]. done.
    + unfold updateDoc, ret; simpl. rewrite Hd; simpl.
      intros [= <- <-]; simpl. rewrite !Href.
      eexists fu, d. unfold lockActive. rewrite Hl, Hlu. simpl.
      repeat split; try done.
      eexists. split; [done|]. simpl. by rewrite Hl.
  - unfold updateDoc, ret; simpl. rewrite Hd; simpl.
    intros [= <- <-]; simpl. rewrite !Href.
    eexists fu, d. unfold lockActive. rewrite Hl. simpl.
    repeat split; try done.
    eexists. split; [done|]. simpl. by rewrite Hl.
Qed.

(** A rejected credential check, in closed form. *)
Lemma loginWithEmail_wrong_password now email password b error :
  verifyCredentials env email password = Throw error →
  isCredentialError error = true →
  loginWithEmail env now email password b =
    (Throw (fst (failedAttempt env now email b)), snd (failedAttempt env now email b)).
Proof.
  intros Hv Hc.
  unfold loginWithEmail, tryCatch, loginWithEmail_try, bind at 1,
    signInWithEmailAndPassword.
  rewrite Hv. unfold loginWithEmail_catch. rewrite Hc.
  unfold failedAttempt, recordFailedAttempt, bind, tryCatch, getDoc, gets; simpl.
  destruct (admins b !! email) as [d|] eqn:Hd; simpl; [|done].
  destruct (5 <=? loginAttempts d + 1) eqn:Hn; simpl.
  - unfold updateDoc. rewrite Hd. simpl. done.
  - unfold updateDoc. rewrite Hd. simpl.
    rewrite includes_app_r; [done|].
    by apply includes_app_r.
Qed.

Lemma failedAttempt_trail now email b :
  includes "/" email = false →
  ∃ entry, auditTrail (snd (failedAttempt env now email b)) = auditTrail b ++ [entry]
           ∧ AuditLog.status entry ≠ AuditLog.success.
Proof.
  intros He. unfold failedAttempt.
  destruct (admins b !! email) as [d|]; simpl.
  - destruct (5 <=? loginAttempts d + 1); simpl;
      rewrite auditDocId_plain by done; by eexists.
  - rewrite auditDocId_plain by done. by eexists.
Qed.



(** An account whose lock is active is refused, with the minutes left. *)
Lemma loginWithEmail_locked now email password b firebaseUser d lockedUntil0 :
  verifyCredentials env email password = Ok firebaseUser →
  email = allowedAdminEmail →
  admins b !! Firebase.uid firebaseUser = Some d →
  isActive d = true →
  isLocked d = true →
  lockedUntil d = Some lockedUntil0 →
  now < lockedUntil0 →
  fst (loginWithEmail env now email password b) = Throw (lockedError now lockedUntil0).
Proof.
  intros Hv -> Hd Ha Hl Hlu Hlt.
  unfold loginWithEmail, tryCatch, loginWithEmail_try, bind,
    signInWithEmailAndPassword.
  rewrite Hv. simpl.
  unfold getAdminData, bind, getDoc, gets; simpl. rewrite Hd. simpl.
  rewrite Ha, Hl, Hlu. simpl.
  apply Z.ltb_lt in Hlt. rewrite Hlt. simpl. done.
Qed.

End PasswordLogin.

Section LockoutClaims.

Import AuthService Notions Scenario.

(** C1 (evaluation at the failing input).  The admin's record is stored
    under the provider's uid, as the setup of the directory prescribes.
    Five password attempts with a wrong password, one minute apart, each
    fail with the uniform credential error, yet leave the record untouched:
    the counter is still 0 and the lock flag clear.  A sixth attempt with
    the right password, still inside the fifteen minutes, logs in. *)
Theorem five_failures_leave_uid_record_unlocked :
  let '(results, b5) :=
    replay env allowedAdminEmail "guess"
      [minutes 0; minutes 1; minutes 2; minutes 3; minutes 4] backend0 in
  results = replicate 5 (Throw (Error "Invalid email or password"))
  ∧ admins b5 !! adminUid = Some adminRecord
  ∧ isLocked adminRecord = false
  ∧ ∃ r b6, loginWithEmail env (minutes 5) allowedAdminEmail "s3cret" b5 = (Ok r, b6).
Proof.
  vm_compute. repeat split; eauto.
Qed.

(** Where the record is kept under the address itself, the failures are
    counted on it: the fifth locks it for 15 minutes, the right password is
    then refused with the minutes left, and accepted once the lock has
    run out. *)
Example lockout_when_record_is_keyed_by_email :
  let '(results, b5) :=
    replay envMailKeyed allowedAdminEmail "guess"
      [minutes 0; minutes 1; minutes 2; minutes 3; minutes 4] backendMailKeyed in
  (loginAttempts <$> admins b5 !! allowedAdminEmail) = Some 5
  ∧ (isLocked <$> admins b5 !! allowedAdminEmail) = Some true
  ∧ (lockedUntil <$> admins b5 !! allowedAdminEmail) = Some (Some (minutes 19))
  ∧ fst (loginWithEmail envMailKeyed (minutes 5) allowedAdminEmail "s3cret" b5)
    = Throw (Error "Account is locked. Try again in 14 minutes")
  ∧ ∃ r b6, loginWithEmail envMailKeyed (minutes 19) allowedAdminEmail "s3cret" b5
            = (Ok r, b6).
Proof.
  vm_compute. repeat split; eauto.
Qed.

(** A record whose lock flag is set without an expiry (which the data model
    rules out) passes the lock check; the login succeeds and resets the
    counter, but the stored flag stays set. *)
Lemma success_can_leave_lock_flag_set :
  ∃ r b' d,
    loginWithEmail env (minutes 5) allowedAdminEmail "s3cret" backendFlagged = (Ok r, b')
    ∧ admins b' !! uid (user r) = Some d
    ∧ loginAttempts d = 0
    ∧ isLocked d = true.
Proof.
  vm_compute. eexists _, _, _. repeat split; reflexivity.
Qed.

(** The password path resets both fields.  For every prior value of the
    counter, and every prior lock state in which a set flag comes with an
    expiry, a password login that succeeds leaves the stored record with
    [loginAttempts = 0] and [isLocked = false]. *)
Theorem success_resets_counter_and_lock (e : Env) now email password b r b' d :
  loginWithEmail e now email password b = (Ok r, b') →
  admins b !! uid (user r) = Some d →
  lockWellFormed d = true →
  ∃ d', admins b' !! uid (user r) = Some d'
        ∧ loginAttempts d' = 0
        ∧ isLocked d' = false.
Proof.
  intros Hlogin Hd Hwf.
  apply loginWithEmail_success_inv in Hlogin
    as (fu & d0 & _ & _ & Hd0 & _ & _ & Huid & _ & _ & _ & _ & d' & Hadm & Hcnt & Hlk).
  rewrite Huid in Hd. rewrite Hd0 in Hd. injection Hd as ->.
  exists d'. rewrite Huid, Hadm, lookup_insert_eq.
  split; [done|]. split; [done|].
  rewrite Hlk. unfold lockWellFormed in Hwf.
  destruct (isLocked d); simpl in *; [|done].
  destruct (lockedUntil d) eqn:Hlu; [done|].
  exfalso. cbn in Hwf. discriminate.
Qed.

Lemma success_resets_counter_and_lock_witness :
  ∃ d', admins (snd (loginWithEmail env (minutes 20) allowedAdminEmail "s3cret"
                       backendLocked)) !! adminUid = Some d'
        ∧ loginAttempts d' = 0
        ∧ isLocked d' = false.
Proof.
  apply (success_resets_counter_and_lock env (minutes 20) allowedAdminEmail "s3cret"
           backendLocked
           (mkLoginResponse
              (mkAdminUser adminUid
                 (set_loginAttempts 0 (set_lastLogin (Some (minutes 20)) lockedRecord)))
              (getIdToken env (minutes 20) adminAccount))
           _ lockedRecord).
  - vm_compute. reflexivity.
  - vm_compute. reflexivity.
  - vm_compute. reflexivity.
Defined.

End LockoutClaims.

(** ** The federated login *)

Section FederatedLogin.

Import AuthService Notions.

Variable env : Env.

(** A federated login of a known, active account succeeds whatever the lock
    fields of its record say. *)
Lemma loginWithGoogle_known_account now firebaseUser b d :
  emailNotAllowed env firebaseUser = None →
  admins b !! Firebase.uid firebaseUser = Some d →
  isActive d = true →
  ∃ b', loginWithGoogle env now (Ok firebaseUser) b
        = (Ok (mkLoginResponse
                 (mkAdminUser (Firebase.uid firebaseUser) (set_lastLogin (Some now) d))
                 (getIdToken env now firebaseUser)), b')
        ∧ currentUser b' = Some firebaseUser.
Proof.
  intros Hallow Hd Ha.
  unfold loginWithGoogle, tryCatch, loginWithGoogle_try, bind, signInWithPopup.
  rewrite Hallow. unfold ret at 1.
  unfold getAdminData, bind, getDoc, gets; simpl. rewrite Hd. simpl.
  rewrite Ha. simpl.
  unfold updateDoc. simpl. rewrite Hd. simpl.
  by eexists.
Qed.

(** A Google login that succeeds writes [lastLogin] and [updatedAt] and
    nothing else: the counter and the lock fields stay as they were. *)
Lemma loginWithGoogle_keeps_counter_and_lock now firebaseUser b d :
  emailNotAllowed env firebaseUser = None →
  admins b !! Firebase.uid firebaseUser = Some d →
  isActive d = true →
  ∃ r b' d',
    loginWithGoogle env now (Ok firebaseUser) b = (Ok r, b')
    ∧ admins b' !! Firebase.uid firebaseUser = Some d'
    ∧ loginAttempts d' = loginAttempts d
    ∧ isLocked d' = isLocked d
    ∧ lockedUntil d' = lockedUntil d.
Proof.
  intros Hallow Hd Ha.
  unfold loginWithGoogle, tryCatch, loginWithGoogle_try, bind, signInWithPopup.
  rewrite Hallow. unfold ret at 1.
  unfold getAdminData, bind, getDoc, gets; simpl. rewrite Hd. simpl.
  rewrite Ha. simpl.
  unfold updateDoc. simpl. rewrite Hd. simpl.
  eexists _, _, _. split; [reflexivity|]. simpl.
  rewrite lookup_insert_eq. done.
Qed.





End FederatedLogin.

Section FederatedClaims.

Import AuthService Notions Scenario.

(** C3 (evaluation at the failing input).  The admin's record is locked
    until minute 15 and the clock is at minute 5.  The password login with
    the right password is refused with the lock error and the ten minutes
    left; the federated login of the same account succeeds. *)
Theorem federated_login_ignores_active_lock :
  lockActive (minutes 5) lockedRecord = true
  ∧ fst (loginWithEmail envSame (minutes 5) allowedAdminEmail "s3cret" backendLocked)
    = Throw (Error "Account is locked. Try again in 10 minutes")
  ∧ ∃ r b', loginWithGoogle envSame (minutes 5) (Ok adminAccount) backendLocked = (Ok r, b')
            ∧ currentUser b' = Some adminAccount
            ∧ isLocked (data (user r)) = true.
Proof.
  split; [reflexivity|]. split; [vm_compute; reflexivity|].
  destruct (loginWithGoogle_known_account envSame (minutes 5) adminAccount
              backendLocked lockedRecord) as (b' & Heq & Hcur);
    [reflexivity..|].
  eexists _, b'. split; [exact Heq|]. split; [exact Hcur|reflexivity].
Qed.

(** C4 (evaluation at the failing inputs).  A successful Google login
    resets neither field.  On an unlocked record with three failed attempts
    it returns the user and leaves the stored counter at 3.  On a record
    whose lock expired five minutes ago it returns the user and leaves the
    stored record with the counter at 5 and the lock flag set, where the
    password login on the same state stores the counter at 0 and the flag
    cleared.  Both records satisfy the data-model invariant. *)
Theorem federated_success_keeps_counter_and_lock :
  lockWellFormed MoreScenario.strikesRecord = true
  ∧ lockWellFormed lockedRecord = true
  ∧ lockActive (minutes 20) lockedRecord = false
  ∧ (∃ r b' d',
       loginWithGoogle envSame (minutes 20) (Ok adminAccount) MoreScenario.backendStrikes
       = (Ok r, b')
       ∧ admins b' !! adminUid = Some d'
       ∧ loginAttempts d' = 3)
  ∧ (∃ r b' d',
       loginWithGoogle envSame (minutes 20) (Ok adminAccount) backendLocked = (Ok r, b')
       ∧ admins b' !! adminUid = Some d'
       ∧ loginAttempts d' = 5
       ∧ isLocked d' = true)
  ∧ (∃ r b' d',
       loginWithEmail envSame (minutes 20) allowedAdminEmail "s3cret" backendLocked
       = (Ok r, b')
       ∧ admins b' !! adminUid = Some d'
       ∧ loginAttempts d' = 0
       ∧ isLocked d' = false).
Proof.
  split; [reflexivity|]. split; [reflexivity|]. split; [reflexivity|].
  split; [|split].
  - destruct (loginWithGoogle_keeps_counter_and_lock envSame (minutes 20) adminAccount
                MoreScenario.backendStrikes MoreScenario.strikesRecord)
      as (r & b' & d' & Heq & Hd' & Hcnt & _); [reflexivity..|].
    exists r, b', d'. split; [exact Heq|]. split; [exact Hd'|]. by rewrite Hcnt.
  - destruct (loginWithGoogle_keeps_counter_and_lock envSame (minutes 20) adminAccount
                backendLocked lockedRecord)
      as (r & b' & d' & Heq & Hd' & Hcnt & Hlk & _); [reflexivity..|].
    exists r, b', d'. split; [exact Heq|]. split; [exact Hd'|].
    split; [by rewrite Hcnt|by rewrite Hlk].
  - vm_compute. eexists _, _, _. repeat split; reflexivity.
Qed.




(** C10.  A federated login that passes the allow-list check and finds no
    record under the verified identity creates one with [role = admin],
    [isActive = true], [loginAttempts = 0] and [isLocked = false], and
    succeeds with the role [admin]; the listener for authentication state
    changes provisions the same record. *)
Theorem first_federated_login_provisions_admin (e : Env) now u b :
  emailNotAllowed e u = None →
  admins b !! Firebase.uid u = None →
  (∃ r b',
     loginWithGoogle e now (Ok u) b = (Ok r, b')
     ∧ admins b' !! Firebase.uid u = Some (newAdminData now u)
     ∧ uid (user r) = Firebase.uid u
     ∧ role (data (user r)) = admin
     ∧ currentUser b' = Some u)
  ∧ (∃ b',
       onAuthChange e now (Some u) b
       = (Ok (Some (mkAdminUser (Firebase.uid u) (newAdminData now u))), b')
       ∧ admins b' !! Firebase.uid u = Some (newAdminData now u))
  ∧ role (newAdminData now u) = admin
  ∧ isActive (newAdminData now u) = true
  ∧ loginAttempts (newAdminData now u) = 0
  ∧ isLocked (newAdminData now u) = false.
Proof.
  intros Hallow Hnone. split; [|split; [|done]].
  - unfold loginWithGoogle, tryCatch, loginWithGoogle_try, bind, signInWithPopup.
    rewrite Hallow. unfold ret at 1.
    unfold getAdminData, bind, getDoc, gets; simpl. rewrite Hnone. simpl.
    eexists _, _. split; [reflexivity|]. simpl.
    by rewrite lookup_insert_eq.
  - unfold onAuthChange. rewrite Hallow.
    unfold getAdminData, bind, getDoc, gets; simpl. rewrite Hnone. simpl.
    eexists. split; [reflexivity|]. simpl.
    by rewrite lookup_insert_eq.
Qed.

Lemma first_federated_login_provisions_admin_witness :
  (∃ r b',
     loginWithGoogle envUnset 0 (Ok strangerAccount) backend0 = (Ok r, b')
     ∧ admins b' !! Firebase.uid strangerAccount = Some (newAdminData 0 strangerAccount)
     ∧ uid (user r) = Firebase.uid strangerAccount
     ∧ role (data (user r)) = admin
     ∧ currentUser b' = Some strangerAccount)
  ∧ (∃ b',
       onAuthChange envUnset 0 (Some strangerAccount) backend0
       = (Ok (Some (mkAdminUser (Firebase.uid strangerAccount)
                      (newAdminData 0 strangerAccount))), b')
       ∧ admins b' !! Firebase.uid strangerAccount = Some (newAdminData 0 strangerAccount))
  ∧ role (newAdminData 0 strangerAccount) = admin
  ∧ isActive (newAdminData 0 strangerAccount) = true
  ∧ loginAttempts (newAdminData 0 strangerAccount) = 0
  ∧ isLocked (newAdminData 0 strangerAccount) = false.
Proof.
  apply (first_federated_login_provisions_admin envUnset 0 strangerAccount backend0).
  - reflexivity.
  - vm_compute. reflexivity.
Defined.

End FederatedClaims.

(** ** The rate limiter *)

Section RateLimiter.

Import RateLimit Notions.

Lemma chronological_filter (f : LoginAttempt → bool) l :
  chronological l = true → chronological (List.filter f l) = true.
Proof.
  induction l as [|a l IH]; simpl; [done|].
  intros [Ha Hl]%andb_true_iff.
  destruct (f a); simpl; [|by apply IH].
  rewrite IH by done. rewrite andb_true_r.
  rewrite forallb_forall in *. intros x [Hx _]%filter_In. by apply Ha.
Qed.

Lemma foldl_min_lower_bound m (l : list Z) :
  forallb (λ x, m <=? x) l = true → foldl Z.min m l = m.
Proof.
  induction l as [|x l IH]; simpl; [done|].
  intros [Hx Hl]%andb_true_iff. apply Z.leb_le in Hx.
  rewrite Z.min_l by done. by apply IH.
Qed.

(** In a list kept in the order of the timestamps the first entry is the
    oldest. *)
Lemma chronological_head_oldest l :
  chronological l = true → timestamp <$> head l = oldestTimestamp l.
Proof.
  destruct l as [|a l]; simpl; [done|].
  intros [Ha _]%andb_true_iff. f_equal.
  symmetry. apply foldl_min_lower_bound.
  rewrite forallb_forall in *. intros x [y [<- Hy]]%in_map_iff. by apply Ha.
Qed.

(** Recording an attempt at an instant no earlier than the stored ones keeps
    the list in order; so does clearing the attempts of an address. *)
Lemma recordLoginAttempt_chronological stored now email0 :
  chronological stored = true →
  forallb (λ a, timestamp a <=? now) stored = true →
  chronological (recordLoginAttempt stored now email0) = true.
Proof.
  intros Hc Hle. unfold recordLoginAttempt, recent.
  apply chronological_filter.
  induction stored as [|a l IH]; simpl in *; [done|].
  apply andb_true_iff in Hc as [Ha Hl].
  apply andb_true_iff in Hle as [Hn Hle].
  rewrite IH by done. rewrite andb_true_r.
  rewrite forallb_app, Ha. simpl. by rewrite Hn.
Qed.

Lemma clearLoginAttempts_chronological stored email0 :
  chronological stored = true →
  chronological (clearLoginAttempts stored email0) = true.
Proof. apply chronological_filter. Qed.

(** A refusal always comes with a waiting time, and the waiting time is
    positive: the entry it is computed from is still inside the window. *)
Lemma checkRateLimit_remaining_positive stored now key :
  allowed (checkRateLimit stored now key) = false →
  ∃ r, remainingTime (checkRateLimit stored now key) = Some r ∧ 0 < r.
Proof.
  unfold checkRateLimit, recent, forEmail.
  set (matching := List.filter _ (List.filter _ stored)).
  destruct (RATE_LIMIT_MAX_ATTEMPTS <=? Z.of_nat (length matching)) eqn:Hn;
    [|discriminate].
  intros _. simpl.
  destruct matching as [|a l] eqn:Hm.
  { apply Z.leb_le in Hn. unfold RATE_LIMIT_MAX_ATTEMPTS in Hn. simpl in Hn. lia. }
  simpl. eexists. split; [done|].
  assert (In a (List.filter (λ attempt, String.eqb (email attempt) key)
                  (List.filter (λ attempt, now - timestamp attempt <? RATE_LIMIT_WINDOW_MS)
                     stored))) as Hin.
  { fold matching. rewrite Hm. by left. }
  apply filter_In in Hin as [Hin _].
  apply filter_In in Hin as [_ Hrecent].
  apply Z.ltb_lt in Hrecent. lia.
Qed.

(** C6 (the claim as stated fails).  On a stored list that is not in the
    order of its timestamps the waiting time is computed from the first
    matching entry, which is not the oldest one: the code answers 15
    minutes where the oldest entry gives 5. *)
Lemma retry_after_ignores_oldest_when_unsorted :
  checkRateLimit PageScenario.unsortedAttempts (Scenario.minutes 10) "a@x.com"
  = mkRateLimitResult false (Some (Scenario.minutes 15))
  ∧ checkAllowed_spec PageScenario.unsortedAttempts (Scenario.minutes 10) "a@x.com"
    = mkRateLimitResult false (Some (Scenario.minutes 5))
  ∧ oldestTimestamp PageScenario.unsortedAttempts = Some (Scenario.minutes 0).
Proof. vm_compute. done. Qed.

(** C6 (amended).  The check only reads the stored list.  For every stored
    list kept in the order of its timestamps, every key and every current
    time it keeps the entries younger than the 15-minute window
    ([now - timestamp < W]), counts those matching the key, and from 5 on
    answers [allowed = false] with the window length minus the age of the
    oldest matching entry; below 5 it answers [allowed = true]. *)
Theorem checkRateLimit_meets_spec_on_chronological stored now key :
  chronological stored = true →
  checkRateLimit stored now key = checkAllowed_spec stored now key.
Proof.
  intros Hc. unfold checkRateLimit, checkAllowed_spec, recent, forEmail.
  set (matching := List.filter _ (List.filter _ stored)).
  destruct (RATE_LIMIT_MAX_ATTEMPTS <=? Z.of_nat (length matching)); [|done].
  f_equal.
  rewrite <- (chronological_head_oldest matching).
  - by destruct (head matching).
  - by do 2 apply chronological_filter.
Qed.

Lemma checkRateLimit_meets_spec_on_chronological_witness :
  checkRateLimit PageScenario.fiveAttempts (Scenario.minutes 5)
    AuthService.allowedAdminEmail
  = checkAllowed_spec PageScenario.fiveAttempts (Scenario.minutes 5)
      AuthService.allowedAdminEmail.
Proof.
  apply (checkRateLimit_meets_spec_on_chronological PageScenario.fiveAttempts
           (Scenario.minutes 5) AuthService.allowedAdminEmail).
  vm_compute. reflexivity.
Defined.

End RateLimiter.

(** ** The session store *)

Section SessionStore.

Import AuthService AuthStore Notions.

Variable env : Env.

Lemma login_unfold now email password w :
  login env now email password w =
  match loginWithEmail env now email password (backend w) with
  | (Ok response, b') =>
      setupTokenRefresh now
        (set_store (mkStore (Some (adminUserToUser env (AuthService.user response)))
                      (Some (AuthService.token response)) true false)
           (set_backend b' w))
  | (Throw error, b') =>
      (Throw (Error (orElse (Some (message error)) "Login failed")),
       set_store (mkStore (user (store w)) (token (store w))
                    (isAuthenticated (store w)) false)
         (set_backend b' w))
  end.
Proof.
  unfold login, tryCatch, bind, set, modify, liftB. simpl.
  destruct (loginWithEmail env now email password (backend w)) as [[r|e] b']; simpl.
  - unfold setupTokenRefresh, bind, gets, set_store, set_backend; simpl.
    destruct (tokenRefreshInterval w); reflexivity.
  - reflexivity.
Qed.

Lemma loginWithGoogle_unfold now popup w :
  loginWithGoogle env now popup w =
  match AuthService.loginWithGoogle env now popup (backend w) with
  | (Ok response, b') =>
      setupTokenRefresh now
        (set_store (mkStore (Some (adminUserToUser env (AuthService.user response)))
                      (Some (AuthService.token response)) true false)
           (set_backend b' w))
  | (Throw error, b') =>
      (Throw (Error (orElse (Some (message error)) "Google login failed")),
       set_store (mkStore (user (store w)) (token (store w))
                    (isAuthenticated (store w)) false)
         (set_backend b' w))
  end.
Proof.
  unfold loginWithGoogle, tryCatch, bind, set, modify, liftB. simpl.
  destruct (AuthService.loginWithGoogle env now popup (backend w)) as [[r|e] b']; simpl.
  - unfold setupTokenRefresh, bind, gets, set_store, set_backend; simpl.
    destruct (tokenRefreshInterval w); reflexivity.
  - reflexivity.
Qed.

(** With the store's timer the only one alive, setting up the refresh
    replaces it by a new one, due 45 minutes on. *)
Lemma setupTokenRefresh_tracked now w :
  timersTracked w = true →
  setupTokenRefresh now w =
    (Ok tt,
     set_tokenRefreshInterval (Some (nextTimerId w))
       (set_nextTimerId (Pos.succ (nextTimerId w))
          (set_timers [(nextTimerId w,
                        mkTimer REFRESH_INTERVAL_MS (now + REFRESH_INTERVAL_MS))] w))).
Proof.
  unfold timersTracked, setupTokenRefresh, bind, gets, clearInterval, setInterval,
    modify, ret.
  destruct (tokenRefreshInterval w) as [id|] eqn:Hi;
    destruct (timers w) as [|[id' tm] [|? ?]] eqn:Ht; try discriminate; simpl.
  - intros Heq. rewrite Pos.eqb_sym, Heq. simpl. reflexivity.
  - intros _. reflexivity.
Qed.

Lemma clearTokenRefresh_tracked w :
  timersTracked w = true →
  clearTokenRefresh w =
    (Ok tt, set_tokenRefreshInterval None (set_timers [] w)).
Proof.
  unfold timersTracked, clearTokenRefresh, bind, gets, clearInterval, modify, ret.
  destruct (tokenRefreshInterval w) as [id|] eqn:Hi;
    destruct (timers w) as [|[id' tm] [|? ?]] eqn:Ht; try discriminate; simpl.
  - intros Heq. rewrite Pos.eqb_sym, Heq. simpl. reflexivity.
  - intros _. destruct w; simpl in *. by subst.
Qed.

Lemma clearTokenRefresh_backend w :
  ∃ w', clearTokenRefresh w = (Ok tt, w') ∧ backend w' = backend w
        ∧ store w' = store w.
Proof.
  unfold clearTokenRefresh, bind, gets, clearInterval, modify, ret.
  destruct (tokenRefreshInterval w); by eexists.
Qed.

Lemma setupTokenRefresh_backend now w :
  ∃ w', setupTokenRefresh now w = (Ok tt, w') ∧ backend w' = backend w.
Proof.
  unfold setupTokenRefresh, bind, gets, clearInterval, setInterval, modify, ret.
  destruct (tokenRefreshInterval w); by eexists.
Qed.

Lemma setupTokenRefresh_keeps_tracked now w :
  timersTracked w = true → timersTracked (snd (setupTokenRefresh now w)) = true.
Proof.
  intros H. rewrite setupTokenRefresh_tracked by done. simpl.
  unfold timersTracked. simpl. apply Pos.eqb_refl.
Qed.

Lemma login_keeps_tracked now email password w :
  timersTracked w = true →
  timersTracked (snd (login env now email password w)) = true.
Proof.
  intros H. rewrite login_unfold.
  destruct (loginWithEmail env now email password (backend w)) as [[r|e] b'].
  - by apply setupTokenRefresh_keeps_tracked.
  - done.
Qed.

Lemma loginWithGoogle_keeps_tracked now popup w :
  timersTracked w = true →
  timersTracked (snd (loginWithGoogle env now popup w)) = true.
Proof.
  intros H. rewrite loginWithGoogle_unfold.
  destruct (AuthService.loginWithGoogle env now popup (backend w)) as [[r|e] b'].
  - by apply setupTokenRefresh_keeps_tracked.
  - done.
Qed.

Lemma service_logout_returns now b :
  ∃ b', AuthService.logout env now b = (Ok tt, b') ∧ currentUser b' = None.
Proof.
  unfold AuthService.logout, bind, gets, signOut, modify; simpl.
  destruct (currentUser b) as [u|]; simpl; [|by eexists].
  destruct (Firebase.email u) as [e|]; simpl; [|by eexists].
  destruct (String.eqb e ""); simpl; by eexists.
Qed.

Lemma service_logout_trail now b u e :
  currentUser b = Some u →
  Firebase.email u = Some e →
  e ≠ "" →
  includes "/" e = false →
  auditTrail (snd (AuthService.logout env now b))
  = auditTrail b ++ [AuditLog.mkEntry "logout" e "unknown" (userAgent env)
                       AuditLog.success "User logged out" now].
Proof.
  intros Hu He Hne Hplain.
  unfold AuthService.logout, bind, gets, signOut, modify; simpl.
  rewrite Hu, He.
  destruct (String.eqb e "") eqn:E; [by apply String.eqb_eq in E|].
  simpl. by rewrite auditDocId_plain.
Qed.

Lemma logout_tracked now w :
  timersTracked w = true →
  logout env now w =
    (Ok tt,
     set_store (mkStore None None false (loading (store w)))
       (set_backend (snd (AuthService.logout env now (backend w)))
          (set_tokenRefreshInterval None (set_timers [] w)))).
Proof.
  intros H. unfold logout, tryCatch. unfold bind at 1.
  rewrite clearTokenRefresh_tracked by done.
  unfold bind, liftB, set, modify. simpl.
  destruct (service_logout_returns now (backend w)) as (b' & -> & _). reflexivity.
Qed.

(** The store's actions reach the directory and the ledger only through the
    service. *)
Lemma login_backend now email password w :
  backend (snd (login env now email password w))
  = snd (loginWithEmail env now email password (backend w)).
Proof.
  rewrite login_unfold.
  destruct (loginWithEmail env now email password (backend w)) as [[r|e] b']; [|done].
  match goal with |- context [setupTokenRefresh now ?w1] =>
    destruct (setupTokenRefresh_backend now w1) as (w' & Heq & Hb) end.
  rewrite Heq. simpl. by rewrite Hb.
Qed.

Lemma logout_backend now w :
  backend (snd (logout env now w)) = snd (AuthService.logout env now (backend w)).
Proof.
  unfold logout, tryCatch. unfold bind at 1.
  destruct (clearTokenRefresh_backend w) as (w' & -> & Hb & _).
  unfold bind, liftB, set, modify. rewrite Hb.
  destruct (service_logout_returns now (backend w)) as (b' & -> & _). done.
Qed.

Lemma onAuthChange_returns now firebaseUser b :
  ∃ r b', onAuthChange env now firebaseUser b = (Ok r, b').
Proof.
  unfold onAuthChange.
  destruct firebaseUser as [u|]; [|by eexists _, _].
  destruct (emailNotAllowed env u); [by eexists _, _|].
  unfold getAdminData, bind, getDoc, gets; simpl.
  destruct (admins b !! Firebase.uid u) as [d|]; simpl.
  - destruct (isActive d); simpl; by eexists _, _.
  - by eexists _, _.
Qed.

Lemma onAuthChange_inactive now u d b :
  emailNotAllowed env u = None →
  admins b !! Firebase.uid u = Some d →
  isActive d = false →
  ∃ b', onAuthChange env now (Some u) b = (Ok None, b') ∧ currentUser b' = None.
Proof.
  intros Ha Hd Hi. unfold onAuthChange. rewrite Ha.
  unfold getAdminData, bind, getDoc, gets; simpl. rewrite Hd. simpl.
  rewrite Hi. simpl. by eexists.
Qed.

Lemma authCallback_keeps_tracked now idToken adminUser w :
  timersTracked w = true →
  timersTracked (snd (authCallback env now idToken adminUser w)) = true.
Proof.
  intros H. unfold authCallback.
  destruct adminUser as [au|].
  - unfold bind, gets, set, modify. simpl.
    by apply setupTokenRefresh_keeps_tracked.
  - unfold bind at 1. rewrite clearTokenRefresh_tracked by done. done.
Qed.

Lemma authStateChanged_keeps_tracked now idToken w :
  timersTracked w = true →
  timersTracked (snd (authStateChanged env now idToken w)) = true.
Proof.
  intros H. unfold authStateChanged.
  destruct (hasInitialized w); [|done].
  unfold bind at 1, gets. unfold bind at 1, liftB.
  destruct (onAuthChange_returns now (currentUser (backend w)) (backend w))
    as (r & b' & ->).
  by apply authCallback_keeps_tracked.
Qed.

Lemma loginWithGoogle_success_inv now popup b r b' :
  AuthService.loginWithGoogle env now popup b = (Ok r, b') →
  ∃ firebaseUser,
    popup = Ok firebaseUser
    ∧ AuthService.token r = getIdToken env now firebaseUser
    ∧ currentUser b' = Some firebaseUser.
Proof.
  unfold AuthService.loginWithGoogle, tryCatch.
  destruct (loginWithGoogle_try env now popup b) as [[r0|e] b0] eqn:Htry.
  2:{ unfold loginWithGoogle_catch. destruct (isPopupCancelled e); discriminate. }
  intros [= -> ->]. revert Htry.
  unfold loginWithGoogle_try, bind, signInWithPopup.
  destruct popup as [fu|e]; [|discriminate].
  destruct (emailNotAllowed env fu); [discriminate|]. unfold ret at 1.
  unfold getAdminData, bind, getDoc, gets; simpl.
  destruct (admins b !! Firebase.uid fu) as [d|] eqn:Hd; simpl.
  - destruct (isActive d); simpl; [|discriminate].
    unfold updateDoc. simpl. rewrite Hd. simpl.
    intros [= <- <-]. by exists fu.
  - intros [= <- <-]. by exists fu.
Qed.

Lemma handleLogin_rate_limited now email password w :
  LoginPage.isBlank email = false →
  password ≠ "" →
  RateLimit.allowed (RateLimit.checkRateLimit (login_attempts w) now email) = false →
  LoginPage.handleLogin env now email password w
  = (LoginPage.RateLimited
       (default 0 (RateLimit.remainingTime
                     (RateLimit.checkRateLimit (login_attempts w) now email))), w).
Proof.
  intros Hb Hp Hrl. unfold LoginPage.handleLogin. rewrite Hb.
  destruct (String.eqb password "") eqn:E; [by apply String.eqb_eq in E|].
  by rewrite Hrl.
Qed.

(** *** The clock *)

Lemma refreshCallback_unfold t w :
  refreshCallback env t w =
  (Ok tt,
   match currentUser (backend w) with
   | Some firebaseUser =>
       if refreshSucceeds env t
       then set_store (mkStore (user (store w)) (Some (getIdToken env t firebaseUser))
                         (isAuthenticated (store w)) (loading (store w))) w
       else w
   | None => w
   end).
Proof.
  unfold refreshCallback, refreshRequest, refreshSettle, forcedRefresh,
    tryCatch, bind, gets, set, modify, throw, ret.
  destruct (currentUser (backend w)); [|done].
  by destruct (refreshSucceeds env t).
Qed.

Lemma fire_unfold x w :
  fire env x w =
  let w' := match currentUser (backend w) with
            | Some firebaseUser =>
                if refreshSucceeds env (due (snd x))
                then set_store (mkStore (user (store w))
                                  (Some (getIdToken env (due (snd x)) firebaseUser))
                                  (isAuthenticated (store w)) (loading (store w))) w
                else w
            | None => w
            end in
  set_timers (reschedule (fst x) (timers w)) w'.
Proof.
  unfold fire. rewrite refreshCallback_unfold. simpl.
  destruct (currentUser (backend w)); [|done].
  by destruct (refreshSucceeds env (due (snd x))).
Qed.

Lemma fire_backend x w : backend (fire env x w) = backend w.
Proof.
  rewrite fire_unfold. simpl.
  destruct (currentUser (backend w)); [|done].
  by destruct (refreshSucceeds env (due (snd x))).
Qed.

Lemma fire_timers x w : timers (fire env x w) = reschedule (fst x) (timers w).
Proof. by rewrite fire_unfold. Qed.

Lemma fire_tokenRefreshInterval x w :
  tokenRefreshInterval (fire env x w) = tokenRefreshInterval w.
Proof.
  rewrite fire_unfold. simpl.
  destruct (currentUser (backend w)); [|done].
  by destruct (refreshSucceeds env (due (snd x))).
Qed.

Lemma reschedule_ids id l : List.map fst (reschedule id l) = List.map fst l.
Proof.
  unfold reschedule. rewrite List.map_map. apply List.map_ext.
  intros x. by destruct (Pos.eqb (fst x) id).
Qed.

Lemma tracked_ids w w' :
  List.map fst (timers w') = List.map fst (timers w) →
  tokenRefreshInterval w' = tokenRefreshInterval w →
  timersTracked w' = timersTracked w.
Proof.
  unfold timersTracked. intros Hm ->.
  destruct (timers w) as [|[i tm] [|? ?]], (timers w') as [|[i' tm'] [|? ?]];
    simpl in Hm; try discriminate; try done.
  by injection Hm as ->.
Qed.

Lemma runTimers_keeps_tracked fuel t w :
  timersTracked (runTimers env fuel t w) = timersTracked w.
Proof.
  revert w. induction fuel as [|fuel IH]; intros w; simpl; [done|].
  destruct (nextDue t (timers w)) as [x|]; [|done].
  rewrite IH. apply tracked_ids.
  - by rewrite fire_timers, reschedule_ids.
  - apply fire_tokenRefreshInterval.
Qed.

Lemma advanceTo_keeps_tracked t w :
  timersTracked (advanceTo env t w) = timersTracked w.
Proof. apply runTimers_keeps_tracked. Qed.

(** No timer, no firing. *)
Lemma advanceTo_no_timer t w : timers w = [] → advanceTo env t w = w.
Proof. unfold advanceTo. by intros ->. Qed.

Lemma timer_eq (id : positive) P a b :
  a = b → [(id, mkTimer P a)] = [(id, mkTimer P b)].
Proof. by intros ->. Qed.

Lemma token_eq a b (u : Firebase.User) :
  a = b → Some (getIdToken env a u) = Some (getIdToken env b u).
Proof. by intros ->. Qed.

Ltac same_instant := first [apply timer_eq | apply token_eq]; lia.

(** A page with one timer, [k] firings on: the timer is due [k] periods
    later and the store holds the token of the last firing. *)
Lemma runTimers_single k t w id P d firebaseUser :
  0 ≤ P →
  timers w = [(id, mkTimer P d)] →
  currentUser (backend w) = Some firebaseUser →
  (∀ t', refreshSucceeds env t' = true) →
  d + (Z.of_nat k - 1) * P ≤ t →
  let w' := runTimers env k t w in
  timers w' = [(id, mkTimer P (d + Z.of_nat k * P))]
  ∧ backend w' = backend w
  ∧ (k ≠ O →
     token (store w') = Some (getIdToken env (d + (Z.of_nat k - 1) * P) firebaseUser)).
Proof.
  intros HP. revert w d.
  induction k as [|k IH]; intros w d Ht Hu Hr Hdue; simpl.
  - rewrite Ht. split; [|split; [done|]].
    + same_instant.
    + intros H. by destruct H.
  - rewrite Ht. simpl.
    assert (d ≤ t) as Hd by nia.
    apply Z.leb_le in Hd. rewrite Hd.
    remember (fire env (id, mkTimer P d) w) as w1 eqn:Hw1.
    assert (timers w1 = [(id, mkTimer P (d + P))]) as Ht1.
    { rewrite Hw1, fire_timers, Ht. simpl. by rewrite Pos.eqb_refl. }
    assert (backend w1 = backend w) as Hb1 by (rewrite Hw1; apply fire_backend).
    destruct (IH w1 (d + P) Ht1) as (Htk & Hbk & Htok).
    { by rewrite Hb1. } { done. } { nia. }
    split; [|split].
    + rewrite Htk. same_instant.
    + by rewrite Hbk.
    + intros _. destruct k as [|k'].
      * simpl. rewrite Hw1, fire_unfold. simpl. rewrite Hu, Hr. simpl.
        same_instant.
      * rewrite Htok by done. same_instant.
Qed.

Lemma div_bounds a P :
  0 < P → 0 ≤ a → 0 ≤ a / P ∧ a / P * P ≤ a < a / P * P + P.
Proof.
  intros HP Ha.
  pose proof (Z.div_pos a P Ha HP).
  pose proof (Z.mul_div_le a P HP).
  pose proof (Z.mul_succ_div_gt a P HP).
  lia.
Qed.

Lemma nextDue_single t id tm :
  nextDue t [(id, tm)] = if due tm <=? t then Some (id, tm) else None.
Proof. reflexivity. Qed.

(** The schedule of a session: with a lifetime longer than the refresh
    interval and refreshes that succeed, the token in the store is good at
    every instant from the login on, and the clock leaves no firing
    undone. *)
Lemma scheduled_refresh_keeps_token_fresh now w firebaseUser :
  REFRESH_INTERVAL_MS < tokenLifetime env →
  (∀ t, refreshSucceeds env t = true) →
  timersTracked w = true →
  currentUser (backend w) = Some firebaseUser →
  token (store w) = Some (getIdToken env now firebaseUser) →
  let w' := snd (setupTokenRefresh now w) in
  timers w' = [(nextTimerId w, mkTimer REFRESH_INTERVAL_MS (now + REFRESH_INTERVAL_MS))]
  ∧ ∀ t, now ≤ t →
      tokenValidAt t (advanceTo env t w')
      ∧ nextDue t (timers (advanceTo env t w')) = None
      ∧ (t < now + REFRESH_INTERVAL_MS →
         token (store (advanceTo env t w')) = Some (getIdToken env now firebaseUser))
      ∧ (now + REFRESH_INTERVAL_MS ≤ t < now + 2 * REFRESH_INTERVAL_MS →
         token (store (advanceTo env t w'))
         = Some (getIdToken env (now + REFRESH_INTERVAL_MS) firebaseUser)).
Proof.
  intros HL Hr Htr Hu Htok w'. subst w'.
  rewrite setupTokenRefresh_tracked by done. simpl.
  split; [done|]. intros t Ht.
  set (P := REFRESH_INTERVAL_MS) in *.
  assert (0 < P) as HP by (unfold P, REFRESH_INTERVAL_MS; lia).
  set (w' := set_tokenRefreshInterval _ _).
  assert (timers w' = [(nextTimerId w, mkTimer P (now + P))]) as Htm by done.
  assert (currentUser (backend w') = Some firebaseUser) as Hu' by done.
  assert (token (store w') = Some (getIdToken env now firebaseUser)) as Htok' by done.
  clearbody w'.
  unfold advanceTo. rewrite Htm. simpl. unfold firingsDue. simpl.
  destruct (now + P <=? t) eqn:Hdue.
  - apply Z.leb_le in Hdue.
    destruct (div_bounds (t - (now + P)) P) as (Hq0 & Hq1 & Hq2); [lia..|].
    set (q := (t - (now + P)) / P) in *.
    set (k := (S (Z.to_nat q) + 0)%nat).
    assert (Z.of_nat k = q + 1) as Hk by (unfold k; lia).
    destruct (runTimers_single k t w' (nextTimerId w) P (now + P) firebaseUser)
      as (Htk & Hbk & Htokk); [lia|done|done|done|nia|].
    rewrite Htk, nextDue_single. simpl.
    split; [|split; [|split]].
    + eexists. split; [apply Htokk; unfold k; lia|]. simpl. nia.
    + destruct (_ <=? t) eqn:E; [apply Z.leb_le in E; nia|done].
    + intros ?. lia.
    + intros [_ Hlt]. etrans; [apply Htokk; unfold k; lia|].
      apply token_eq. nia.
  - apply Z.leb_gt in Hdue. simpl. rewrite Htm, nextDue_single. simpl.
    split; [|split; [|split]].
    + eexists. split; [exact Htok'|]. simpl. lia.
    + destruct (_ <=? t) eqn:E; [apply Z.leb_le in E; lia|done].
    + done.
    + intros ?. lia.
Qed.

(** *** The page as a transition system *)

Lemma step_keeps_tracked ev w :
  timersTracked w = true → timersTracked (step env ev w) = true.
Proof.
  intros H. destruct ev as [now email password|now popup|now| |now idToken|id rec|t]; simpl.
  - unfold LoginPage.handleLogin.
    destruct (LoginPage.isBlank email); [done|].
    destruct (String.eqb password ""); [done|].
    destruct (negb _); [done|].
    match goal with |- context [login env now email password ?w1] =>
      pose proof (login_keeps_tracked now email password w1 H) as H1;
      destruct (login env now email password w1) as [[[]|e] w2] end; done.
  - unfold LoginPage.handleGoogleLogin.
    destruct (negb _); [done|].
    match goal with |- context [loginWithGoogle env now popup ?w1] =>
      pose proof (loginWithGoogle_keeps_tracked now popup w1 H) as H1;
      destruct (loginWithGoogle env now popup w1) as [[[]|e] w2] end; done.
  - by rewrite logout_tracked.
  - unfold initializeAuth.
    destruct (isInitializing w); [done|]. by destruct (hasInitialized w).
  - by apply authStateChanged_keeps_tracked.
  - done.
  - by rewrite advanceTo_keeps_tracked.
Qed.

(** Whatever happens on the page, the refresh timer the store knows of is
    the only timer alive. *)
Lemma run_keeps_tracked evs w :
  timersTracked w = true → timersTracked (run env evs w) = true.
Proof.
  revert w. induction evs as [|ev evs IH]; intros w H; simpl; [done|].
  apply IH. by apply step_keeps_tracked.
Qed.

Lemma tracked_at_most_one w :
  timersTracked w = true → (length (timers w) ≤ 1)%nat.
Proof.
  unfold timersTracked.
  destruct (tokenRefreshInterval w);
    destruct (timers w) as [|[? ?] [|? ?]]; simpl; try discriminate; lia.
Qed.

Lemma logout_discards now w :
  timersTracked w = true → sessionDiscarded env (snd (logout env now w)).
Proof.
  intros H. rewrite logout_tracked by done. simpl.
  repeat split; try done; intros t; by apply advanceTo_no_timer.
Qed.

Lemma authCallback_none_discards now idToken w :
  timersTracked w = true →
  sessionDiscarded env (snd (authCallback env now idToken None w)).
Proof.
  intros H. unfold authCallback. unfold bind at 1.
  rewrite clearTokenRefresh_tracked by done. simpl.
  repeat split; try done; intros t; by apply advanceTo_no_timer.
Qed.

Lemma deactivation_discards now idToken w u d :
  timersTracked w = true →
  hasInitialized w = true →
  currentUser (backend w) = Some u →
  emailNotAllowed env u = None →
  admins (backend w) !! Firebase.uid u = Some d →
  isActive d = false →
  sessionDiscarded env (snd (authStateChanged env now idToken w)).
Proof.
  intros H Hi Hu Ha Hd Hact. unfold authStateChanged. rewrite Hi.
  unfold bind at 1, gets. unfold bind at 1, liftB. rewrite Hu.
  destruct (onAuthChange_inactive now u d (backend w) Ha Hd Hact) as (b' & -> & _).
  by apply authCallback_none_discards.
Qed.

End SessionStore.

(** ** The audit trail of the gateway, and the life of a session *)

Section SessionClaims.

Import AuthService AuthStore Notions Scenario PageScenario.

(** C2 (the claim as stated fails).  Five attempts are on record for the
    address and the sixth comes at minute 5: the page answers with the
    rate-limit message and ten minutes to wait, and returns before the
    gateway is called.  The world, the audit ledger included, is as it was:
    no entry is written. *)
Lemma rate_limited_block_appends_no_audit_entry :
  LoginPage.handleLogin env (minutes 5) allowedAdminEmail "s3cret" pageLimited
  = (LoginPage.RateLimited (minutes 10), pageLimited)
  ∧ auditTrail (backend (snd (LoginPage.handleLogin env (minutes 5) allowedAdminEmail
                                "s3cret" pageLimited)))
    = auditTrail (backend pageLimited)
  ∧ auditLogs (backend (snd (LoginPage.handleLogin env (minutes 5) allowedAdminEmail
                               "s3cret" pageLimited)))
    = auditLogs (backend pageLimited).
Proof.
  assert (LoginPage.handleLogin env (minutes 5) allowedAdminEmail "s3cret" pageLimited
          = (LoginPage.RateLimited (minutes 10), pageLimited)) as H.
  { rewrite handleLogin_rate_limited by (reflexivity || discriminate).
    reflexivity. }
  rewrite H. done.
Qed.

(** A login refused because the lock is active hands two entries to the
    ledger: the one of the lock check, and the one the [catch] block adds
    for the error thrown by the lock check. *)
Example lockout_block_appends_two_entries :
  auditTrail (snd (loginWithEmail env (minutes 5) allowedAdminEmail "s3cret"
                     backendLocked))
  = [failedAttemptEntry env (minutes 5) allowedAdminEmail AuditLog.blocked
       "Account locked for 10 minutes";
     failedAttemptEntry env (minutes 5) allowedAdminEmail AuditLog.failed
       "Account is locked. Try again in 10 minutes"].
Proof. vm_compute. reflexivity. Qed.

(** An address with a slash in it yields no document id, so the entry of a
    failed login for it is not written: the login fails with the uniform
    credential error and the ledger stays empty. *)
Example slash_address_appends_no_audit_entry :
  docId (auditDocId (minutes 5) MoreScenario.slashEmail) = None
  ∧ fst (loginWithEmail env (minutes 5) MoreScenario.slashEmail "guess" backend0)
    = Throw (Error "Invalid email or password")
  ∧ auditTrail (snd (loginWithEmail env (minutes 5) MoreScenario.slashEmail "guess"
                       backend0)) = []
  ∧ auditLogs (snd (loginWithEmail env (minutes 5) MoreScenario.slashEmail "guess"
                      backend0)) = ∅.
Proof. vm_compute. done. Qed.

(** C2 (amended).  A password login that succeeds, a password login that
    fails the credential check (whether or not the failure locks a record)
    for an email address without a slash, and the logout of a signed-in
    user whose account has an email address without a slash each append
    exactly one entry to the audit ledger before they return.  A login the
    client-side rate limiter blocks returns before the gateway is called
    and appends none. *)
Theorem gateway_calls_append_one_audit_entry (e : Env) now :
  (∀ email password w r b',
     loginWithEmail e now email password (backend w) = (Ok r, b') →
     auditTrail (backend (snd (login e now email password w)))
     = auditTrail (backend w) ++ [successEntry e now email])
  ∧ (∀ email password w error,
       verifyCredentials e email password = Throw error →
       isCredentialError error = true →
       includes "/" email = false →
       ∃ entry,
         auditTrail (backend (snd (login e now email password w)))
         = auditTrail (backend w) ++ [entry]
         ∧ AuditLog.status entry ≠ AuditLog.success)
  ∧ (∀ w u address,
       currentUser (backend w) = Some u →
       Firebase.email u = Some address →
       address ≠ "" →
       includes "/" address = false →
       auditTrail (backend (snd (logout e now w)))
       = auditTrail (backend w)
         ++ [AuditLog.mkEntry "logout" address "unknown" (userAgent e)
               AuditLog.success "User logged out" now])
  ∧ (∀ email password w,
       LoginPage.isBlank email = false →
       password ≠ "" →
       RateLimit.allowed (RateLimit.checkRateLimit (login_attempts w) now email) = false →
       snd (LoginPage.handleLogin e now email password w) = w).
Proof.
  split; [|split; [|split]].
  - intros email password w r b' Hok. rewrite login_backend, Hok. simpl.
    by apply loginWithEmail_success_inv in Hok
      as (? & ? & _ & _ & _ & _ & _ & _ & _ & _ & ? & _).
  - intros email password w error Hv Hc Hplain. rewrite login_backend.
    rewrite (loginWithEmail_wrong_password e now email password (backend w) error Hv Hc).
    simpl. by apply failedAttempt_trail.
  - intros w u address Hu He Hne Hplain. rewrite logout_backend.
    by apply (service_logout_trail e now (backend w) u address).
  - intros email password w Hb Hp Hrl.
    by rewrite handleLogin_rate_limited.
Qed.

Lemma gateway_calls_append_one_audit_entry_witness :
  auditTrail (backend (snd (login env (minutes 5) allowedAdminEmail "s3cret" page0)))
  = auditTrail (backend page0) ++ [successEntry env (minutes 5) allowedAdminEmail]
  ∧ (∃ entry,
       auditTrail (backend (snd (login env (minutes 5) allowedAdminEmail "guess" page0)))
       = auditTrail (backend page0) ++ [entry]
       ∧ AuditLog.status entry ≠ AuditLog.success)
  ∧ auditTrail (backend (snd (logout env (minutes 5)
                                (set_backend (set_currentUser (Some adminAccount) backend0)
                                   page0))))
    = auditTrail (backend page0)
      ++ [AuditLog.mkEntry "logout" allowedAdminEmail "unknown" (userAgent env)
            AuditLog.success "User logged out" (minutes 5)]
  ∧ snd (LoginPage.handleLogin env (minutes 5) allowedAdminEmail "s3cret" pageLimited)
    = pageLimited.
Proof.
  destruct (gateway_calls_append_one_audit_entry env (minutes 5))
    as (Hok & Hfail & Hout & Hlimited).
  split; [|split; [|split]].
  - apply (Hok allowedAdminEmail "s3cret" page0
             (mkLoginResponse
                (mkAdminUser adminUid
                   (set_loginAttempts 0 (set_lastLogin (Some (minutes 5)) adminRecord)))
                (getIdToken env (minutes 5) adminAccount))
             (snd (loginWithEmail env (minutes 5) allowedAdminEmail "s3cret" backend0))).
    vm_compute. reflexivity.
  - apply (Hfail allowedAdminEmail "guess" page0 invalidCredential).
    + reflexivity.
    + reflexivity.
    + reflexivity.
  - apply (Hout (set_backend (set_currentUser (Some adminAccount) backend0) page0)
             adminAccount allowedAdminEmail).
    + reflexivity.
    + reflexivity.
    + discriminate.
    + reflexivity.
  - apply (Hlimited allowedAdminEmail "s3cret" pageLimited).
    + reflexivity.
    + discriminate.
    + vm_compute. reflexivity.
Defined.

(** C8.  A session issued by a login at [now], with a token lifetime of 60
    minutes, gets one refresh timer, first due at [now] plus the lifetime
    minus 15 minutes, the 45-minute mark, and every 45 minutes from then
    on.  While the refreshes succeed the token in the store is not expired
    at any instant from [now] on, so in particular before the 60-minute
    expiry: up to the 45-minute mark it is the token issued at login, and
    from the 45-minute mark it is the token of the refresh, good for
    another 60 minutes. *)
Theorem refresh_scheduled_before_expiry (e : Env) now email password popup w w' :
  tokenLifetime e = 60 * 60 * 1000 →
  (∀ t, refreshSucceeds e t = true) →
  timersTracked w = true →
  login e now email password w = (Ok tt, w')
  ∨ loginWithGoogle e now popup w = (Ok tt, w') →
  (∃ id, timers w' = [(id, mkTimer (45 * 60 * 1000)
                             (now + (tokenLifetime e - 15 * 60 * 1000)))])
  ∧ ∀ t, now ≤ t →
      tokenValidAt t (advanceTo e t w')
      ∧ nextDue t (timers (advanceTo e t w')) = None
      ∧ (t < now + 45 * 60 * 1000 →
         ∃ tok, token (store (advanceTo e t w')) = Some tok
                ∧ expiresAt tok = now + tokenLifetime e)
      ∧ (now + 45 * 60 * 1000 ≤ t < now + 90 * 60 * 1000 →
         ∃ tok, token (store (advanceTo e t w')) = Some tok
                ∧ expiresAt tok = now + 45 * 60 * 1000 + tokenLifetime e).
Proof.
  intros HL Hr Htr Hlogin.
  assert (∃ w1 firebaseUser,
            w' = snd (setupTokenRefresh now w1)
            ∧ timersTracked w1 = true
            ∧ currentUser (backend w1) = Some firebaseUser
            ∧ token (store w1) = Some (getIdToken e now firebaseUser))
    as (w1 & fu & -> & Htr1 & Hu1 & Htok1).
  { destruct Hlogin as [Hl|Hl].
    - rewrite login_unfold in Hl.
      destruct (loginWithEmail e now email password (backend w)) as [[r|err] b'] eqn:E;
        [|discriminate].
      apply loginWithEmail_success_inv in E
        as (fu & d & _ & _ & _ & _ & _ & _ & Htok & Hcur & _).
      eexists _, fu. split; [by rewrite Hl|]. split; [done|]. split; [done|].
      simpl. by rewrite Htok.
    - rewrite loginWithGoogle_unfold in Hl.
      destruct (AuthService.loginWithGoogle e now popup (backend w))
        as [[r|err] b'] eqn:E; [|discriminate].
      apply loginWithGoogle_success_inv in E as (fu & _ & Htok & Hcur).
      eexists _, fu. split; [by rewrite Hl|]. split; [done|]. split; [done|].
      simpl. by rewrite Htok. }
  destruct (scheduled_refresh_keeps_token_fresh e now w1 fu) as [Htm Hall];
    [unfold REFRESH_INTERVAL_MS; lia|done..|].
  split.
  - eexists. rewrite Htm, HL. reflexivity.
  - intros t Ht. destruct (Hall t Ht) as (Hv & Hn & Hbefore & Hafter).
    split; [done|]. split; [done|]. unfold REFRESH_INTERVAL_MS in *. split.
    + intros Hlt. eexists. split; [by apply Hbefore|]. done.
    + intros Hin. eexists. split; [apply Hafter; lia|]. done.
Qed.

Lemma refresh_scheduled_before_expiry_witness :
  (∃ id, timers (snd (login env 0 allowedAdminEmail "s3cret" page0))
         = [(id, mkTimer (45 * 60 * 1000) (0 + (tokenLifetime env - 15 * 60 * 1000)))])
  ∧ ∀ t, 0 ≤ t →
      tokenValidAt t (advanceTo env t (snd (login env 0 allowedAdminEmail "s3cret" page0)))
      ∧ nextDue t (timers (advanceTo env t
                             (snd (login env 0 allowedAdminEmail "s3cret" page0)))) = None
      ∧ (t < 0 + 45 * 60 * 1000 →
         ∃ tok, token (store (advanceTo env t
                                (snd (login env 0 allowedAdminEmail "s3cret" page0))))
                = Some tok
                ∧ expiresAt tok = 0 + tokenLifetime env)
      ∧ (0 + 45 * 60 * 1000 ≤ t < 0 + 90 * 60 * 1000 →
         ∃ tok, token (store (advanceTo env t
                                (snd (login env 0 allowedAdminEmail "s3cret" page0))))
                = Some tok
                ∧ expiresAt tok = 0 + 45 * 60 * 1000 + tokenLifetime env).
Proof.
  apply (refresh_scheduled_before_expiry env 0 allowedAdminEmail "s3cret"
           (Throw (Error "")) page0
           (snd (login env 0 allowedAdminEmail "s3cret" page0))).
  - reflexivity.
  - intros t. reflexivity.
  - reflexivity.
  - left. vm_compute. reflexivity.
Defined.

(** What logout does cancel: the firings to come.  On every page state
    reached from a fresh page by logins, logouts, authentication state
    changes, edits of the directory and the passage of time, at most one
    timer is alive.  Logout cancels the refresh timer as its first,
    synchronous step; when it returns no timer is left and the store holds
    no user, no token and [isAuthenticated = false], and however far the
    clock runs afterwards no timer fires.  The same holds when the listener
    reports that the session is gone, as it does for an account found
    deactivated.  A request that a firing before the logout has left in
    flight is another matter: see below. *)
Theorem logout_cancels_refresh_timer (e : Env) evs b attempts s now idToken :
  let w := run e evs (freshPage b attempts s) in
  (length (timers w) ≤ 1)%nat
  ∧ timers (snd (clearTokenRefresh w)) = []
  ∧ sessionDiscarded e (snd (logout e now w))
  ∧ sessionDiscarded e (snd (authCallback e now idToken None w))
  ∧ (∀ u d,
       hasInitialized w = true →
       currentUser (backend w) = Some u →
       emailNotAllowed e u = None →
       admins (backend w) !! Firebase.uid u = Some d →
       isActive d = false →
       sessionDiscarded e (snd (authStateChanged e now idToken w))).
Proof.
  intros w.
  assert (timersTracked w = true) as H by (by apply run_keeps_tracked).
  split; [by apply tracked_at_most_one|].
  split; [by rewrite clearTokenRefresh_tracked|].
  split; [by apply logout_discards|].
  split; [by apply authCallback_none_discards|].
  intros u d. by apply deactivation_discards.
Qed.

Lemma logout_cancels_refresh_timer_witness :
  (length (timers (run envSame visit page0)) ≤ 1)%nat
  ∧ sessionDiscarded envSame (snd (logout envSame (minutes 55) (run envSame visit page0)))
  ∧ sessionDiscarded envSame
      (snd (authStateChanged envSame (minutes 55)
              (mkToken adminUid (minutes 105)) (run envSame visit page0))).
Proof.
  destruct (logout_cancels_refresh_timer envSame visit backend0 [] emptyStore
              (minutes 55) (mkToken adminUid (minutes 105)))
    as (Hone & _ & Hout & _ & Hgone).
  split; [exact Hone|]. split; [exact Hout|].
  apply (Hgone adminAccount deactivatedRecord).
  - vm_compute. reflexivity.
  - vm_compute. reflexivity.
  - vm_compute. reflexivity.
  - vm_compute. reflexivity.
  - vm_compute. reflexivity.
Defined.

(** C9 (evaluation at the failing input).  The admin logs in at minute 0.
    At minute 45 the refresh timer fires: the callback finds the admin
    signed in and asks the provider for a fresh token.  While the request
    is in flight the admin logs out: the timer is cancelled, the provider's
    session is ended and the store is cleared.  Then the request settles,
    and the callback stores the token it brought: after the logout the
    store holds a token again, issued at minute 45 and good for an hour,
    although no timer is left, nobody is signed in and the store names no
    user. *)
Theorem refresh_in_flight_at_logout_reissues_token :
  let w0 := MoreScenario.pageLoggedIn in
  let w1 := snd (logout env (minutes 45) w0) in
  let w2 := snd (refreshSettle (forcedRefresh env (minutes 45) adminAccount) w1) in
  nextDue (minutes 45) (timers w0)
  = Some (1%positive, mkTimer REFRESH_INTERVAL_MS (minutes 45))
  ∧ refreshRequest w0 = (Ok (Some adminAccount), w0)
  ∧ sessionDiscarded env w1
  ∧ currentUser (backend w1) = None
  ∧ token (store w2) = Some (mkToken adminUid (minutes 105))
  ∧ user (store w2) = None
  ∧ isAuthenticated (store w2) = false
  ∧ timers w2 = []
  ∧ ¬ sessionDiscarded env w2.
Proof.
  intros w0 w1 w2.
  split; [vm_compute; reflexivity|]. split; [vm_compute; reflexivity|].
  split; [apply logout_discards; vm_compute; reflexivity|].
  split; [vm_compute; reflexivity|]. split; [vm_compute; reflexivity|].
  split; [vm_compute; reflexivity|]. split; [vm_compute; reflexivity|].
  split; [vm_compute; reflexivity|].
  intros (_ & _ & _ & Htoken & _). vm_compute in Htoken. discriminate.
Qed.

End SessionClaims.

(** ** The rate limiter, continued *)

Section RateLimiterMore.
Import RateLimit Notions MoreNotions.

Lemma filter_filter_same {A} (f : A → bool) l :
  List.filter f (List.filter f l) = List.filter f l.
Proof.
  induction l as [|a l IH]; simpl; [done|].
  destruct (f a) eqn:E; simpl; [|done]. by rewrite E, IH.
Qed.

Lemma filter_comm {A} (f g : A → bool) l :
  List.filter f (List.filter g l) = List.filter g (List.filter f l).
Proof.
  induction l as [|a l IH]; simpl; [done|].
  destruct (f a) eqn:Ef, (g a) eqn:Eg; simpl; rewrite ?Ef, ?Eg, ?IH; done.
Qed.

Lemma checkRateLimit_allowed stored now key :
  allowed (checkRateLimit stored now key) = (matchingCount stored now key <? 5)%nat.
Proof.
  unfold checkRateLimit, matchingCount, RATE_LIMIT_MAX_ATTEMPTS.
  set (n := length _).
  destruct (5 <=? Z.of_nat n) eqn:E; simpl; symmetry.
  - apply Nat.ltb_ge. apply Z.leb_le in E. lia.
  - apply Nat.ltb_lt. apply Z.leb_gt in E. lia.
Qed.

Lemma matching_record stored now key :
  forEmail key (recent now (recordLoginAttempt stored now key))
  = forEmail key (recent now stored) ++ [mkLoginAttempt now key].
Proof.
  unfold recordLoginAttempt, recent, forEmail.
  rewrite filter_filter_same, !List.filter_app. simpl.
  replace (now - now) with 0 by lia. simpl.
  by rewrite String.eqb_refl.
Qed.

Lemma matching_record_other stored now key other :
  key ≠ other →
  forEmail other (recent now (recordLoginAttempt stored now key))
  = forEmail other (recent now stored).
Proof.
  intros Hne. unfold recordLoginAttempt, recent, forEmail.
  rewrite filter_filter_same, !List.filter_app. simpl.
  replace (now - now) with 0 by lia. simpl.
  destruct (String.eqb key other) eqn:E; [by apply String.eqb_eq in E|].
  by rewrite app_nil_r.
Qed.

Lemma matching_clear_other stored now key other :
  key ≠ other →
  forEmail other (recent now (clearLoginAttempts stored key))
  = forEmail other (recent now stored).
Proof.
  intros Hne. unfold clearLoginAttempts, recent, forEmail.
  induction stored as [|a l IH]; simpl; [done|].
  destruct (String.eqb (email a) key) eqn:Ek; simpl.
  - apply String.eqb_eq in Ek.
    destruct (now - timestamp a <? RATE_LIMIT_WINDOW_MS); simpl; [|done].
    destruct (String.eqb (email a) other) eqn:Eo; [|done].
    apply String.eqb_eq in Eo. congruence.
  - destruct (now - timestamp a <? RATE_LIMIT_WINDOW_MS); simpl; [|done].
    destruct (String.eqb (email a) other); simpl; by rewrite IH.
Qed.

Lemma matching_clear_same stored now key :
  forEmail key (recent now (clearLoginAttempts stored key)) = [].
Proof.
  unfold clearLoginAttempts, recent, forEmail.
  induction stored as [|a l IH]; simpl; [done|].
  destruct (String.eqb (email a) key) eqn:Ek; simpl; [done|].
  destruct (now - timestamp a <? RATE_LIMIT_WINDOW_MS); simpl; [|done].
  by rewrite Ek.
Qed.

Lemma checkRateLimit_matching stored stored' now key :
  forEmail key (recent now stored') = forEmail key (recent now stored) →
  checkRateLimit stored' now key = checkRateLimit stored now key.
Proof. unfold checkRateLimit. by intros ->. Qed.

(** X1.  A recorded attempt counts at once.  After [recordLoginAttempt] the
    number of attempts of the key inside the window is one more than
    before, and the check that follows at the same instant allows the key
    exactly when fewer than four attempts were inside the window before:
    the fifth recorded attempt is the one that blocks. *)
Theorem fifth_recorded_attempt_blocks stored now key :
  matchingCount (recordLoginAttempt stored now key) now key
  = S (matchingCount stored now key)
  ∧ allowed (checkRateLimit (recordLoginAttempt stored now key) now key)
    = (matchingCount stored now key <? 4)%nat.
Proof.
  assert (matchingCount (recordLoginAttempt stored now key) now key
          = S (matchingCount stored now key)) as H.
  { unfold matchingCount. rewrite matching_record, length_app. simpl. lia. }
  split; [done|]. rewrite checkRateLimit_allowed, H.
  destruct (matchingCount stored now key <? 4)%nat eqn:E.
  - apply Nat.ltb_lt in E. apply Nat.ltb_lt. lia.
  - apply Nat.ltb_ge in E. apply Nat.ltb_ge. lia.
Qed.

(** X2.  The limiter counts per key.  Recording an attempt for one key, or
    clearing the attempts of one key, leaves the answer of the check for
    every other key as it was. *)
Theorem attempts_are_counted_per_key stored now key other :
  key ≠ other →
  checkRateLimit (recordLoginAttempt stored now key) now other
  = checkRateLimit stored now other
  ∧ checkRateLimit (clearLoginAttempts stored key) now other
    = checkRateLimit stored now other.
Proof.
  intros Hne. split; apply checkRateLimit_matching.
  - by apply matching_record_other.
  - by apply matching_clear_other.
Qed.

Theorem cleared_key_is_allowed stored now key :
  checkRateLimit (clearLoginAttempts stored key) now key = mkRateLimitResult true None.
Proof.
  unfold checkRateLimit. by rewrite matching_clear_same.
Qed.

End RateLimiterMore.

(** ** How long a block lasts *)

Section BlockDuration.
Import RateLimit Notions MoreNotions.

Lemma recent_recent now t l :
  now ≤ t → recent t (recent now l) = recent t l.
Proof.
  intros Hle. unfold recent.
  induction l as [|a l IH]; simpl; [done|].
  destruct (now - timestamp a <? RATE_LIMIT_WINDOW_MS) eqn:E1; simpl.
  - by rewrite IH.
  - destruct (t - timestamp a <? RATE_LIMIT_WINDOW_MS) eqn:E2; [|done].
    apply Z.ltb_lt in E2. apply Z.ltb_ge in E1. lia.
Qed.

Lemma matching_later now t key l :
  now ≤ t →
  forEmail key (recent t l) = recent t (forEmail key (recent now l)).
Proof.
  intros Hle. rewrite <- (recent_recent now t l Hle).
  unfold forEmail, recent. apply filter_comm.
Qed.

Lemma recent_all t l :
  forallb (λ a, t - timestamp a <? RATE_LIMIT_WINDOW_MS) l = true → recent t l = l.
Proof.
  unfold recent. induction l as [|a l IH]; simpl; [done|].
  intros [-> H]%andb_true_iff. by rewrite IH.
Qed.

Lemma filter_length_le {A} (f : A → bool) l :
  (length (List.filter f l) ≤ length l)%nat.
Proof.
  induction l as [|a l IH]; simpl; [done|]. destruct (f a); simpl; lia.
Qed.

(** X3.  The block lasts exactly the time announced.  When the stored list
    is in the order of its timestamps and holds five attempts of the key
    inside the window, and the check refuses with waiting time [r], then
    at every later instant [t] the check allows the key exactly when
    [now + r <= t]. *)
Theorem block_lasts_the_announced_time stored now key r :
  chronological stored = true →
  matchingCount stored now key = 5%nat →
  remainingTime (checkRateLimit stored now key) = Some r →
  ∀ t, now ≤ t →
       allowed (checkRateLimit stored t key) = (now + r <=? t).
Proof.
  intros Hc Hn Hr t Hle.
  rewrite checkRateLimit_allowed. unfold matchingCount in *.
  rewrite (matching_later now t key stored Hle).
  assert (chronological (forEmail key (recent now stored)) = true) as Hcm.
  { unfold forEmail, recent. by do 2 apply chronological_filter. }
  revert Hr. unfold checkRateLimit. fold (recent now stored).
  destruct (forEmail key (recent now stored)) as [|a0 rest] eqn:Hm; [discriminate|].
  simpl in Hn. unfold RATE_LIMIT_MAX_ATTEMPTS. simpl length.
  destruct (5 <=? Z.of_nat (S (length rest))) eqn:E5; [|apply Z.leb_gt in E5; lia].
  simpl. intros [= <-].
  simpl in Hcm. apply andb_true_iff in Hcm as [Hall _].
  destruct (now + (RATE_LIMIT_WINDOW_MS - (now - timestamp a0)) <=? t) eqn:Et.
  - apply Z.leb_le in Et. apply Nat.ltb_lt.
    unfold recent at 1. simpl.
    destruct (t - timestamp a0 <? RATE_LIMIT_WINDOW_MS) eqn:E0.
    { apply Z.ltb_lt in E0. lia. }
    unfold recent. eapply Nat.le_lt_trans; [apply filter_length_le|]. lia.
  - apply Z.leb_gt in Et. apply Nat.ltb_ge.
    assert (recent t rest = rest) as Hrest.
    { apply recent_all. rewrite forallb_forall in *. intros x Hx.
      specialize (Hall x Hx). apply Z.leb_le in Hall. apply Z.ltb_lt. lia. }
    unfold recent in *. simpl.
    destruct (t - timestamp a0 <? RATE_LIMIT_WINDOW_MS) eqn:E0.
    + simpl. rewrite Hrest. lia.
    + apply Z.ltb_ge in E0. lia.
Qed.

End BlockDuration.

(** ** The form and the limiter together *)

Section EndToEnd.
Import AuthService AuthStore RateLimit Notions MoreNotions.
Variable env : Env.

Lemma setupTokenRefresh_login_attempts now w :
  login_attempts (snd (setupTokenRefresh now w)) = login_attempts w.
Proof.
  unfold setupTokenRefresh, bind, gets, clearInterval, setInterval, modify, ret.
  by destruct (tokenRefreshInterval w).
Qed.

Lemma login_login_attempts now email0 password w :
  login_attempts (snd (login env now email0 password w)) = login_attempts w.
Proof.
  rewrite login_unfold.
  destruct (loginWithEmail env now email0 password (backend w)) as [[r|e] b']; [|done].
  by rewrite setupTokenRefresh_login_attempts.
Qed.

Lemma handleLogin_failed_inv now email0 password w msg w' :
  LoginPage.handleLogin env now email0 password w = (LoginPage.LoginFailed msg, w') →
  LoginPage.isBlank email0 = false
  ∧ login_attempts w' = recordLoginAttempt (login_attempts w) now email0.
Proof.
  unfold LoginPage.handleLogin.
  destruct (LoginPage.isBlank email0); [discriminate|].
  destruct (String.eqb password ""); [discriminate|].
  destruct (negb _); [discriminate|].
  match goal with |- context [login env now email0 password ?w1] =>
    pose proof (login_login_attempts now email0 password w1) as Hl;
    destruct (login env now email0 password w1) as [[[]|e] w2] end; [discriminate|].
  simpl in Hl. intros [= _ <-]. split; [done|]. by rewrite Hl.
Qed.

Lemma attemptsSince_recent T t email0 l :
  t < T + RATE_LIMIT_WINDOW_MS →
  attemptsSince T email0 (recent t l) = attemptsSince T email0 l.
Proof.
  intros Ht. unfold attemptsSince, recent.
  induction l as [|a l IH]; simpl; [done|].
  destruct (t - timestamp a <? RATE_LIMIT_WINDOW_MS) eqn:E; simpl.
  - destruct (_ && _); simpl; by rewrite IH.
  - destruct (String.eqb (email a) email0); simpl; [|done].
    destruct (T <=? timestamp a) eqn:E2; simpl; [|done].
    apply Z.leb_le in E2. apply Z.ltb_ge in E. lia.
Qed.

Lemma attemptsSince_record T t email0 l :
  inWindowFrom T t = true →
  attemptsSince T email0 (recordLoginAttempt l t email0) = S (attemptsSince T email0 l).
Proof.
  unfold inWindowFrom. intros [H1 H2]%andb_true_iff.
  apply Z.leb_le in H1. apply Z.ltb_lt in H2.
  unfold recordLoginAttempt. rewrite attemptsSince_recent by done.
  unfold attemptsSince. rewrite List.filter_app, length_app. simpl.
  rewrite String.eqb_refl. simpl.
  destruct (T <=? t) eqn:E; [simpl; lia|]. apply Z.leb_gt in E. lia.
Qed.

Lemma attemptsSince_matching T t email0 l :
  t < T + RATE_LIMIT_WINDOW_MS →
  (attemptsSince T email0 l ≤ matchingCount l t email0)%nat.
Proof.
  intros Ht. unfold attemptsSince, matchingCount, forEmail, recent.
  induction l as [|a l IH]; simpl; [done|].
  destruct (String.eqb (email a) email0) eqn:Ee; simpl.
  - destruct (T <=? timestamp a) eqn:E; simpl.
    + apply Z.leb_le in E.
      destruct (t - timestamp a <? RATE_LIMIT_WINDOW_MS) eqn:E2.
      * simpl. rewrite Ee. simpl. lia.
      * apply Z.ltb_ge in E2. lia.
    + destruct (t - timestamp a <? RATE_LIMIT_WINDOW_MS); simpl;
        rewrite ?Ee; simpl; lia.
  - destruct (t - timestamp a <? RATE_LIMIT_WINDOW_MS); simpl; rewrite ?Ee; simpl; lia.
Qed.

Lemma replayLogins_counts T email0 password times w :
  forallb (inWindowFrom T) times = true →
  forallb isLoginFailed (fst (replayLogins env email0 password times w)) = true →
  attemptsSince T email0 (login_attempts (snd (replayLogins env email0 password times w)))
  = (attemptsSince T email0 (login_attempts w) + length times)%nat
  ∧ (times ≠ [] → LoginPage.isBlank email0 = false).
Proof.
  revert w. induction times as [|t times IH]; intros w Hin Hfail; simpl.
  - split; [lia|done].
  - simpl in Hin. apply andb_true_iff in Hin as [Ht Hin].
    simpl in Hfail.
    destruct (LoginPage.handleLogin env t email0 password w) as [o w1] eqn:E1.
    destruct (replayLogins env email0 password times w1) as [os w2] eqn:E2.
    simpl in *. apply andb_true_iff in Hfail as [Ho Hos].
    destruct o; try discriminate.
    apply handleLogin_failed_inv in E1 as [Hb Hl].
    specialize (IH w1 Hin). rewrite E2 in IH. simpl in IH.
    destruct (IH Hos) as [IH1 _].
    split; [|done].
    rewrite IH1, Hl, attemptsSince_record by done. lia.
Qed.

(** X6.  Five failed logins block the sixth.  After five submissions of the
    form for one address that all end in a failed login, at instants inside
    one 15-minute window, a further submission inside that window is
    refused by the limiter with a positive waiting time, whatever password
    it carries, and changes nothing on the page: the gateway is not
    called. *)
Theorem five_failed_logins_block_the_sixth T email0 password password' times now w :
  length times = 5%nat →
  forallb (inWindowFrom T) times = true →
  inWindowFrom T now = true →
  forallb isLoginFailed (fst (replayLogins env email0 password times w)) = true →
  password' ≠ "" →
  let w5 := snd (replayLogins env email0 password times w) in
  ∃ r, LoginPage.handleLogin env now email0 password' w5 = (LoginPage.RateLimited r, w5)
       ∧ 0 < r.
Proof.
  intros Hlen Hin Hnow Hfail Hpw w5.
  destruct (replayLogins_counts T email0 password times w Hin Hfail) as [Hcnt Hb].
  fold w5 in Hcnt.
  assert (LoginPage.isBlank email0 = false) as Hblank.
  { apply Hb. intros ->. discriminate. }
  unfold inWindowFrom in Hnow. apply andb_true_iff in Hnow as [_ Hlt].
  apply Z.ltb_lt in Hlt.
  pose proof (attemptsSince_matching T now email0 (login_attempts w5) Hlt) as Hle.
  assert (allowed (checkRateLimit (login_attempts w5) now email0) = false) as Hrl.
  { rewrite checkRateLimit_allowed. apply Nat.ltb_ge. lia. }
  destruct (checkRateLimit_remaining_positive (login_attempts w5) now email0 Hrl)
    as (r & Hr & Hpos).
  exists r. split; [|done].
  rewrite handleLogin_rate_limited by done. by rewrite Hr.
Qed.

End EndToEnd.

(** ** The gateway: locks, deactivation and the failure counter *)

Section ServiceMore.
Import AuthService Notions MoreNotions.
Variable env : Env.

Lemma ceilDiv_bounds x d :
  0 < d → d * (ceilDiv x d - 1) < x ≤ d * ceilDiv x d.
Proof.
  intros Hd. unfold ceilDiv.
  pose proof (Z.mul_div_le (- x) d Hd).
  pose proof (Z.mul_succ_div_gt (- x) d Hd).
  lia.
Qed.

(** X10.  A locked account is refused even with the right password.  While
    [now < lockedUntil] the password login of an active, locked admin
    throws "Account is locked. Try again in N minutes", where N is the
    time left rounded up to whole minutes (at least 1); the user is signed
    out again and the directory is unchanged. *)
Theorem locked_account_is_refused now email password b firebaseUser d lockedUntil0 :
  verifyCredentials env email password = Ok firebaseUser →
  email = allowedAdminEmail →
  admins b !! Firebase.uid firebaseUser = Some d →
  isActive d = true →
  isLocked d = true →
  lockedUntil d = Some lockedUntil0 →
  now < lockedUntil0 →
  let minutes := ceilDiv (lockedUntil0 - now) (1000 * 60) in
  ∃ b', loginWithEmail env now email password b
        = (Throw (Error ("Account is locked. Try again in " +:+ pretty minutes
                         +:+ " minutes")), b')
        ∧ currentUser b' = None
        ∧ admins b' = admins b
        ∧ 1 ≤ minutes
        ∧ 60000 * (minutes - 1) < lockedUntil0 - now ≤ 60000 * minutes.
Proof.
  intros Hv -> Hd Ha Hl Hlu Hlt minutes.
  unfold loginWithEmail, tryCatch, loginWithEmail_try, bind,
    signInWithEmailAndPassword.
  rewrite Hv. simpl.
  unfold getAdminData, bind, getDoc, gets; simpl. rewrite Hd. simpl.
  rewrite Ha, Hl, Hlu. simpl.
  pose proof Hlt as Hlt'. apply Z.ltb_lt in Hlt'. rewrite Hlt'. simpl.
  eexists. split; [reflexivity|]. simpl.
  pose proof (ceilDiv_bounds (lockedUntil0 - now) (1000 * 60) ltac:(lia)) as Hb.
  fold minutes in Hb. repeat split; try done; lia.
Qed.

(** X11.  The lock ends at [lockedUntil].  From that instant on (the
    instant itself included) the password login of a locked, active admin
    with the right password succeeds and stores the record unlocked, with
    no expiry, the counter at 0 and the time of the login. *)
Theorem lock_ends_at_lockedUntil now email password b firebaseUser d lockedUntil0 :
  verifyCredentials env email password = Ok firebaseUser →
  email = allowedAdminEmail →
  admins b !! Firebase.uid firebaseUser = Some d →
  isActive d = true →
  isLocked d = true →
  lockedUntil d = Some lockedUntil0 →
  lockedUntil0 ≤ now →
  ∃ r b' d',
    loginWithEmail env now email password b = (Ok r, b')
    ∧ admins b' !! Firebase.uid firebaseUser = Some d'
    ∧ isLocked d' = false
    ∧ lockedUntil d' = None
    ∧ loginAttempts d' = 0
    ∧ lastLogin d' = Some now
    ∧ currentUser b' = Some firebaseUser.
Proof.
  intros Hv -> Hd Ha Hl Hlu Hle.
  unfold loginWithEmail, tryCatch, loginWithEmail_try, bind,
    signInWithEmailAndPassword.
  rewrite Hv. simpl.
  unfold getAdminData, bind, getDoc, gets; simpl. rewrite Hd. simpl.
  rewrite Ha, Hl, Hlu. simpl.
  destruct (now <? lockedUntil0) eqn:E; [apply Z.ltb_lt in E; lia|].
  unfold updateDoc. simpl. rewrite Hd. simpl. rewrite lookup_insert_eq. simpl.
  eexists _, _, _. split; [reflexivity|]. simpl.
  rewrite lookup_insert_eq. done.
Qed.

(** X12.  A deactivated admin cannot log in on either path.  With a record
    whose [isActive] is false, the password login with the right password
    and the Google login of an allowed account both throw "Admin account is
    inactive", sign the user out and leave the directory unchanged. *)
Theorem inactive_account_is_refused now b d :
  isActive d = false →
  (∀ email password firebaseUser,
     verifyCredentials env email password = Ok firebaseUser →
     email = allowedAdminEmail →
     admins b !! Firebase.uid firebaseUser = Some d →
     ∃ b', loginWithEmail env now email password b
           = (Throw (Error "Admin account is inactive"), b')
           ∧ currentUser b' = None
           ∧ admins b' = admins b)
  ∧ (∀ firebaseUser,
       emailNotAllowed env firebaseUser = None →
       admins b !! Firebase.uid firebaseUser = Some d →
       ∃ b', loginWithGoogle env now (Ok firebaseUser) b
             = (Throw (Error "Admin account is inactive"), b')
             ∧ currentUser b' = None
             ∧ admins b' = admins b).
Proof.
  intros Hi. split.
  - intros email password u Hv -> Hd.
    unfold loginWithEmail, tryCatch, loginWithEmail_try, bind,
      signInWithEmailAndPassword.
    rewrite Hv. simpl.
    unfold getAdminData, bind, getDoc, gets; simpl. rewrite Hd. simpl.
    rewrite Hi. simpl. by eexists.
  - intros u Hallow Hd.
    unfold loginWithGoogle, tryCatch, loginWithGoogle_try, bind, signInWithPopup.
    rewrite Hallow. unfold ret at 1.
    unfold getAdminData, bind, getDoc, gets; simpl. rewrite Hd. simpl.
    rewrite Hi. simpl. by eexists.
Qed.

(** X13.  What a wrong password does to the document kept under the email
    as id.  The counter goes up by one; below five the lock fields stay as
    they are, from five on the record is locked until 15 minutes after the
    attempt; no other document changes, and nobody is signed in or out. *)
Theorem failed_attempt_counts_on_email_document now email password b error d :
  verifyCredentials env email password = Throw error →
  isCredentialError error = true →
  admins b !! email = Some d →
  let b' := snd (loginWithEmail env now email password b) in
  ∃ d', admins b' !! email = Some d'
        ∧ loginAttempts d' = loginAttempts d + 1
        ∧ (loginAttempts d + 1 < 5 →
           isLocked d' = isLocked d ∧ lockedUntil d' = lockedUntil d)
        ∧ (5 ≤ loginAttempts d + 1 →
           isLocked d' = true ∧ lockedUntil d' = Some (now + 15 * 60 * 1000))
        ∧ (∀ id, id ≠ email → admins b' !! id = admins b !! id)
        ∧ currentUser b' = currentUser b.
Proof.
  intros Hv Hc Hd b'. subst b'.
  rewrite (loginWithEmail_wrong_password env now email password b error Hv Hc).
  simpl. unfold failedAttempt. rewrite Hd.
  destruct (5 <=? loginAttempts d + 1) eqn:E; simpl.
  - apply Z.leb_le in E. eexists. rewrite lookup_insert_eq.
    split; [done|]. simpl. split; [done|]. split; [lia|]. split; [done|].
    split; [|done]. intros id Hne. by rewrite lookup_insert_ne.
  - apply Z.leb_gt in E. eexists. rewrite lookup_insert_eq.
    split; [done|]. simpl. split; [done|]. split; [done|]. split; [lia|].
    split; [|done]. intros id Hne. by rewrite lookup_insert_ne.
Qed.

End ServiceMore.

(** ** The gateway: how much it writes to the ledger *)

Section AuditCounts.
Import AuthService Notions MoreNotions.
Variable env : Env.

(** X15.  How many audit entries a password login writes, for an email
    address without a slash.  One when the provider rejects the
    credentials, one when the login succeeds, and two when the provider
    accepts the credentials but the gateway refuses the login (the refusal
    is logged where it is found and once more by the handler of the
    exception). *)
Theorem password_login_appends_one_or_two_entries now email password b :
  includes "/" email = false →
  let '(result, b') := loginWithEmail env now email password b in
  match verifyCredentials env email password, result with
  | Throw _, _ => appended b b' = 1
  | Ok _, Ok _ => appended b b' = 1
  | Ok _, Throw _ => appended b b' = 2
  end.
Proof.
  intros Hplain.
  pose proof (auditDocId_plain now email Hplain) as Href.
  destruct (verifyCredentials env email password) as [u|error] eqn:Hv.
  - unfold loginWithEmail, tryCatch, loginWithEmail_try, bind,
      signInWithEmailAndPassword, appended.
    rewrite Hv.
    destruct (String.eqb email allowedAdminEmail) eqn:He; simpl.
    2:{ rewrite !Href, !length_app. simpl. lia. }
    unfold getAdminData, bind, getDoc, gets; simpl.
    destruct (admins b !! Firebase.uid u) as [d|] eqn:Hd; simpl.
    2:{ rewrite !Href, !length_app. simpl. lia. }
    destruct (isActive d) eqn:Ha; simpl.
    2:{ rewrite !Href, !length_app. simpl. lia. }
    destruct (isLocked d) eqn:Hl; simpl.
    + destruct (lockedUntil d) as [lu|] eqn:Hlu; simpl.
      * destruct (now <? lu) eqn:Hlt; simpl.
        { rewrite !Href, !length_app. simpl. lia. }
        unfold updateDoc; simpl. rewrite Hd; simpl.
        rewrite lookup_insert_eq; simpl.
        rewrite !Href, !length_app. simpl. lia.
      * unfold updateDoc, ret; simpl. rewrite Hd; simpl.
        rewrite !Href, !length_app. simpl. lia.
    + unfold updateDoc, ret; simpl. rewrite Hd; simpl.
      rewrite !Href, !length_app. simpl. lia.
  - destruct (isCredentialError error) eqn:Hc.
    + rewrite (loginWithEmail_wrong_password env now email password b error Hv Hc).
      destruct (failedAttempt_trail env now email b Hplain) as (entry & Ht & _).
      unfold appended. rewrite Ht, length_app. simpl. lia.
    + unfold loginWithEmail, tryCatch, loginWithEmail_try, bind at 1,
        signInWithEmailAndPassword, appended.
      rewrite Hv. unfold loginWithEmail_catch. rewrite Hc. simpl.
      rewrite !Href, length_app. simpl. lia.
Qed.

(** X17.  A popup the user closed leaves no trace: the Google login throws
    "Sign-in cancelled. Please try again." and the backend is unchanged.
    Every other failure of the popup is thrown on as it is, after one
    entry with status [failed] for the email "unknown" carrying the
    error's message; directory and session are unchanged. *)
Theorem popup_failure_is_logged_unless_cancelled now error b :
  (isPopupCancelled error = true →
   loginWithGoogle env now (Throw error) b
   = (Throw (Error "Sign-in cancelled. Please try again."), b))
  ∧ (isPopupCancelled error = false →
     ∃ b', loginWithGoogle env now (Throw error) b = (Throw error, b')
           ∧ auditTrail b'
             = auditTrail b
               ++ [AuditLog.mkEntry "google_oauth" "unknown" "unknown" (userAgent env)
                     AuditLog.failed (message error) now]
           ∧ admins b' = admins b
           ∧ currentUser b' = currentUser b).
Proof.
  split; intros Hc;
    unfold loginWithGoogle, tryCatch, loginWithGoogle_try, bind at 1,
      signInWithPopup, loginWithGoogle_catch; rewrite Hc; [done|].
  eexists. split; [reflexivity|]. simpl.
  by rewrite (auditDocId_plain now "unknown" eq_refl).
Qed.

(** X16.  How many audit entries a Google login writes.  None when the
    popup was closed by the user, one for any other failure of the popup,
    one when the login succeeds, and two when the popup succeeds but the
    gateway refuses the login.  The entry written for the account's own
    address counts as one for every address without a slash; it is not
    written when the address yields no document id. *)
Theorem federated_login_appends_up_to_two_entries now popup b :
  (let '(result, b') := loginWithGoogle env now popup b in
   match popup, result with
   | Throw error, _ => appended b b' = if isPopupCancelled error then 0 else 1
   | Ok u, Ok _ => appended b b' = writes now (orElse (Firebase.email u) "unknown")
   | Ok u, Throw _ =>
       appended b b' = writes now (orElse (Firebase.email u) "unknown") + 1
   end)
  ∧ (∀ email, includes "/" email = false → writes now email = 1).
Proof.
  split; [|intros email He; unfold writes; by rewrite auditDocId_plain].
  pose proof (auditDocId_plain now "unknown" eq_refl) as Hunknown.
  destruct popup as [u|error].
  - unfold loginWithGoogle, tryCatch, loginWithGoogle_try, bind, signInWithPopup,
      appended, writes.
    destruct (emailNotAllowed env u) as [allowed|] eqn:Hallow; simpl.
    { rewrite !Hunknown.
      destruct (docId (auditDocId now (orElse (Firebase.email u) "unknown")));
        rewrite ?length_app; simpl; lia. }
    unfold getAdminData, bind, getDoc, gets; simpl.
    destruct (admins b !! Firebase.uid u) as [d|] eqn:Hd; simpl.
    + destruct (isActive d) eqn:Ha; simpl.
      * unfold updateDoc. simpl. rewrite Hd. simpl.
        destruct (docId (auditDocId now (orElse (Firebase.email u) "unknown")));
          rewrite ?length_app; simpl; lia.
      * rewrite !Hunknown.
        destruct (docId (auditDocId now (orElse (Firebase.email u) "unknown")));
          rewrite ?length_app; simpl; lia.
    + destruct (docId (auditDocId now (orElse (Firebase.email u) "unknown")));
        rewrite ?length_app; simpl; lia.
  - unfold loginWithGoogle, tryCatch, loginWithGoogle_try, bind at 1,
      signInWithPopup, loginWithGoogle_catch, appended.
    destruct (isPopupCancelled error); simpl.
    + lia.
    + rewrite !Hunknown, length_app. simpl. lia.
Qed.

(** X18.  The gateway only ever adds to the audit collection.  Every
    document id present before a password login, a Google login, a logout
    or a notification of the auth listener is present after it, whatever
    the outcome. *)
Theorem gateway_never_removes_audit_documents now b :
  (∀ email password,
     dom (auditLogs b) ⊆ dom (auditLogs (snd (loginWithEmail env now email password b))))
  ∧ (∀ popup,
       dom (auditLogs b) ⊆ dom (auditLogs (snd (loginWithGoogle env now popup b))))
  ∧ dom (auditLogs b) ⊆ dom (auditLogs (snd (logout env now b)))
  ∧ (∀ firebaseUser,
       dom (auditLogs b)
       ⊆ dom (auditLogs (snd (onAuthChange env now firebaseUser b)))).
Proof.
  split; [|split; [|split]]; intros.
  - apply loginWithEmail_keepsEntries.
  - apply loginWithGoogle_keepsEntries.
  - apply logout_keepsEntries.
  - apply onAuthChange_keepsEntries.
Qed.

End AuditCounts.

(** ** Admin management and the redirect variant *)

Section AdminMore.
Import AuthService AuthAdmin Notions MoreNotions.
Variable env : Env.

Lemma loginWithEmail_inactive now email password b u d :
  verifyCredentials env email password = Ok u →
  email = allowedAdminEmail →
  admins b !! Firebase.uid u = Some d →
  isActive d = false →
  fst (loginWithEmail env now email password b)
  = Throw (Error "Admin account is inactive").
Proof.
  intros Hv -> Hd Hi.
  unfold loginWithEmail, tryCatch, loginWithEmail_try, bind,
    signInWithEmailAndPassword.
  rewrite Hv. simpl.
  unfold getAdminData, bind, getDoc, gets; simpl. rewrite Hd. simpl.
  by rewrite Hi.
Qed.

Lemma loginWithGoogle_inactive now b u d :
  emailNotAllowed env u = None →
  admins b !! Firebase.uid u = Some d →
  isActive d = false →
  fst (loginWithGoogle env now (Ok u) b) = Throw (Error "Admin account is inactive").
Proof.
  intros Hallow Hd Hi.
  unfold loginWithGoogle, tryCatch, loginWithGoogle_try, bind, signInWithPopup.
  rewrite Hallow. unfold ret at 1.
  unfold getAdminData, bind, getDoc, gets; simpl. rewrite Hd. simpl.
  by rewrite Hi.
Qed.

(** X20.  [deleteAdmin] deletes nothing.  For an id without a document it
    throws and changes nothing.  Otherwise the document stays, with
    [isActive] false and a new [updatedAt]; no other document changes and
    no audit entry is written; and from then on the password login and the
    Google login of that account are refused as inactive. *)
Theorem deleteAdmin_deactivates now uid0 b :
  (admins b !! uid0 = None → ∃ e, deleteAdmin now uid0 b = (Throw e, b))
  ∧ (∀ d, admins b !! uid0 = Some d →
       ∃ b', deleteAdmin now uid0 b = (Ok tt, b')
             ∧ admins b' !! uid0 = Some (set_updatedAt now (set_isActive false d))
             ∧ (∀ id, id ≠ uid0 → admins b' !! id = admins b !! id)
             ∧ auditTrail b' = auditTrail b
             ∧ (∀ later email password u,
                  verifyCredentials env email password = Ok u →
                  Firebase.uid u = uid0 →
                  email = allowedAdminEmail →
                  fst (loginWithEmail env later email password b')
                  = Throw (Error "Admin account is inactive"))
             ∧ (∀ later u,
                  Firebase.uid u = uid0 →
                  emailNotAllowed env u = None →
                  fst (loginWithGoogle env later (Ok u) b')
                  = Throw (Error "Admin account is inactive"))).
Proof.
  unfold deleteAdmin, updateAdmin, updateDoc. split.
  { intros ->. by eexists. }
  intros d Hd. rewrite Hd.
  eexists. split; [reflexivity|]. simpl.
  assert (applyPatch
            (mkAdminPatch None None None (Some false) None None None None None None)
            now d = set_updatedAt now (set_isActive false d)) as Hp by reflexivity.
  rewrite Hp, lookup_insert_eq. split; [done|]. split; [|split; [done|split]].
  - intros id Hne. by rewrite lookup_insert_ne.
  - intros later email password u Hv Hu He.
    apply (loginWithEmail_inactive later email password _ u
             (set_updatedAt now (set_isActive false d))); try done.
    simpl. rewrite Hu. apply lookup_insert_eq.
  - intros later u Hu Hallow.
    apply (loginWithGoogle_inactive later _ u
             (set_updatedAt now (set_isActive false d))); try done.
    simpl. rewrite Hu. apply lookup_insert_eq.
Qed.

(** X22.  [createAdmin].  When the provider refuses to create the account
    nothing changes.  Otherwise the new document is stored under the new
    uid with the role given (editor when none is given), active, unlocked
    and with the counter at 0; no other document changes, no audit entry is
    written, and afterwards nobody is signed in: the account that was
    signed in by its creation is signed out, and the caller with it. *)
Theorem createAdmin_signs_everybody_out now name0 role0 b :
  (∀ e, createAdmin now (Throw e) name0 role0 b = (Throw e, b))
  ∧ (∀ u, ∃ r b',
       createAdmin now (Ok u) name0 role0 b = (Ok r, b')
       ∧ currentUser b' = None
       ∧ admins b' !! Firebase.uid u = Some (data r)
       ∧ uid r = Firebase.uid u
       ∧ role (data r) = default editor role0
       ∧ isActive (data r) = true
       ∧ loginAttempts (data r) = 0
       ∧ isLocked (data r) = false
       ∧ lockedUntil (data r) = None
       ∧ (∀ id, id ≠ Firebase.uid u → admins b' !! id = admins b !! id)
       ∧ auditTrail b' = auditTrail b).
Proof.
  unfold createAdmin, bind, createUserWithEmailAndPassword. split; [done|].
  intros u. simpl. eexists _, _. split; [reflexivity|]. simpl.
  rewrite lookup_insert_eq. repeat split; try done.
  intros id Hne. by rewrite lookup_insert_ne.
Qed.

Lemma loginWithEmail_unlocked now email password b u d :
  verifyCredentials env email password = Ok u →
  email = allowedAdminEmail →
  admins b !! Firebase.uid u = Some d →
  isActive d = true →
  isLocked d = false →
  ∃ r b', loginWithEmail env now email password b = (Ok r, b')
          ∧ currentUser b' = Some u
          ∧ uid (user r) = Firebase.uid u
          ∧ admins b' !! Firebase.uid u
            = Some (set_loginAttempts 0 (set_lastLogin (Some now) (set_updatedAt now d))).
Proof.
  intros Hv -> Hd Ha Hl.
  unfold loginWithEmail, tryCatch, loginWithEmail_try, bind,
    signInWithEmailAndPassword.
  rewrite Hv. simpl.
  unfold getAdminData, bind, getDoc, gets; simpl. rewrite Hd. simpl.
  rewrite Ha, Hl. simpl.
  unfold updateDoc, ret. simpl. rewrite Hd. simpl.
  eexists _, _. split; [reflexivity|]. simpl.
  by rewrite lookup_insert_eq.
Qed.

(** X21.  Lifting a lock by hand.  After [updateAdmin] has set
    [loginAttempts] to 0, [isLocked] to false and [lockedUntil] to null on
    an active admin's document, the password login with the right password
    succeeds at any instant, also before the old expiry. *)
Theorem operator_unlock_admits_login now later email password b u d :
  verifyCredentials env email password = Ok u →
  email = allowedAdminEmail →
  admins b !! Firebase.uid u = Some d →
  isActive d = true →
  ∃ b1 r b2,
    updateAdmin now (Firebase.uid u)
      (mkAdminPatch None None None None None (Some 0) (Some false) (Some None)
         None None) b = (Ok tt, b1)
    ∧ loginWithEmail env later email password b1 = (Ok r, b2)
    ∧ currentUser b2 = Some u.
Proof.
  intros Hv He Hd Ha.
  unfold updateAdmin, updateDoc. rewrite Hd.
  eexists _. 
  edestruct (loginWithEmail_unlocked later email password
               (set_admins
                  (<[Firebase.uid u :=
                       applyPatch
                         (mkAdminPatch None None None None None (Some 0) (Some false)
                            (Some None) None None) now d]> (admins b)) b) u)
    as (r & b2 & Hlogin & Hcur & _); [done|done|apply lookup_insert_eq|done|done|].
  eexists r, b2. split; [reflexivity|]. by split.
Qed.

Lemma loginWithEmail_rejected_signs_out now email password b u e b' :
  verifyCredentials env email password = Ok u →
  loginWithEmail env now email password b = (Throw e, b') →
  currentUser b' = None.
Proof.
  intros Hv.
  unfold loginWithEmail, tryCatch, loginWithEmail_try, bind,
    signInWithEmailAndPassword.
  rewrite Hv.
  destruct (String.eqb email allowedAdminEmail) eqn:He; simpl.
  2:{ by intros [= _ <-]. }
  unfold getAdminData, bind, getDoc, gets; simpl.
  destruct (admins b !! Firebase.uid u) as [d|] eqn:Hd; simpl.
  2:{ by intros [= _ <-]. }
  destruct (isActive d) eqn:Ha; simpl.
  2:{ by intros [= _ <-]. }
  destruct (isLocked d) eqn:Hl; simpl.
  - destruct (lockedUntil d) as [lu|] eqn:Hlu; simpl.
    + destruct (now <? lu) eqn:Hlt; simpl.
      { by intros [= _ <-]. }
      unfold updateDoc; simpl. rewrite Hd; simpl.
      rewrite lookup_insert_eq; simpl. discriminate.
    + unfold updateDoc, ret; simpl. rewrite Hd; simpl. discriminate.
  - unfold updateDoc, ret; simpl. rewrite Hd; simpl. discriminate.
Qed.

(** X23.  [getCurrentUser] follows the session.  After a successful
    password login it returns the admin under the uid of the login, with
    the stored record (counter 0); after a login the gateway refused
    although the credentials were right, and after a logout, it returns
    null. *)
Theorem getCurrentUser_follows_the_session now email password b :
  (∀ r b', loginWithEmail env now email password b = (Ok r, b') →
           ∃ d', getCurrentUser b' = (Ok (Some (mkAdminUser (uid (user r)) d')), b')
                 ∧ admins b' !! uid (user r) = Some d'
                 ∧ loginAttempts d' = 0)
  ∧ (∀ u e b', verifyCredentials env email password = Ok u →
               loginWithEmail env now email password b = (Throw e, b') →
               getCurrentUser b' = (Ok None, b'))
  ∧ getCurrentUser (snd (logout env now b)) = (Ok None, snd (logout env now b)).
Proof.
  split; [|split].
  - intros r b' Hok.
    apply loginWithEmail_success_inv in Hok
      as (fu & d & _ & _ & _ & _ & _ & Huid & _ & Hcur & _ & _ & d' & Hadm & Hcnt & _).
    exists d'. unfold getCurrentUser, bind, gets, getAdminData, getDoc. simpl.
    rewrite Hcur, Huid. unfold bind, gets. rewrite Hadm, lookup_insert_eq. done.
  - intros u e b' Hv Hthrow.
    unfold getCurrentUser, bind, gets.
    by rewrite (loginWithEmail_rejected_signs_out now email password b u e b' Hv Hthrow).
  - destruct (service_logout_returns env now b) as (b' & Heq & Hcur).
    rewrite Heq. simpl. unfold getCurrentUser, bind, gets. by rewrite Hcur.
Qed.

(** X24.  The redirect variant of the Google login.  Without a pending
    redirect it returns null, changes nothing on the backend and removes
    the pending flag if one was set.  When reading the result fails it
    logs one failed entry, throws the error on and leaves the flag.  With
    a user it ends as the popup login does with the same user: the same
    directory, the same session, as many audit entries, the same response
    or the same error. *)
Theorem redirect_result_follows_the_popup_login now pending b :
  (∃ pending',
     checkGoogleRedirectResult env now (Ok None) (mkRedirectState b pending)
     = (Ok None, mkRedirectState b pending')
     ∧ (pending' = None ∨ pending' = Some ""))
  ∧ (∀ error,
       ∃ b', checkGoogleRedirectResult env now (Throw error) (mkRedirectState b pending)
             = (Throw error, mkRedirectState b' pending)
             ∧ appended b b' = 1
             ∧ admins b' = admins b)
  ∧ (∀ u,
       let '(r1, s1) :=
         checkGoogleRedirectResult env now (Ok (Some u)) (mkRedirectState b pending) in
       let '(r2, b2) := loginWithGoogle env now (Ok u) b in
       admins (backendOf s1) = admins b2
       ∧ currentUser (backendOf s1) = currentUser b2
       ∧ appended b (backendOf s1) = appended b b2
       ∧ match r1, r2 with
         | Ok (Some x), Ok y => x = y
         | Throw e1, Throw e2 => e1 = e2
         | _, _ => False
         end).
Proof.
  split; [|split].
  - unfold checkGoogleRedirectResult, tryCatch, checkGoogleRedirectResult_try,
      bind, gets, getRedirectResult, clearPending. simpl.
    destruct pending as [v|]; simpl.
    + destruct (String.eqb v "") eqn:E; simpl.
      * apply String.eqb_eq in E as ->. eexists. split; [done|]. by right.
      * eexists. split; [done|]. by left.
    + eexists. split; [done|]. by left.
  - intros error.
    unfold checkGoogleRedirectResult, tryCatch, checkGoogleRedirectResult_try,
      bind, gets, getRedirectResult, onBackend, appended. simpl.
    eexists. split; [reflexivity|]. simpl.
    rewrite (auditDocId_plain now "unknown" eq_refl), length_app. simpl.
    split; [lia|done].
  - intros u.
    pose proof (auditDocId_plain now "unknown" eq_refl) as Hunknown.
    unfold checkGoogleRedirectResult, checkGoogleRedirectResult_try,
      loginWithGoogle, loginWithGoogle_try, loginWithGoogle_catch, getAdminData,
      tryCatch, bind, gets, getDoc, getRedirectResult, signInWithPopup, clearPending,
      onBackend, appended.
    simpl.
    destruct pending as [v|]; simpl;
      [destruct (String.eqb v ""); simpl|].
    all: destruct (emailNotAllowed env u) as [allowed|] eqn:Hallow; simpl.
    all: try (rewrite ?Hunknown;
              destruct (docId (auditDocId now (orElse (Firebase.email u) "unknown")));
              rewrite ?length_app; simpl; repeat split; first [done|lia]).
    all: unfold getAdminData, bind, getDoc, gets; simpl.
    all: destruct (admins b !! Firebase.uid u) as [d|] eqn:Hd; simpl.
    all: try (destruct (isActive d) eqn:Ha; simpl).
    all: try (unfold updateDoc; simpl; rewrite Hd; simpl).
    all: rewrite ?Hunknown;
      destruct (docId (auditDocId now (orElse (Firebase.email u) "unknown")));
      rewrite ?length_app; simpl; repeat split; first [done|lia].
Qed.

End AdminMore.

(** ** The store, continued *)

Section StoreMore.
Import AuthService AuthStore Notions MoreNotions.
Variable env : Env.

(** X25.  A failed login in the store.  The store throws an [Error] with the
    gateway's message and only sets [loading] to false: user, token and
    [isAuthenticated] stay as they were and the refresh timer is not
    touched.  When the credentials were right and the gateway refused, the
    provider's session is gone all the same. *)
Theorem failed_login_keeps_the_session now email password w e b' :
  loginWithEmail env now email password (backend w) = (Throw e, b') →
  ∃ w', login env now email password w
        = (Throw (Error (orElse (Some (message e)) "Login failed")), w')
        ∧ backend w' = b'
        ∧ user (store w') = user (store w)
        ∧ token (store w') = token (store w)
        ∧ isAuthenticated (store w') = isAuthenticated (store w)
        ∧ loading (store w') = false
        ∧ timers w' = timers w
        ∧ tokenRefreshInterval w' = tokenRefreshInterval w
        ∧ (∀ u, verifyCredentials env email password = Ok u →
                currentUser (backend w') = None).
Proof.
  intros Hthrow. rewrite login_unfold, Hthrow.
  eexists. split; [reflexivity|]. simpl. repeat split; try done.
  intros u Hv.
  by apply (loginWithEmail_rejected_signs_out env now email password (backend w) u e b').
Qed.

(** X26.  The store's login does not look at the role.  Whenever it
    succeeds, the store is authenticated and [validateToken] holds, with
    the role of the stored record; [isAdmin] then holds for admins and
    editors and fails for viewers. *)
Theorem login_admits_every_role now email password w w' :
  login env now email password w = (Ok tt, w') →
  ∃ u d, verifyCredentials env email password = Ok u
         ∧ admins (backend w) !! Firebase.uid u = Some d
         ∧ isAuthenticated (store w') = true
         ∧ validateToken w' = true
         ∧ (role <$> user (store w')) = Some (AuthService.role d)
         ∧ isAdmin w' = match AuthService.role d with
                        | viewer => false
                        | _ => true
                        end.
Proof.
  rewrite login_unfold.
  destruct (loginWithEmail env now email password (backend w)) as [[r|e] b'] eqn:E;
    [|discriminate].
  pose proof E as E'.
  apply loginWithEmail_success_inv in E'
    as (u & d & Hv & _ & Hd & _ & _ & _ & _ & _ & _ & _ & _).
  assert (AuthService.role (data (AuthService.user r)) = AuthService.role d) as Hrole.
  { revert E. unfold loginWithEmail, tryCatch.
    destruct (loginWithEmail_try env now email password (backend w)) as [[r0|e0] b0] eqn:Ht.
    2:{ intros H. destruct (loginWithEmail_catch_throws env now email e0 b0) as (? & ? & Hc).
        rewrite Hc in H. discriminate. }
    intros [= -> ->]. revert Ht.
    unfold loginWithEmail_try, bind, signInWithEmailAndPassword. rewrite Hv.
    destruct (String.eqb email allowedAdminEmail); simpl; [|discriminate].
    unfold getAdminData, bind, getDoc, gets; simpl. rewrite Hd. simpl.
    destruct (isActive d); simpl; [|discriminate].
    destruct (isLocked d); simpl.
    - destruct (lockedUntil d) as [lu|]; simpl.
      + destruct (now <? lu); simpl; [discriminate|].
        unfold updateDoc; simpl. rewrite Hd; simpl. rewrite lookup_insert_eq; simpl.
        by intros [= <- _].
      + unfold updateDoc, ret; simpl. rewrite Hd; simpl. by intros [= <- _].
    - unfold updateDoc, ret; simpl. rewrite Hd; simpl. by intros [= <- _]. }
  match goal with |- context [setupTokenRefresh now ?w1] =>
    assert (store (snd (setupTokenRefresh now w1)) = store w1) as Hs
      by (unfold setupTokenRefresh, bind, gets, clearInterval, setInterval, modify, ret;
          by destruct (tokenRefreshInterval w1));
    destruct (setupTokenRefresh now w1) as [[[]|e0] w1'] eqn:Es end; [|discriminate].
  intros [= <-]. simpl in Hs.
  exists u, d. split; [done|]. split; [done|].
  unfold validateToken, isAdmin. rewrite Hs. simpl. rewrite Hrole.
  repeat split; try done.
Qed.

Lemma runTimers_store_when_refresh_fails fuel t w :
  (∀ t', refreshSucceeds env t' = false) →
  store (runTimers env fuel t w) = store w.
Proof.
  intros Hf. revert w. induction fuel as [|fuel IH]; intros w; simpl; [done|].
  destruct (nextDue t (timers w)) as [x|]; [|done].
  rewrite IH, fire_unfold. simpl.
  destruct (currentUser (backend w)); [|done]. by rewrite Hf.
Qed.

(** X27.  A refresh that fails is only logged.  When no forced refresh
    succeeds, the store after a login keeps its contents however far the
    clock runs: the token is the one of the login, with its expiry, and
    [validateToken] keeps holding. *)
Theorem failed_refreshes_never_end_the_session now email password w w' :
  (∀ t, refreshSucceeds env t = false) →
  login env now email password w = (Ok tt, w') →
  (∃ tok, token (store w') = Some tok ∧ expiresAt tok = now + tokenLifetime env)
  ∧ ∀ t, store (advanceTo env t w') = store w'
         ∧ validateToken (advanceTo env t w') = true.
Proof.
  intros Hf Hlogin.
  assert (isAuthenticated (store w') = true
          ∧ ∃ tok, token (store w') = Some tok
                   ∧ expiresAt tok = now + tokenLifetime env) as [Hauth Htok].
  { revert Hlogin. rewrite login_unfold.
    destruct (loginWithEmail env now email password (backend w)) as [[r|e] b'] eqn:E;
      [|discriminate].
    apply loginWithEmail_success_inv in E
      as (u & d & _ & _ & _ & _ & _ & _ & Htk & _).
    match goal with |- context [setupTokenRefresh now ?w1] =>
      assert (store (snd (setupTokenRefresh now w1)) = store w1) as Hs
        by (unfold setupTokenRefresh, bind, gets, clearInterval, setInterval, modify, ret;
            by destruct (tokenRefreshInterval w1));
      destruct (setupTokenRefresh now w1) as [[[]|e0] w1'] eqn:Es end; [|discriminate].
    intros [= <-]. simpl in Hs. rewrite Hs. simpl. split; [done|].
    eexists. split; [done|]. by rewrite Htk. }
  split; [done|]. intros t.
  unfold advanceTo, validateToken.
  by rewrite runTimers_store_when_refresh_fails.
Qed.

(** X8.  All Google attempts are counted under the one key
    ["google_oauth"].  A failed Google login records one attempt under
    that key and leaves the limiter's answer for every other key
    unchanged. *)
Theorem google_attempts_share_one_key now popup w msg w' :
  LoginPage.handleGoogleLogin env now popup w = (LoginPage.LoginFailed msg, w') →
  login_attempts w'
  = RateLimit.recordLoginAttempt (login_attempts w) now LoginPage.googleIdentifier
  ∧ ∀ key, key ≠ LoginPage.googleIdentifier →
           RateLimit.checkRateLimit (login_attempts w') now key
           = RateLimit.checkRateLimit (login_attempts w) now key.
Proof.
  unfold LoginPage.handleGoogleLogin.
  destruct (negb _); [discriminate|].
  match goal with |- context [loginWithGoogle env now popup ?w1] =>
    assert (login_attempts (snd (loginWithGoogle env now popup w1)) = login_attempts w1)
      as Hl;
    [ rewrite loginWithGoogle_unfold;
      destruct (AuthService.loginWithGoogle env now popup (backend w1)) as [[r|e] b'];
      [by rewrite setupTokenRefresh_login_attempts|done]
    | destruct (loginWithGoogle env now popup w1) as [[[]|e] w2] ] end;
    [discriminate|].
  simpl in Hl. intros [= _ <-]. rewrite Hl. split; [done|].
  intros key Hne. apply checkRateLimit_matching.
  apply matching_record_other. congruence.
Qed.

End StoreMore.

(** ** The countdown *)

Section CountdownFacts.
Import Countdown.

Lemma tick_idle : tick (mkState false 0 "") = mkState false 0 "".
Proof. reflexivity. Qed.

Lemma ticks_idle n : ticks n (mkState false 0 "") = mkState false 0 "".
Proof. induction n as [|n IH]; simpl; [done|]. by rewrite tick_idle. Qed.

(** X9.  The countdown of the page.  Started with a positive waiting time,
    after [n] firings of the one-second interval the page is still blocked
    with [1000 * n] milliseconds less to wait and the message for the
    minutes left, and it is unblocked with an empty message once
    [1000 * n] reaches the waiting time. *)
Theorem countdown_runs_out remainingTime n :
  0 < remainingTime →
  ticks n (block remainingTime)
  = if remainingTime <=? 1000 * Z.of_nat n
    then mkState false 0 ""
    else block (remainingTime - 1000 * Z.of_nat n).
Proof.
  revert remainingTime. induction n as [|n IH]; intros r Hr.
  - change (1000 * Z.of_nat 0) with 0. simpl.
    destruct (r <=? 0) eqn:E; [apply Z.leb_le in E; lia|].
    by rewrite Z.sub_0_r.
  - change (ticks (S n) (block r)) with (ticks n (tick (block r))).
    unfold tick, block at 1. simpl.
    destruct (r <=? 0) eqn:E0; [apply Z.leb_le in E0; lia|].
    destruct (r - 1000 <=? 0) eqn:E1.
    + rewrite ticks_idle. apply Z.leb_le in E1.
      destruct (r <=? 1000 * Z.of_nat (S n)) eqn:E2; [done|].
      apply Z.leb_gt in E2. lia.
    + apply Z.leb_gt in E1. fold (block (r - 1000)). rewrite IH by lia.
      destruct (r - 1000 <=? 1000 * Z.of_nat n) eqn:E2.
      * apply Z.leb_le in E2.
        destruct (r <=? 1000 * Z.of_nat (S n)) eqn:E3; [done|].
        apply Z.leb_gt in E3. lia.
      * apply Z.leb_gt in E2.
        destruct (r <=? 1000 * Z.of_nat (S n)) eqn:E3.
        { apply Z.leb_le in E3. lia. }
        f_equal. lia.
Qed.

End CountdownFacts.

(** ** The page, continued *)

Section PageMore.
Import AuthService AuthStore RateLimit Notions MoreNotions.
Variable env : Env.

(** X7.  A successful login clears the address.  When the form's submission
    ends in a successful login, the limiter had allowed it, the stored
    attempts are those before with the attempts of this address removed
    (the one just recorded among them), the address is allowed at every
    later instant, and the answers for all other keys are as before. *)
Theorem successful_login_clears_the_attempts now email0 password w w' :
  LoginPage.handleLogin env now email0 password w = (LoginPage.LoginSuccessful, w') →
  allowed (checkRateLimit (login_attempts w) now email0) = true
  ∧ login_attempts w'
    = clearLoginAttempts (recordLoginAttempt (login_attempts w) now email0) email0
  ∧ (∀ t, checkRateLimit (login_attempts w') t email0 = mkRateLimitResult true None)
  ∧ (∀ key, key ≠ email0 →
            checkRateLimit (login_attempts w') now key
            = checkRateLimit (login_attempts w) now key).
Proof.
  unfold LoginPage.handleLogin.
  destruct (LoginPage.isBlank email0); [discriminate|].
  destruct (String.eqb password ""); [discriminate|].
  destruct (allowed (checkRateLimit (login_attempts w) now email0)) eqn:Ha;
    [|discriminate].
  simpl negb. cbv iota.
  match goal with |- context [login env now email0 password ?w1] =>
    pose proof (login_login_attempts env now email0 password w1) as Hl;
    destruct (login env now email0 password w1) as [[[]|e] w2] end; [|discriminate].
  simpl in Hl. intros [= <-]. simpl. rewrite Hl.
  split; [done|]. split; [done|]. split.
  - intros t. apply cleared_key_is_allowed.
  - intros key Hne.
    etrans; [apply checkRateLimit_matching, matching_clear_other; congruence|].
    apply checkRateLimit_matching, matching_record_other. congruence.
Qed.

(** X4.  What the page stores stays ordered and pruned.  Recording at an
    instant no earlier than the stored timestamps keeps the list in the
    order of its timestamps, leaves only entries younger than the window
    and none later than the instant, and puts the new attempt last;
    clearing a key afterwards keeps the order. *)
Theorem recorded_attempts_stay_ordered_and_recent stored now key other :
  chronological stored = true →
  forallb (λ a, timestamp a <=? now) stored = true →
  let stored' := recordLoginAttempt stored now key in
  chronological stored' = true
  ∧ forallb (λ a, timestamp a <=? now) stored' = true
  ∧ forallb (λ a, now - timestamp a <? RATE_LIMIT_WINDOW_MS) stored' = true
  ∧ last stored' = Some (mkLoginAttempt now key)
  ∧ chronological (clearLoginAttempts stored' other) = true.
Proof.
  intros Hc Hle stored'.
  assert (chronological stored' = true) as Hc'
    by by apply recordLoginAttempt_chronological.
  split; [done|]. split; [|split; [|split]].
  - subst stored'. unfold recordLoginAttempt, recent.
    apply forallb_forall. intros a [Hin _]%filter_In.
    apply in_app_or in Hin as [Hin|[<-|[]]].
    + rewrite forallb_forall in Hle. by apply Hle.
    + simpl. apply Z.leb_le. lia.
  - subst stored'. unfold recordLoginAttempt, recent.
    apply forallb_forall. by intros a [_ Hin]%filter_In.
  - subst stored'. unfold recordLoginAttempt, recent.
    rewrite List.filter_app. simpl.
    replace (now - now) with 0 by lia. simpl. by rewrite last_snoc.
  - by apply clearLoginAttempts_chronological.
Qed.

(** X5.  The answer of the check is well formed.  For every stored list a
    waiting time is given exactly when the check refuses, and it is
    positive; when no stored attempt lies in the future it is at most the
    length of the window. *)
Theorem refusal_announces_a_wait_within_the_window stored now key :
  match remainingTime (checkRateLimit stored now key) with
  | Some r => allowed (checkRateLimit stored now key) = false ∧ 0 < r
  | None => allowed (checkRateLimit stored now key) = true
  end
  ∧ (forallb (λ a, timestamp a <=? now) stored = true →
     ∀ r, remainingTime (checkRateLimit stored now key) = Some r →
          r ≤ RATE_LIMIT_WINDOW_MS).
Proof.
  split.
  - destruct (allowed (checkRateLimit stored now key)) eqn:Ha.
    + revert Ha. unfold checkRateLimit.
      by destruct (RATE_LIMIT_MAX_ATTEMPTS <=? _).
    + destruct (checkRateLimit_remaining_positive stored now key Ha)
        as (r & Hr & Hpos).
      by rewrite Hr.
  - intros Hle r. unfold checkRateLimit.
    destruct (RATE_LIMIT_MAX_ATTEMPTS <=? _); [|discriminate]. simpl.
    destruct (forEmail key (recent now stored)) as [|a l] eqn:Hm; [discriminate|].
    simpl. intros [= <-].
    assert (In a stored) as Hin.
    { assert (In a (forEmail key (recent now stored))) as H by (rewrite Hm; by left).
      unfold forEmail, recent in H.
      apply filter_In in H as [H _]. by apply filter_In in H as [H _]. }
    rewrite forallb_forall in Hle. specialize (Hle a Hin).
    apply Z.leb_le in Hle. lia.
Qed.

(** X28.  Refresh timers never pile up.  From a freshly loaded page, after
    any sequence of logins, Google logins, logouts, listener notifications,
    edits of the directory and passage of time, at most one interval timer
    is alive, and none exactly when the module's variable is null. *)
Theorem refresh_timers_never_pile_up b attempts s evs :
  let w := run env evs (freshPage b attempts s) in
  (length (timers w) ≤ 1)%nat
  ∧ (tokenRefreshInterval w = None ↔ timers w = []).
Proof.
  intros w.
  assert (timersTracked w = true) as H by by apply run_keeps_tracked.
  split; [by apply tracked_at_most_one|].
  revert H. unfold timersTracked.
  destruct (tokenRefreshInterval w); destruct (timers w) as [|[? ?] [|? ?]];
    simpl; try discriminate; done.
Qed.

(** X29.  A persisted session the provider no longer has.  On a freshly
    loaded page [validateToken] answers what the persisted store says;
    once the listener is subscribed and reports that nobody is signed in,
    the session is discarded and [validateToken] fails, the backend being
    untouched.  A second [initializeAuth] changes nothing. *)
Theorem stale_persisted_session_is_dropped b attempts s now idToken :
  currentUser b = None →
  let w0 := freshPage b attempts s in
  let w1 := run env [InitializeAuth; AuthStateChanged now idToken] w0 in
  validateToken w0 = isAuthenticated s
  ∧ sessionDiscarded env w1
  ∧ validateToken w1 = false
  ∧ backend w1 = b
  ∧ snd (initializeAuth (snd (initializeAuth w0))) = snd (initializeAuth w0).
Proof.
  intros Hu w0 w1. split; [done|].
  assert (w1 = set_store (mkStore None None false false)
                 (set_hasInitialized true w0)) as ->.
  { subst w1. unfold run. simpl. unfold authStateChanged. simpl.
    unfold bind, gets, liftB. simpl. rewrite Hu. simpl.
    unfold clearTokenRefresh, bind, gets, set, modify, ret. simpl.
    unfold set_store, set_hasInitialized, set_backend. simpl. by destruct b. }
  repeat split; done.
Qed.

End PageMore.

(** ** Instances *)

Section Instances.
Import AuthService AuthStore RateLimit Notions MoreNotions Scenario PageScenario
  MoreScenario.

Lemma attempts_are_counted_per_key_witness :
  checkRateLimit (recordLoginAttempt fiveAttempts (minutes 5) allowedAdminEmail)
    (minutes 5) LoginPage.googleIdentifier
  = checkRateLimit fiveAttempts (minutes 5) LoginPage.googleIdentifier
  ∧ checkRateLimit (clearLoginAttempts fiveAttempts allowedAdminEmail)
      (minutes 5) LoginPage.googleIdentifier
    = checkRateLimit fiveAttempts (minutes 5) LoginPage.googleIdentifier.
Proof.
  apply (attempts_are_counted_per_key fiveAttempts (minutes 5) allowedAdminEmail
           LoginPage.googleIdentifier).
  discriminate.
Defined.

Lemma block_lasts_the_announced_time_witness :
  allowed (checkRateLimit fiveAttempts (minutes 14) allowedAdminEmail)
  = (minutes 5 + minutes 10 <=? minutes 14)
  ∧ allowed (checkRateLimit fiveAttempts (minutes 15) allowedAdminEmail)
    = (minutes 5 + minutes 10 <=? minutes 15).
Proof.
  split.
  - apply (block_lasts_the_announced_time fiveAttempts (minutes 5) allowedAdminEmail
             (minutes 10)).
    + reflexivity.
    + reflexivity.
    + reflexivity.
    + unfold minutes. lia.
  - apply (block_lasts_the_announced_time fiveAttempts (minutes 5) allowedAdminEmail
             (minutes 10)).
    + reflexivity.
    + reflexivity.
    + reflexivity.
    + unfold minutes. lia.
Defined.

Lemma countdown_runs_out_witness :
  Countdown.ticks 2 (Countdown.block 2500) = Countdown.block 500
  ∧ Countdown.ticks 3 (Countdown.block 2500) = Countdown.mkState false 0 "".
Proof.
  split.
  - apply (countdown_runs_out 2500 2). lia.
  - apply (countdown_runs_out 2500 3). lia.
Defined.

Lemma recorded_attempts_stay_ordered_and_recent_witness :
  chronological (recordLoginAttempt fiveAttempts (minutes 16) allowedAdminEmail) = true
  ∧ forallb (λ a, timestamp a <=? minutes 16)
      (recordLoginAttempt fiveAttempts (minutes 16) allowedAdminEmail) = true
  ∧ forallb (λ a, minutes 16 - timestamp a <? RATE_LIMIT_WINDOW_MS)
      (recordLoginAttempt fiveAttempts (minutes 16) allowedAdminEmail) = true
  ∧ last (recordLoginAttempt fiveAttempts (minutes 16) allowedAdminEmail)
    = Some (mkLoginAttempt (minutes 16) allowedAdminEmail)
  ∧ chronological
      (clearLoginAttempts
         (recordLoginAttempt fiveAttempts (minutes 16) allowedAdminEmail)
         LoginPage.googleIdentifier) = true.
Proof.
  apply (recorded_attempts_stay_ordered_and_recent fiveAttempts (minutes 16)
           allowedAdminEmail LoginPage.googleIdentifier).
  - reflexivity.
  - reflexivity.
Defined.

Lemma refusal_announces_a_wait_within_the_window_witness :
  (allowed (checkRateLimit fiveAttempts (minutes 5) allowedAdminEmail) = false
   ∧ 0 < minutes 10)
  ∧ minutes 10 ≤ RATE_LIMIT_WINDOW_MS.
Proof.
  destruct (refusal_announces_a_wait_within_the_window fiveAttempts (minutes 5)
              allowedAdminEmail) as [Hgiven Hbound].
  split; [exact Hgiven|].
  apply (Hbound eq_refl (minutes 10)). reflexivity.
Defined.

Lemma five_failed_logins_block_the_sixth_witness :
  ∃ r, LoginPage.handleLogin env (minutes 5) allowedAdminEmail "s3cret"
         (snd (replayLogins env allowedAdminEmail "guess" fiveInstants page0))
       = (LoginPage.RateLimited r,
          snd (replayLogins env allowedAdminEmail "guess" fiveInstants page0))
       ∧ 0 < r.
Proof.
  apply (five_failed_logins_block_the_sixth env (minutes 0) allowedAdminEmail "guess"
           "s3cret" fiveInstants (minutes 5) page0).
  - reflexivity.
  - reflexivity.
  - reflexivity.
  - vm_compute. reflexivity.
  - discriminate.
Defined.

Lemma successful_login_clears_the_attempts_witness :
  allowed (checkRateLimit (login_attempts page0) (minutes 0) allowedAdminEmail) = true
  ∧ login_attempts
      (snd (LoginPage.handleLogin env (minutes 0) allowedAdminEmail "s3cret" page0))
    = clearLoginAttempts
        (recordLoginAttempt (login_attempts page0) (minutes 0) allowedAdminEmail)
        allowedAdminEmail
  ∧ (∀ t, checkRateLimit
            (login_attempts
               (snd (LoginPage.handleLogin env (minutes 0) allowedAdminEmail "s3cret"
                       page0)))
            t allowedAdminEmail
          = mkRateLimitResult true None)
  ∧ (∀ key, key ≠ allowedAdminEmail →
            checkRateLimit
              (login_attempts
                 (snd (LoginPage.handleLogin env (minutes 0) allowedAdminEmail "s3cret"
                         page0)))
              (minutes 0) key
            = checkRateLimit (login_attempts page0) (minutes 0) key).
Proof.
  apply (successful_login_clears_the_attempts env (minutes 0) allowedAdminEmail "s3cret"
           page0).
  vm_compute. reflexivity.
Defined.

Lemma google_attempts_share_one_key_witness :
  login_attempts
    (snd (LoginPage.handleGoogleLogin env (minutes 0) (Throw popupOffline) page0))
  = recordLoginAttempt (login_attempts page0) (minutes 0) LoginPage.googleIdentifier
  ∧ ∀ key, key ≠ LoginPage.googleIdentifier →
           checkRateLimit
             (login_attempts
                (snd (LoginPage.handleGoogleLogin env (minutes 0) (Throw popupOffline)
                        page0)))
             (minutes 0) key
           = checkRateLimit (login_attempts page0) (minutes 0) key.
Proof.
  apply (google_attempts_share_one_key env (minutes 0) (Throw popupOffline) page0
           (message popupOffline)).
  vm_compute. reflexivity.
Defined.

Lemma locked_account_is_refused_witness :
  ∃ b', loginWithEmail env (minutes 5) allowedAdminEmail "s3cret" backendLocked
        = (Throw (Error "Account is locked. Try again in 10 minutes"), b')
        ∧ currentUser b' = None
        ∧ admins b' = admins backendLocked
        ∧ 1 ≤ 10
        ∧ 60000 * (10 - 1) < minutes 15 - minutes 5 ≤ 60000 * 10.
Proof.
  apply (locked_account_is_refused env (minutes 5) allowedAdminEmail "s3cret"
           backendLocked adminAccount lockedRecord (minutes 15)).
  - reflexivity.
  - reflexivity.
  - vm_compute. reflexivity.
  - reflexivity.
  - reflexivity.
  - reflexivity.
  - unfold minutes. lia.
Defined.

Lemma lock_ends_at_lockedUntil_witness :
  ∃ r b' d',
    loginWithEmail env (minutes 15) allowedAdminEmail "s3cret" backendLocked = (Ok r, b')
    ∧ admins b' !! adminUid = Some d'
    ∧ isLocked d' = false
    ∧ lockedUntil d' = None
    ∧ loginAttempts d' = 0
    ∧ lastLogin d' = Some (minutes 15)
    ∧ currentUser b' = Some adminAccount.
Proof.
  apply (lock_ends_at_lockedUntil env (minutes 15) allowedAdminEmail "s3cret"
           backendLocked adminAccount lockedRecord (minutes 15)).
  - reflexivity.
  - reflexivity.
  - vm_compute. reflexivity.
  - reflexivity.
  - reflexivity.
  - reflexivity.
  - unfold minutes. lia.
Defined.

Lemma inactive_account_is_refused_witness :
  (∃ b', loginWithEmail envSame (minutes 0) allowedAdminEmail "s3cret" backendDeactivated
         = (Throw (Error "Admin account is inactive"), b')
         ∧ currentUser b' = None
         ∧ admins b' = admins backendDeactivated)
  ∧ (∃ b', AuthService.loginWithGoogle envSame (minutes 0) (Ok adminAccount) backendDeactivated
           = (Throw (Error "Admin account is inactive"), b')
           ∧ currentUser b' = None
           ∧ admins b' = admins backendDeactivated).
Proof.
  destruct (inactive_account_is_refused envSame (minutes 0) backendDeactivated
              deactivatedRecord) as [Hpassword Hgoogle].
  - reflexivity.
  - split.
    + apply (Hpassword allowedAdminEmail "s3cret" adminAccount).
      * reflexivity.
      * reflexivity.
      * vm_compute. reflexivity.
    + apply (Hgoogle adminAccount).
      * reflexivity.
      * vm_compute. reflexivity.
Defined.

Lemma failed_attempt_counts_on_email_document_witness :
  ∃ d', admins (snd (loginWithEmail envMailKeyed (minutes 0) allowedAdminEmail "guess"
                       backendMailKeyed)) !! allowedAdminEmail = Some d'
        ∧ loginAttempts d' = loginAttempts adminRecord + 1
        ∧ (loginAttempts adminRecord + 1 < 5 →
           isLocked d' = isLocked adminRecord ∧ lockedUntil d' = lockedUntil adminRecord)
        ∧ (5 ≤ loginAttempts adminRecord + 1 →
           isLocked d' = true ∧ lockedUntil d' = Some (minutes 0 + 15 * 60 * 1000))
        ∧ (∀ id, id ≠ allowedAdminEmail →
                 admins (snd (loginWithEmail envMailKeyed (minutes 0) allowedAdminEmail
                                "guess" backendMailKeyed)) !! id
                 = admins backendMailKeyed !! id)
        ∧ currentUser (snd (loginWithEmail envMailKeyed (minutes 0) allowedAdminEmail
                              "guess" backendMailKeyed))
          = currentUser backendMailKeyed.
Proof.
  apply (failed_attempt_counts_on_email_document envMailKeyed (minutes 0)
           allowedAdminEmail "guess" backendMailKeyed invalidCredential adminRecord).
  - reflexivity.
  - reflexivity.
  - vm_compute. reflexivity.
Defined.


Lemma password_login_appends_one_or_two_entries_witness :
  appended backendLocked
    (snd (loginWithEmail env (minutes 5) allowedAdminEmail "s3cret" backendLocked)) = 2
  ∧ appended backend0
      (snd (loginWithEmail env (minutes 5) allowedAdminEmail "guess" backend0)) = 1.
Proof.
  split.
  - apply (password_login_appends_one_or_two_entries env (minutes 5) allowedAdminEmail
             "s3cret" backendLocked).
    reflexivity.
  - apply (password_login_appends_one_or_two_entries env (minutes 5) allowedAdminEmail
             "guess" backend0).
    reflexivity.
Defined.

Lemma popup_failure_is_logged_unless_cancelled_witness :
  AuthService.loginWithGoogle env (minutes 0) (Throw popupClosed) backend0
  = (Throw (Error "Sign-in cancelled. Please try again."), backend0)
  ∧ ∃ b', AuthService.loginWithGoogle env (minutes 0) (Throw popupOffline) backend0
          = (Throw popupOffline, b')
          ∧ auditTrail b'
            = auditTrail backend0
              ++ [AuditLog.mkEntry "google_oauth" "unknown" "unknown" (userAgent env)
                    AuditLog.failed (message popupOffline) (minutes 0)]
          ∧ admins b' = admins backend0
          ∧ currentUser b' = currentUser backend0.
Proof.
  split.
  - apply (popup_failure_is_logged_unless_cancelled env (minutes 0) popupClosed backend0).
    reflexivity.
  - apply (popup_failure_is_logged_unless_cancelled env (minutes 0) popupOffline backend0).
    reflexivity.
Defined.

Lemma appends_with_distinct_keys_coexist_witness :
  auditLogs
    (snd (createAuditLog env 1001 "login_attempt" "a@x.com" AuditLog.failed
            "Admin account is inactive"
            (snd (createAuditLog env 1000 "login_attempt" "a@x.com" AuditLog.blocked
                    "Account inactive" backend0))))
    !! auditDocId 1000 "a@x.com"
  = Some (AuditLog.mkEntry "login_attempt" "a@x.com" "unknown" (userAgent env)
            AuditLog.blocked "Account inactive" 1000).
Proof.
  apply (appends_with_distinct_keys_coexist env
           1000 "login_attempt" "a@x.com" AuditLog.blocked "Account inactive"
           1001 "login_attempt" "a@x.com" AuditLog.failed "Admin account is inactive"
           backend0).
  - reflexivity.
  - reflexivity.
  - discriminate.
Defined.

Lemma deleteAdmin_deactivates_witness :
  ∃ b', AuthAdmin.deleteAdmin (minutes 1) adminUid backend0 = (Ok tt, b')
        ∧ admins b' !! adminUid
          = Some (set_updatedAt (minutes 1) (set_isActive false adminRecord))
        ∧ fst (loginWithEmail env (minutes 2) allowedAdminEmail "s3cret" b')
          = Throw (Error "Admin account is inactive").
Proof.
  destruct (deleteAdmin_deactivates env (minutes 1) adminUid backend0) as [_ Hsome].
  destruct (Hsome adminRecord) as (b' & Hdel & Hrec & _ & _ & Hpassword & _).
  - vm_compute. reflexivity.
  - exists b'. split; [exact Hdel|]. split; [exact Hrec|].
    apply (Hpassword (minutes 2) allowedAdminEmail "s3cret" adminAccount).
    + reflexivity.
    + reflexivity.
    + reflexivity.
Defined.

Lemma operator_unlock_admits_login_witness :
  ∃ b1 r b2,
    AuthAdmin.updateAdmin (minutes 1) adminUid unlockPatch backendLocked = (Ok tt, b1)
    ∧ loginWithEmail env (minutes 2) allowedAdminEmail "s3cret" b1 = (Ok r, b2)
    ∧ currentUser b2 = Some adminAccount.
Proof.
  apply (operator_unlock_admits_login env (minutes 1) (minutes 2) allowedAdminEmail
           "s3cret" backendLocked adminAccount lockedRecord).
  - reflexivity.
  - reflexivity.
  - vm_compute. reflexivity.
  - reflexivity.
Defined.

Lemma getCurrentUser_follows_the_session_witness :
  (∃ d', AuthAdmin.getCurrentUser
           (snd (loginWithEmail env (minutes 0) allowedAdminEmail "s3cret" backend0))
         = (Ok (Some (mkAdminUser adminUid d')),
            snd (loginWithEmail env (minutes 0) allowedAdminEmail "s3cret" backend0))
         ∧ admins (snd (loginWithEmail env (minutes 0) allowedAdminEmail "s3cret"
                          backend0)) !! adminUid = Some d'
         ∧ loginAttempts d' = 0)
  ∧ AuthAdmin.getCurrentUser
      (snd (loginWithEmail env (minutes 5) allowedAdminEmail "s3cret" backendLocked))
    = (Ok None,
       snd (loginWithEmail env (minutes 5) allowedAdminEmail "s3cret" backendLocked)).
Proof.
  split.
  - destruct (getCurrentUser_follows_the_session env (minutes 0) allowedAdminEmail
                "s3cret" backend0) as [Hok _].
    apply (Hok (mkLoginResponse
                  (mkAdminUser adminUid
                     (set_loginAttempts 0 (set_lastLogin (Some (minutes 0)) adminRecord)))
                  (getIdToken env (minutes 0) adminAccount))).
    vm_compute. reflexivity.
  - destruct (getCurrentUser_follows_the_session env (minutes 5) allowedAdminEmail
                "s3cret" backendLocked) as (_ & Hthrow & _).
    apply (Hthrow adminAccount
             (Error "Account is locked. Try again in 10 minutes")).
    + reflexivity.
    + vm_compute. reflexivity.
Defined.

Lemma failed_login_keeps_the_session_witness :
  ∃ w', login env (minutes 1) allowedAdminEmail "guess" pageLoggedIn
        = (Throw (Error "Invalid email or password"), w')
        ∧ user (store w') = user (store pageLoggedIn)
        ∧ isAuthenticated (store w') = true
        ∧ timers w' = timers pageLoggedIn.
Proof.
  destruct (failed_login_keeps_the_session env (minutes 1) allowedAdminEmail "guess"
              pageLoggedIn (Error "Invalid email or password")
              (snd (loginWithEmail env (minutes 1) allowedAdminEmail "guess"
                      (backend pageLoggedIn))))
    as (w' & Hlogin & _ & Huser & _ & Hauth & _ & Htimers & _).
  - vm_compute. reflexivity.
  - exists w'. split; [exact Hlogin|]. split; [exact Huser|].
    split; [exact Hauth|exact Htimers].
Defined.

Lemma login_admits_every_role_witness :
  ∃ u d, verifyCredentials env allowedAdminEmail "s3cret" = Ok u
         ∧ admins (backend pageViewer) !! Firebase.uid u = Some d
         ∧ isAuthenticated
             (store (snd (login env (minutes 0) allowedAdminEmail "s3cret" pageViewer)))
           = true
         ∧ validateToken (snd (login env (minutes 0) allowedAdminEmail "s3cret" pageViewer))
           = true
         ∧ (role <$> user (store (snd (login env (minutes 0) allowedAdminEmail "s3cret"
                                         pageViewer))))
           = Some (AuthService.role d)
         ∧ isAdmin (snd (login env (minutes 0) allowedAdminEmail "s3cret" pageViewer))
           = match AuthService.role d with
             | viewer => false
             | _ => true
             end.
Proof.
  apply (login_admits_every_role env (minutes 0) allowedAdminEmail "s3cret" pageViewer).
  vm_compute. reflexivity.
Defined.

Lemma failed_refreshes_never_end_the_session_witness :
  (∃ tok, token (store (snd (login envOffline (minutes 0) allowedAdminEmail "s3cret"
                               page0))) = Some tok
          ∧ expiresAt tok = minutes 0 + tokenLifetime envOffline)
  ∧ ∀ t, store (advanceTo envOffline t
                  (snd (login envOffline (minutes 0) allowedAdminEmail "s3cret" page0)))
         = store (snd (login envOffline (minutes 0) allowedAdminEmail "s3cret" page0))
         ∧ validateToken
             (advanceTo envOffline t
                (snd (login envOffline (minutes 0) allowedAdminEmail "s3cret" page0)))
           = true.
Proof.
  apply (failed_refreshes_never_end_the_session envOffline (minutes 0) allowedAdminEmail
           "s3cret" page0).
  - intros t. reflexivity.
  - vm_compute. reflexivity.
Defined.

Lemma stale_persisted_session_is_dropped_witness :
  validateToken (freshPage backend0 [] persistedStore) = true
  ∧ sessionDiscarded env
      (run env [InitializeAuth; AuthStateChanged (minutes 90)
                                  (getIdToken env (minutes 90) adminAccount)]
         (freshPage backend0 [] persistedStore)).
Proof.
  destruct (stale_persisted_session_is_dropped env backend0 [] persistedStore
              (minutes 90) (getIdToken env (minutes 90) adminAccount))
    as (Hbefore & Hafter & _).
  - reflexivity.
  - split; [exact Hbefore|exact Hafter].
Defined.

End Instances.
